(** * Marketplace data and access-control model

    A shallow embedding of the relational schema, the row-level security
    policies, the triggers and the stored procedures of the marketplace
    migrations, and of the client functions of [lib/supabase] and
    [lib/location] that call them.

    Conventions
    - a table is a [list] of rows, in physical order; a nullable column is
      an [option];
    - [uuid] values are compared as 128-bit unsigned numbers (PostgreSQL
      compares uuids bytewise);
    - [decimal(10,2)] columns hold hundredths as a [Z]; latitude and
      longitude hold 1e-8 degrees as a [Z];
    - a JavaScript [number] that the user interface computes with is a
      binary64 [float]; a number of a request body is the decimal it is
      written as, a [Q];
    - [now()] and [uuid_generate_v4()] are explicit arguments of the
      statements that evaluate them. *)

From Stdlib Require Import PrimFloat.
From Stdlib Require Import ZArith NArith QArith Qround List String DecimalString
  Bool Lia Permutation Sorting.Sorted.
Import ListNotations.

(* Decimal literals of [float] stand for the nearest binary64 number. *)
#[local] Set Warnings "-inexact-float".

Local Open Scope string_scope.
Local Open Scope Z_scope.

(* ================================================================== *)
(** ** Errors and results *)
(* ================================================================== *)

Inductive sql_error : Type :=
| check_violation (constraint : string)
| unique_violation (constraint : string)
| foreign_key_violation (constraint : string)
| rls_violation (table : string)          (* new row violates row-level security policy *)
| numeric_value_out_of_range
| ambiguous_column (column : string)      (* 42702, raised by PL/pgSQL name resolution *)
| negative_limit                          (* LIMIT must not be negative *)
| raise_exception (message : string)      (* RAISE EXCEPTION / throw new Error *)
| undefined_function (name : string)      (* PGRST202: no function matches the call *)
| invalid_text_representation.            (* a value that does not parse as the column type *)

Inductive result (A : Type) : Type :=
| Ok (a : A)
| Err (e : sql_error).
Arguments Ok {A} a.
Arguments Err {A} e.

Definition bind {A B : Type} (m : result A) (k : A -> result B) : result B :=
  match m with
  | Ok a => k a
  | Err e => Err e
  end.

Declare Scope result_scope.
Delimit Scope result_scope with result.
Notation "x <- m ;; k" := (bind m (fun x => k))
  (at level 61, m at next level, right associativity) : result_scope.
Notation "m ;;; k" := (bind m (fun _ => k))
  (at level 61, right associativity) : result_scope.
Local Open Scope result_scope.

Definition is_ok {A : Type} (m : result A) : bool :=
  match m with Ok _ => true | Err _ => false end.

Definition guard (b : bool) (e : sql_error) : result unit :=
  if b then Ok tt else Err e.

(** All-or-nothing traversal: the first failing element fails the whole. *)
Fixpoint map_result {A B : Type} (f : A -> result B) (l : list A) : result (list B) :=
  match l with
  | [] => Ok []
  | a :: tl => b <- f a ;; bs <- map_result f tl ;; Ok (b :: bs)
  end.

(* ================================================================== *)
(** ** SQL three-valued logic *)
(* ================================================================== *)

(** [None] is NULL (unknown). *)
Definition tri : Type := option bool.

Definition sql_eq {A : Type} (eqb : A -> A -> bool) (a b : option A) : tri :=
  match a, b with
  | Some x, Some y => Some (eqb x y)
  | _, _ => None
  end.

Definition sql_and (a b : tri) : tri :=
  match a, b with
  | Some false, _ | _, Some false => Some false
  | Some true, Some true => Some true
  | _, _ => None
  end.

Definition sql_or (a b : tri) : tri :=
  match a, b with
  | Some true, _ | _, Some true => Some true
  | Some false, Some false => Some false
  | _, _ => None
  end.

Definition is_null {A : Type} (a : option A) : bool :=
  match a with None => true | Some _ => false end.

(** A WHERE clause, an IF condition and a policy keep a row only when the
    condition is true; false and NULL both reject. *)
Definition is_true (t : tri) : bool :=
  match t with Some true => true | _ => false end.

(** [a IS DISTINCT FROM b]: NULL-safe inequality, never NULL. *)
Definition is_distinct_from {A : Type} (eqb : A -> A -> bool) (a b : option A) : bool :=
  match a, b with
  | None, None => false
  | Some x, Some y => negb (eqb x y)
  | _, _ => true
  end.

(* ================================================================== *)
(** ** Column types *)
(* ================================================================== *)

Definition uuid : Type := N.
Definition timestamptz : Type := Z.
Definition text : Type := string.

Inductive user_role : Type := buyer | seller | both.
Inductive product_condition : Type := cond_new | like_new | good | fair | poor.
Inductive product_status : Type := active | sold | inactive.
Inductive order_status : Type :=
  pending | confirmed | shipped | delivered | cancelled | returned.

Definition product_status_eqb (a b : product_status) : bool :=
  match a, b with
  | active, active | sold, sold | inactive, inactive => true
  | _, _ => false
  end.

Definition product_condition_eqb (a b : product_condition) : bool :=
  match a, b with
  | cond_new, cond_new | like_new, like_new | good, good
  | fair, fair | poor, poor => true
  | _, _ => false
  end.

(** GEOGRAPHY(POINT, 4326): [ST_SetSRID(ST_MakePoint(lon, lat), 4326)]. *)
Record geography : Type := ST_MakePoint { geo_lon : Z; geo_lat : Z }.

(** Assignment to a [decimal(10,2)] column: the value is rounded to two
    decimals, half away from zero, and must then be below 10^8 in
    magnitude. The result is in hundredths. *)
Definition round_half_away (q : Q) : Z :=
  if Qle_bool 0 q then Qfloor (q + (1 # 2))%Q else - Qfloor (- q + (1 # 2))%Q.

Definition to_decimal_10_2 (q : Q) : result Z :=
  let c := round_half_away (q * 100)%Q in
  if Z.abs c <? 10 ^ 10 then Ok c else Err numeric_value_out_of_range.

(** Assignment to [latitude DECIMAL(10, 8)] and [longitude DECIMAL(11, 8)]:
    the value is rounded to eight decimals and must then be below 10^2,
    respectively 10^3, in magnitude. The result is in 1e-8 degrees. *)
Definition to_decimal_10_8 (q : Q) : result Z :=
  let c := round_half_away (q * 100000000)%Q in
  if Z.abs c <? 10 ^ 10 then Ok c else Err numeric_value_out_of_range.

Definition to_decimal_11_8 (q : Q) : result Z :=
  let c := round_half_away (q * 100000000)%Q in
  if Z.abs c <? 10 ^ 11 then Ok c else Err numeric_value_out_of_range.

(** Assignment to an [integer] column. *)
Definition to_integer (z : Z) : result Z :=
  if (- 2 ^ 31 <=? z) && (z <? 2 ^ 31) then Ok z else Err numeric_value_out_of_range.

(* ================================================================== *)
(** ** Rows *)
(* ================================================================== *)

Module UserProfile.
Record row : Type := mk {
  id : uuid;
  full_name : text;
  phone : option text;
  address : option text;
  role : user_role;
  avatar_url : option text;
  created_at : option timestamptz;
  updated_at : option timestamptz;
  city : option text;
  state : option text;
  pincode : option text;
  latitude : option Z;
  longitude : option Z;
  location_point : option geography
}.

Definition set_updated_at (v : option timestamptz) (r : row) : row :=
  mk (id r) (full_name r) (phone r) (address r) (role r) (avatar_url r)
     (created_at r) v (city r) (state r) (pincode r) (latitude r)
     (longitude r) (location_point r).
Definition set_location_point (v : option geography) (r : row) : row :=
  mk (id r) (full_name r) (phone r) (address r) (role r) (avatar_url r)
     (created_at r) (updated_at r) (city r) (state r) (pincode r)
     (latitude r) (longitude r) v.

(* SET city, state, pincode, latitude, longitude *)
Definition set_location (c st pc : option text) (lat lon : option Z)
    (r : row) : row :=
  mk (id r) (full_name r) (phone r) (address r) (role r) (avatar_url r)
     (created_at r) (updated_at r) c st pc lat lon (location_point r).
End UserProfile.

Module Category.
Record row : Type := mk {
  id : uuid;
  name : text;
  description : option text;
  created_at : option timestamptz
}.
End Category.

Module Product.
Record row : Type := mk {
  id : uuid;
  seller_id : uuid;
  title : text;
  description : text;
  price : Z;
  category_id : uuid;
  condition : product_condition;
  location : text;
  image_urls : option (list text);
  status : product_status;
  views : option Z;
  created_at : option timestamptz;
  updated_at : option timestamptz;
  city : option text;
  state : option text;
  pincode : option text;
  latitude : option Z;
  longitude : option Z;
  location_point : option geography;
  is_donation : option bool;
  is_urgent : option bool
}.

Definition set_price (v : Z) (r : row) : row :=
  mk (id r) (seller_id r) (title r) (description r) v (category_id r)
     (condition r) (location r) (image_urls r) (status r) (views r)
     (created_at r) (updated_at r) (city r) (state r) (pincode r)
     (latitude r) (longitude r) (location_point r) (is_donation r)
     (is_urgent r).
Definition set_updated_at (v : option timestamptz) (r : row) : row :=
  mk (id r) (seller_id r) (title r) (description r) (price r) (category_id r)
     (condition r) (location r) (image_urls r) (status r) (views r)
     (created_at r) v (city r) (state r) (pincode r)
     (latitude r) (longitude r) (location_point r) (is_donation r)
     (is_urgent r).
Definition set_location_point (v : option geography) (r : row) : row :=
  mk (id r) (seller_id r) (title r) (description r) (price r) (category_id r)
     (condition r) (location r) (image_urls r) (status r) (views r)
     (created_at r) (updated_at r) (city r) (state r) (pincode r)
     (latitude r) (longitude r) v (is_donation r) (is_urgent r).

(* SET city, state, pincode, latitude, longitude, location_point, updated_at *)
Definition set_location (c st pc : option text) (lat lon : option Z)
    (pt : option geography) (upd : option timestamptz) (r : row) : row :=
  mk (id r) (seller_id r) (title r) (description r) (price r) (category_id r)
     (condition r) (location r) (image_urls r) (status r) (views r)
     (created_at r) upd c st pc lat lon pt (is_donation r) (is_urgent r).
End Product.

Module Order.
Record address : Type := mk_address {
  name : text;
  street : text;
  city : text;
  postalCode : text;
  phone : text
}.
Record row : Type := mk {
  id : uuid;
  buyer_id : uuid;
  seller_id : uuid;
  total_amount : Z;
  status : order_status;
  delivery_address : address;
  payment_method : text;
  notes : option text;
  created_at : option timestamptz;
  updated_at : option timestamptz
}.

Definition set_total_amount (v : Z) (r : row) : row :=
  mk (id r) (buyer_id r) (seller_id r) v (status r) (delivery_address r)
     (payment_method r) (notes r) (created_at r) (updated_at r).
Definition set_updated_at (v : option timestamptz) (r : row) : row :=
  mk (id r) (buyer_id r) (seller_id r) (total_amount r) (status r)
     (delivery_address r) (payment_method r) (notes r) (created_at r) v.
End Order.

Module OrderItem.
Record row : Type := mk {
  id : uuid;
  order_id : uuid;
  product_id : uuid;
  quantity : Z;
  unit_price : Z;
  total_price : Z;
  created_at : option timestamptz
}.

Definition set_quantity (v : Z) (r : row) : row :=
  mk (id r) (order_id r) (product_id r) v (unit_price r) (total_price r)
     (created_at r).
Definition set_unit_price (v : Z) (r : row) : row :=
  mk (id r) (order_id r) (product_id r) (quantity r) v (total_price r)
     (created_at r).
Definition set_total_price (v : Z) (r : row) : row :=
  mk (id r) (order_id r) (product_id r) (quantity r) (unit_price r) v
     (created_at r).
End OrderItem.

Module Wishlist.
Record row : Type := mk {
  id : uuid;
  user_id : uuid;
  product_id : uuid;
  created_at : option timestamptz
}.
End Wishlist.

Module Conversation.
Record row : Type := mk {
  id : uuid;
  user1_id : uuid;
  user2_id : uuid;
  product_id : option uuid;
  last_message_at : option timestamptz;
  created_at : option timestamptz
}.

Definition set_product_id (v : option uuid) (r : row) : row :=
  mk (id r) (user1_id r) (user2_id r) v (last_message_at r) (created_at r).
End Conversation.

Module Message.
Record row : Type := mk {
  id : uuid;
  conversation_id : uuid;
  sender_id : uuid;
  receiver_id : uuid;
  product_id : option uuid;
  message_text : text;
  is_read : option bool;
  created_at : option timestamptz;
  updated_at : option timestamptz
}.

Definition set_product_id (v : option uuid) (r : row) : row :=
  mk (id r) (conversation_id r) (sender_id r) (receiver_id r) v
     (message_text r) (is_read r) (created_at r) (updated_at r).
End Message.

(** The database: one list of rows per table. *)
Record db : Type := mk_db {
  user_profiles : list UserProfile.row;
  categories : list Category.row;
  products : list Product.row;
  orders : list Order.row;
  order_items : list OrderItem.row;
  wishlists : list Wishlist.row;
  conversations : list Conversation.row;
  messages : list Message.row
}.

Definition empty_db : db := mk_db [] [] [] [] [] [] [] [].

Definition with_categories (cs : list Category.row) (d : db) : db :=
  mk_db (user_profiles d) cs (products d) (orders d) (order_items d)
        (wishlists d) (conversations d) (messages d).
Definition with_products (ps : list Product.row) (d : db) : db :=
  mk_db (user_profiles d) (categories d) ps (orders d) (order_items d)
        (wishlists d) (conversations d) (messages d).
Definition with_user_profiles (us : list UserProfile.row) (d : db) : db :=
  mk_db us (categories d) (products d) (orders d) (order_items d)
        (wishlists d) (conversations d) (messages d).
Definition with_orders (os : list Order.row) (d : db) : db :=
  mk_db (user_profiles d) (categories d) (products d) os (order_items d)
        (wishlists d) (conversations d) (messages d).
Definition with_order_items (its : list OrderItem.row) (d : db) : db :=
  mk_db (user_profiles d) (categories d) (products d) (orders d) its
        (wishlists d) (conversations d) (messages d).
Definition with_wishlists (ws : list Wishlist.row) (d : db) : db :=
  mk_db (user_profiles d) (categories d) (products d) (orders d) (order_items d)
        ws (conversations d) (messages d).
Definition with_conversations (cs : list Conversation.row) (d : db) : db :=
  mk_db (user_profiles d) (categories d) (products d) (orders d) (order_items d)
        (wishlists d) cs (messages d).
Definition with_messages (ms : list Message.row) (d : db) : db :=
  mk_db (user_profiles d) (categories d) (products d) (orders d) (order_items d)
        (wishlists d) (conversations d) ms.

(* ================================================================== *)
(** ** Sessions and row-level security *)
(* ================================================================== *)

(** The role a request runs as. [auth.uid()] is the identity of an
    authenticated request and NULL otherwise; [service_role] bypasses
    row-level security. *)
Inductive session : Type :=
| anon
| authenticated (uid : uuid)
| service_role.

Definition auth_uid (s : session) : option uuid :=
  match s with
  | authenticated u => Some u
  | _ => None
  end.

Inductive policy_cmd : Type :=
  FOR_ALL | FOR_SELECT | FOR_INSERT | FOR_UPDATE | FOR_DELETE.

Definition policy_cmd_eqb (a b : policy_cmd) : bool :=
  match a, b with
  | FOR_ALL, FOR_ALL | FOR_SELECT, FOR_SELECT | FOR_INSERT, FOR_INSERT
  | FOR_UPDATE, FOR_UPDATE | FOR_DELETE, FOR_DELETE => true
  | _, _ => false
  end.

(** CREATE POLICY name ON table FOR cmd TO authenticated USING (..)
    WITH CHECK (..). Every policy of the migrations is TO authenticated,
    so the expressions take the non-NULL [auth.uid()]. *)
Record policy (row : Type) : Type := mk_policy {
  pol_name : string;
  pol_cmd : policy_cmd;
  pol_using : option (db -> uuid -> row -> bool);
  pol_with_check : option (db -> uuid -> row -> bool)
}.
Arguments mk_policy {row}.
Arguments pol_name {row}.
Arguments pol_cmd {row}.
Arguments pol_using {row}.
Arguments pol_with_check {row}.

Section Statements.
Context {row : Type}.

Definition pol_applies (c : policy_cmd) (p : policy row) : bool :=
  policy_cmd_eqb (pol_cmd p) FOR_ALL || policy_cmd_eqb (pol_cmd p) c.

(** The expression a policy contributes to the rows an existing-row
    command may see. *)
Definition pol_qual (d : db) (u : uuid) (r : row) (p : policy row) : bool :=
  match pol_using p with
  | Some q => q d u r
  | None => false
  end.

(** The expression checked on a new row: WITH CHECK, or USING when the
    policy has no WITH CHECK. *)
Definition pol_wco (d : db) (u : uuid) (r : row) (p : policy row) : bool :=
  match pol_with_check p with
  | Some q => q d u r
  | None => pol_qual d u r p
  end.

(** Permissive policies are combined with OR; with no applicable policy
    the default is to deny. *)
Definition rls_using (ps : list (policy row)) (c : policy_cmd)
    (s : session) (d : db) (r : row) : bool :=
  match s with
  | service_role => true
  | anon => false
  | authenticated u => existsb (fun p => pol_applies c p && pol_qual d u r p) ps
  end.

Definition rls_with_check (ps : list (policy row)) (c : policy_cmd)
    (s : session) (d : db) (r : row) : bool :=
  match s with
  | service_role => true
  | anon => false
  | authenticated u => existsb (fun p => pol_applies c p && pol_wco d u r p) ps
  end.

(** What the migrations declare about one table. *)
Record table : Type := mk_table {
  tbl_name : string;
  tbl_rows : db -> list row;
  tbl_with : list row -> db -> db;
  tbl_policies : list (policy row);
  (* CHECK constraints of the columns *)
  tbl_check : row -> result unit;
  (* PRIMARY KEY and UNIQUE: constraint name, and when two rows collide *)
  tbl_unique : list (string * (row -> row -> bool));
  (* REFERENCES *)
  tbl_references : db -> row -> result unit;
  (* BEFORE INSERT and BEFORE UPDATE row triggers *)
  tbl_before_insert : row -> row;
  tbl_before_update : timestamptz -> row -> row
}.

Variable T : table.

Definition first_conflict (r : row) (others : list row) : option string :=
  option_map fst (find (fun u => existsb (snd u r) others) (tbl_unique T)).

Definition check_unique (r : row) (others : list row) : result unit :=
  match first_conflict r others with
  | Some c => Err (unique_violation c)
  | None => Ok tt
  end.

(** INSERT INTO t VALUES (r): BEFORE triggers, the row-security check,
    the column constraints, the unique indexes, the foreign keys.
    A statement that also returns the row has the policies for SELECT
    checked on the new row too; in this schema a row that passes the
    policies for writing passes those for reading (see
    [written_rows_are_readable]), so that check is not repeated. *)
Definition sql_insert (s : session) (d : db) (r0 : row) : result db :=
  let r := tbl_before_insert T r0 in
  guard (rls_with_check (tbl_policies T) FOR_INSERT s d r)
        (rls_violation (tbl_name T)) ;;;
  tbl_check T r ;;;
  check_unique r (tbl_rows T d) ;;;
  tbl_references T d r ;;;
  Ok (tbl_with T (tbl_rows T d ++ [r]) d).

(** A multi-row INSERT is one statement: all rows or none. *)
Fixpoint sql_insert_all (s : session) (d : db) (rs : list row) : result db :=
  match rs with
  | [] => Ok d
  | r :: tl => d' <- sql_insert s d r ;; sql_insert_all s d' tl
  end.

(** SELECT * FROM t WHERE w. *)
Definition sql_select (s : session) (d : db) (w : row -> bool) : list row :=
  filter (fun r => rls_using (tbl_policies T) FOR_SELECT s d r && w r)
         (tbl_rows T d).

(** The rows an UPDATE .. WHERE w touches: those the WHERE clause keeps
    among the rows the session may both read and update. Rows hidden by
    a policy are skipped without an error. *)
Definition update_target (s : session) (d : db) (w : row -> bool) (r : row) : bool :=
  w r && rls_using (tbl_policies T) FOR_SELECT s d r
      && rls_using (tbl_policies T) FOR_UPDATE s d r.

(** The row an UPDATE writes in place of [r]: the assignments, the
    BEFORE triggers, then the checks of the new row. The foreign keys
    are looked up for every written row. *)
Definition updated_row (s : session) (now : timestamptz) (d : db)
    (set : row -> row) (r : row) : result row :=
  let r' := tbl_before_update T now (set r) in
  guard (rls_with_check (tbl_policies T) FOR_UPDATE s d r')
        (rls_violation (tbl_name T)) ;;;
  tbl_check T r' ;;;
  tbl_references T d r' ;;;
  Ok r'.

Definition update_step (s : session) (now : timestamptz) (d : db)
    (w : row -> bool) (set : row -> row) (r : row) : result (bool * row) :=
  if update_target s d w r
  then r' <- updated_row s now d set r ;; Ok (true, r')
  else Ok (false, r).

(** A unique index is violated when a written row collides with any
    other row of the table after the statement. *)
Fixpoint update_conflict (l : list (bool * row)) : option string :=
  match l with
  | [] => None
  | (b, r) :: tl =>
      match first_conflict r (map snd (filter (fun x => b || fst x) tl)) with
      | Some c => Some c
      | None => update_conflict tl
      end
  end.

(** UPDATE t SET .. WHERE w: one statement, all rows or none. *)
Definition sql_update (s : session) (now : timestamptz) (d : db)
    (w : row -> bool) (set : row -> row) : result db :=
  rows <- map_result (update_step s now d w set) (tbl_rows T d) ;;
  match update_conflict rows with
  | Some c => Err (unique_violation c)
  | None => Ok (tbl_with T (map snd rows) d)
  end.

(** DELETE FROM t WHERE w. *)
Definition delete_target (s : session) (d : db) (w : row -> bool) (r : row) : bool :=
  w r && rls_using (tbl_policies T) FOR_SELECT s d r
      && rls_using (tbl_policies T) FOR_DELETE s d r.

Definition sql_delete (s : session) (d : db) (w : row -> bool) : db :=
  tbl_with T (filter (fun r => negb (delete_target s d w r)) (tbl_rows T d)) d.

End Statements.
Arguments table row : clear implicits.


(* ================================================================== *)
(** ** The schema: constraints, triggers and policies per table *)
(* ================================================================== *)

Definition has_user (d : db) (k : uuid) : bool :=
  existsb (fun u => N.eqb (UserProfile.id u) k) (user_profiles d).
Definition has_category (d : db) (k : uuid) : bool :=
  existsb (fun c => N.eqb (Category.id c) k) (categories d).
Definition has_product (d : db) (k : uuid) : bool :=
  existsb (fun p => N.eqb (Product.id p) k) (products d).
Definition has_order (d : db) (k : uuid) : bool :=
  existsb (fun o => N.eqb (Order.id o) k) (orders d).
Definition has_conversation (d : db) (k : uuid) : bool :=
  existsb (fun c => N.eqb (Conversation.id c) k) (conversations d).

Definition references (fk : string) (found : bool) : result unit :=
  guard found (foreign_key_violation fk).

Definition check (name : string) (holds : bool) : result unit :=
  guard holds (check_violation name).

Module Triggers.

(** handle_updated_at: NEW.updated_at = now(). *)
(** update_location_point: the point follows latitude and longitude
    when both are present, and keeps its value otherwise. *)
Definition update_location_point_product (r : Product.row) : Product.row :=
  match Product.latitude r, Product.longitude r with
  | Some lat, Some lon => Product.set_location_point (Some (ST_MakePoint lon lat)) r
  | _, _ => r
  end.

Definition update_location_point_profile (r : UserProfile.row) : UserProfile.row :=
  match UserProfile.latitude r, UserProfile.longitude r with
  | Some lat, Some lon =>
      UserProfile.set_location_point (Some (ST_MakePoint lon lat)) r
  | _, _ => r
  end.

End Triggers.

Module Schema.

Definition user_profiles_policies : list (policy UserProfile.row) :=
  [ mk_policy "Users can view own profile" FOR_SELECT
      (Some (fun _ u r => N.eqb u (UserProfile.id r))) None;
    mk_policy "Users can update own profile" FOR_UPDATE
      (Some (fun _ u r => N.eqb u (UserProfile.id r))) None;
    mk_policy "Public profiles are viewable by everyone" FOR_SELECT
      (Some (fun _ _ _ => true)) None ].

Definition user_profiles_table : table UserProfile.row :=
  mk_table "user_profiles" user_profiles with_user_profiles
    user_profiles_policies
    (fun _ => Ok tt)
    [ ("user_profiles_pkey",
       fun a b => N.eqb (UserProfile.id a) (UserProfile.id b)) ]
    (fun _ _ => Ok tt)
    Triggers.update_location_point_profile
    (fun now r => Triggers.update_location_point_profile
                    (UserProfile.set_updated_at (Some now) r)).

Definition categories_policies : list (policy Category.row) :=
  [ mk_policy "Categories are viewable by everyone" FOR_SELECT
      (Some (fun _ _ _ => true)) None ].

Definition categories_table : table Category.row :=
  mk_table "categories" categories with_categories
    categories_policies
    (fun _ => Ok tt)
    [ ("categories_pkey", fun a b => N.eqb (Category.id a) (Category.id b));
      ("categories_name_key",
       fun a b => String.eqb (Category.name a) (Category.name b)) ]
    (fun _ _ => Ok tt)
    (fun r => r)
    (fun _ r => r).

Definition products_policies : list (policy Product.row) :=
  [ mk_policy "Products are viewable by everyone" FOR_SELECT
      (Some (fun _ _ r => product_status_eqb (Product.status r) active)) None;
    mk_policy "Sellers can insert own products" FOR_INSERT
      None (Some (fun _ u r => N.eqb u (Product.seller_id r)));
    mk_policy "Sellers can update own products" FOR_UPDATE
      (Some (fun _ u r => N.eqb u (Product.seller_id r))) None;
    mk_policy "Sellers can delete own products" FOR_DELETE
      (Some (fun _ u r => N.eqb u (Product.seller_id r))) None;
    mk_policy "Active products are viewable by everyone" FOR_SELECT
      (Some (fun _ _ r => product_status_eqb (Product.status r) active)) None;
    mk_policy "Sellers can manage own products" FOR_ALL
      (Some (fun _ u r => N.eqb u (Product.seller_id r))) None ].

Definition products_table : table Product.row :=
  mk_table "products" products with_products
    products_policies
    (fun r => check "products_price_check" (0 <? Product.price r))
    [ ("products_pkey", fun a b => N.eqb (Product.id a) (Product.id b)) ]
    (fun d r =>
       references "products_seller_id_fkey" (has_user d (Product.seller_id r)) ;;;
       references "products_category_id_fkey"
                  (has_category d (Product.category_id r)))
    Triggers.update_location_point_product
    (fun now r => Triggers.update_location_point_product
                    (Product.set_updated_at (Some now) r)).

Definition orders_policies : list (policy Order.row) :=
  [ mk_policy "Users can view own orders as buyer" FOR_SELECT
      (Some (fun _ u r => N.eqb u (Order.buyer_id r))) None;
    mk_policy "Users can view own orders as seller" FOR_SELECT
      (Some (fun _ u r => N.eqb u (Order.seller_id r))) None;
    mk_policy "Buyers can create orders" FOR_INSERT
      None (Some (fun _ u r => N.eqb u (Order.buyer_id r)));
    mk_policy "Sellers can update order status" FOR_UPDATE
      (Some (fun _ u r => N.eqb u (Order.seller_id r))) None ].

Definition orders_table : table Order.row :=
  mk_table "orders" orders with_orders
    orders_policies
    (fun r => check "orders_total_amount_check" (0 <? Order.total_amount r))
    [ ("orders_pkey", fun a b => N.eqb (Order.id a) (Order.id b)) ]
    (fun d r =>
       references "orders_buyer_id_fkey" (has_user d (Order.buyer_id r)) ;;;
       references "orders_seller_id_fkey" (has_user d (Order.seller_id r)))
    (fun r => r)
    (fun now r => Order.set_updated_at (Some now) r).

(** The EXISTS sub-selects of the order_items policies read [orders]
    as the requesting user, who sees the orders of which they are the
    buyer or the seller; the conditions below select among those. *)
Definition order_items_policies : list (policy OrderItem.row) :=
  [ mk_policy "Users can view order items for their orders" FOR_SELECT
      (Some (fun d u r =>
         existsb (fun o => N.eqb (Order.id o) (OrderItem.order_id r)
                           && (N.eqb (Order.buyer_id o) u
                               || N.eqb (Order.seller_id o) u))
                 (orders d))) None;
    mk_policy "Buyers can create order items" FOR_INSERT
      None
      (Some (fun d u r =>
         existsb (fun o => N.eqb (Order.id o) (OrderItem.order_id r)
                           && N.eqb (Order.buyer_id o) u)
                 (orders d))) ].

Definition order_items_table : table OrderItem.row :=
  mk_table "order_items" order_items with_order_items
    order_items_policies
    (fun r =>
       (* the constraints of a row are checked in the order of their names *)
       check "order_items_quantity_check" (0 <? OrderItem.quantity r) ;;;
       check "order_items_total_price_check" (0 <? OrderItem.total_price r) ;;;
       check "order_items_unit_price_check" (0 <? OrderItem.unit_price r))
    [ ("order_items_pkey", fun a b => N.eqb (OrderItem.id a) (OrderItem.id b)) ]
    (fun d r =>
       references "order_items_order_id_fkey" (has_order d (OrderItem.order_id r)) ;;;
       references "order_items_product_id_fkey"
                  (has_product d (OrderItem.product_id r)))
    (fun r => r)
    (fun _ r => r).

Definition wishlists_policies : list (policy Wishlist.row) :=
  [ mk_policy "Users can view own wishlist" FOR_SELECT
      (Some (fun _ u r => N.eqb u (Wishlist.user_id r))) None;
    mk_policy "Users can add to own wishlist" FOR_INSERT
      None (Some (fun _ u r => N.eqb u (Wishlist.user_id r)));
    mk_policy "Users can remove from own wishlist" FOR_DELETE
      (Some (fun _ u r => N.eqb u (Wishlist.user_id r))) None ].

Definition wishlists_table : table Wishlist.row :=
  mk_table "wishlists" wishlists with_wishlists
    wishlists_policies
    (fun _ => Ok tt)
    [ ("wishlists_pkey", fun a b => N.eqb (Wishlist.id a) (Wishlist.id b));
      ("wishlists_user_id_product_id_key",
       fun a b => N.eqb (Wishlist.user_id a) (Wishlist.user_id b)
                  && N.eqb (Wishlist.product_id a) (Wishlist.product_id b)) ]
    (fun d r =>
       references "wishlists_user_id_fkey" (has_user d (Wishlist.user_id r)) ;;;
       references "wishlists_product_id_fkey"
                  (has_product d (Wishlist.product_id r)))
    (fun r => r)
    (fun _ r => r).

Definition conversations_policies : list (policy Conversation.row) :=
  [ mk_policy "Users can view own conversations" FOR_SELECT
      (Some (fun _ u r => N.eqb u (Conversation.user1_id r)
                          || N.eqb u (Conversation.user2_id r))) None;
    mk_policy "Users can create conversations" FOR_INSERT
      None
      (Some (fun _ u r => N.eqb u (Conversation.user1_id r)
                          || N.eqb u (Conversation.user2_id r))) ].

(** UNIQUE(user1_id, user2_id, product_id): two NULL product_id never
    collide. *)
Definition conversations_table : table Conversation.row :=
  mk_table "conversations" conversations with_conversations
    conversations_policies
    (fun _ => Ok tt)
    [ ("conversations_pkey",
       fun a b => N.eqb (Conversation.id a) (Conversation.id b));
      ("conversations_user1_id_user2_id_product_id_key",
       fun a b => N.eqb (Conversation.user1_id a) (Conversation.user1_id b)
                  && N.eqb (Conversation.user2_id a) (Conversation.user2_id b)
                  && is_true (sql_eq N.eqb (Conversation.product_id a)
                                           (Conversation.product_id b))) ]
    (fun d r =>
       references "conversations_user1_id_fkey"
                  (has_user d (Conversation.user1_id r)) ;;;
       references "conversations_user2_id_fkey"
                  (has_user d (Conversation.user2_id r)) ;;;
       references "conversations_product_id_fkey"
                  (match Conversation.product_id r with
                   | Some p => has_product d p
                   | None => true
                   end))
    (fun r => r)
    (fun _ r => r).

Definition messages_policies : list (policy Message.row) :=
  [ mk_policy "Users can view own messages" FOR_SELECT
      (Some (fun _ u r => N.eqb u (Message.sender_id r)
                          || N.eqb u (Message.receiver_id r))) None;
    mk_policy "Users can send messages" FOR_INSERT
      None (Some (fun _ u r => N.eqb u (Message.sender_id r)));
    mk_policy "Users can update own messages" FOR_UPDATE
      (Some (fun _ u r => N.eqb u (Message.sender_id r)
                          || N.eqb u (Message.receiver_id r))) None ].

Definition messages_table : table Message.row :=
  mk_table "messages" messages with_messages
    messages_policies
    (fun _ => Ok tt)
    [ ("messages_pkey", fun a b => N.eqb (Message.id a) (Message.id b)) ]
    (fun d r =>
       references "messages_conversation_id_fkey"
                  (has_conversation d (Message.conversation_id r)) ;;;
       references "messages_sender_id_fkey" (has_user d (Message.sender_id r)) ;;;
       references "messages_receiver_id_fkey"
                  (has_user d (Message.receiver_id r)) ;;;
       references "messages_product_id_fkey"
                  (match Message.product_id r with
                   | Some p => has_product d p
                   | None => true
                   end))
    (fun r => r)
    (fun _ r => r).

End Schema.

(* ================================================================== *)
(** ** Stored procedures *)
(* ================================================================== *)

(** A SECURITY DEFINER function runs its statements as the owner of the
    tables, for whom row-level security is not applied; [auth.uid()]
    remains the identity of the caller. *)
Definition security_definer : session := service_role.

(** PL/pgSQL [variable_conflict]: what a name means in an SQL statement
    when it is both a column of a table of the statement and a variable
    or parameter of the function. The default, [conflict_error], raises
    "column reference is ambiguous"; no function of the migrations
    selects another mode. *)
Inductive variable_conflict : Type :=
| conflict_error
| use_variable
| use_column.

Definition plpgsql_default : variable_conflict := conflict_error.

Module Wishlists.

(** WHERE user_id = user_uuid AND product_id = product_uuid *)
Definition is_pair (user_uuid product_uuid : uuid) (w : Wishlist.row) : bool :=
  N.eqb (Wishlist.user_id w) user_uuid && N.eqb (Wishlist.product_id w) product_uuid.

Definition in_wishlist (d : db) (user_uuid product_uuid : uuid) : bool :=
  existsb (is_pair user_uuid product_uuid) (wishlists d).

(** toggle_wishlist(product_uuid uuid) RETURNS boolean, SECURITY DEFINER.
    [fresh] is the gen_random_uuid() default of the inserted row. *)
Definition toggle_wishlist (s : session) (fresh : uuid) (now : timestamptz)
    (product_uuid : uuid) (d : db) : result (bool * db) :=
  match auth_uid s with
  | None => Err (raise_exception "User not authenticated")
  | Some user_uuid =>
      (* SELECT EXISTS(SELECT 1 FROM wishlists WHERE ..) INTO wishlist_exists *)
      let wishlist_exists :=
        match sql_select Schema.wishlists_table security_definer d
                         (is_pair user_uuid product_uuid) with
        | [] => false
        | _ :: _ => true
        end in
      if wishlist_exists then
        Ok (false,
            sql_delete Schema.wishlists_table security_definer d
                       (is_pair user_uuid product_uuid))
      else
        d' <- sql_insert Schema.wishlists_table security_definer d
                (Wishlist.mk fresh user_uuid product_uuid (Some now)) ;;
        Ok (true, d')
  end.

End Wishlists.

Module Conversations.

(** The condition of the lookup
      WHERE user1_id = ordered_user1 AND user2_id = ordered_user2
        AND (product_id IS NULL
             OR conversations.product_id = get_or_create_conversation.product_id)
    The names user1_id, user2_id and product_id are columns of
    [conversations] and parameters of the function at once, so their
    meaning is decided by [variable_conflict]; the two qualified names
    of the last comparison are the column and the parameter in every
    mode. *)
Definition lookup_condition (vc : variable_conflict)
    (user1_id user2_id : uuid) (product_id : option uuid)
    (ordered_user1 ordered_user2 : uuid)
    : result (Conversation.row -> bool) :=
  match vc with
  | conflict_error => Err (ambiguous_column "user1_id")
  | use_column =>
      Ok (fun c =>
            N.eqb (Conversation.user1_id c) ordered_user1
            && N.eqb (Conversation.user2_id c) ordered_user2
            && is_true (sql_or (Some (is_null (Conversation.product_id c)))
                               (sql_eq N.eqb (Conversation.product_id c) product_id)))
  | use_variable =>
      Ok (fun c =>
            N.eqb user1_id ordered_user1
            && N.eqb user2_id ordered_user2
            && is_true (sql_or (Some (is_null product_id))
                               (sql_eq N.eqb (Conversation.product_id c) product_id)))
  end.

(** get_or_create_conversation(user1_id, user2_id, product_id DEFAULT NULL)
    RETURNS UUID, with the rights of the caller. The two participants are
    given (not NULL). [fresh] is the uuid_generate_v4() default of an
    inserted row. SELECT .. INTO keeps the first row of the result, NULL
    when there is none; the statement does not order its result, and in
    the two readings in which the lookup runs the rows are taken in the
    order of the table. *)
Definition get_or_create_conversation (vc : variable_conflict) (s : session)
    (fresh : uuid) (now : timestamptz)
    (user1_id user2_id : uuid) (product_id : option uuid) (d : db)
    : result (uuid * db) :=
  let '(ordered_user1, ordered_user2) :=
    if N.ltb user1_id user2_id then (user1_id, user2_id)
    else (user2_id, user1_id) in
  w <- lookup_condition vc user1_id user2_id product_id
                        ordered_user1 ordered_user2 ;;
  let conversation_id :=
    option_map Conversation.id
               (hd_error (sql_select Schema.conversations_table s d w)) in
  match conversation_id with
  | Some found => Ok (found, d)
  | None =>
      d' <- sql_insert Schema.conversations_table s d
              (Conversation.mk fresh ordered_user1 ordered_user2 product_id
                               (Some now) (Some now)) ;;
      Ok (fresh, d')
  end.

End Conversations.

(* ================================================================== *)
(** ** ORDER BY and LIMIT *)
(* ================================================================== *)

Section OrderBy.
Context {A : Type}.
(** [before a b]: [a] may be placed before [b]. *)
Variable before : A -> A -> bool.

Fixpoint insert_row (x : A) (l : list A) : list A :=
  match l with
  | [] => [x]
  | y :: tl => if before x y then x :: y :: tl else y :: insert_row x tl
  end.

(** ORDER BY: rows that compare equal keep the order of the input. *)
Definition order_by (l : list A) : list A := fold_right insert_row [] l.
End OrderBy.

(** LIMIT n: NULL is no limit, a negative count is an error. *)
Definition sql_limit {A : Type} (limit_count : option Z) (l : list A)
    : result (list A) :=
  match limit_count with
  | None => Ok l
  | Some n => if n <? 0 then Err negative_limit else Ok (firstn (Z.to_nat n) l)
  end.

(** A NULL sorts as larger than every value: last in ASC, first in DESC. *)
Definition compare_nulls_large {A : Type} (cmp : A -> A -> comparison)
    (a b : option A) : comparison :=
  match a, b with
  | None, None => Eq
  | None, Some _ => Gt
  | Some _, None => Lt
  | Some x, Some y => cmp x y
  end.

(** created_at DESC *)
Definition desc_before (a b : option timestamptz) : bool :=
  match compare_nulls_large Z.compare a b with
  | Lt => false
  | _ => true
  end.

(** created_at ASC *)
Definition asc_before (a b : option timestamptz) : bool :=
  match compare_nulls_large Z.compare a b with
  | Gt => false
  | _ => true
  end.

(* ================================================================== *)
(** ** Nearby products *)
(* ================================================================== *)

Module NearbyProduct.
(** RETURNS TABLE (..) of get_nearby_products. *)
Record row : Type := mk {
  id : uuid;
  title : text;
  description : text;
  price : Z;
  category_id : uuid;
  condition : product_condition;
  city : option text;
  state : option text;
  pincode : option text;
  image_urls : option (list text);
  status : product_status;
  views : option Z;
  created_at : option timestamptz;
  updated_at : option timestamptz;
  seller_id : uuid;
  seller_name : text;
  seller_rating : Q;
  category_name : text;
  distance_km : option Q
}.
End NearbyProduct.

Section Nearby.

(** PostGIS ST_Distance on geography: the distance in metres. *)
Variable ST_Distance : geography -> geography -> Q.

(** PostGIS ST_DWithin: whether the two points are within the given
    distance (metres) of one another; NULL when an argument is NULL. *)
Definition ST_DWithin (a b : option geography) (dist : option Q) : tri :=
  match a, b, dist with
  | Some x, Some y, Some r => Some (Qle_bool (ST_Distance x y) r)
  | _, _, _ => None
  end.

(** FROM products p
    JOIN user_profiles up ON p.seller_id = up.id
    JOIN categories c ON p.category_id = c.id
    read with the rights of the caller. *)
Definition from_products_sellers_categories (s : session) (d : db)
    : list (Product.row * UserProfile.row * Category.row) :=
  flat_map (fun p =>
    flat_map (fun up =>
      map (fun c => (p, up, c))
          (sql_select Schema.categories_table s d
             (fun c => N.eqb (Product.category_id p) (Category.id c))))
      (sql_select Schema.user_profiles_table s d
         (fun up => N.eqb (Product.seller_id p) (UserProfile.id up))))
    (sql_select Schema.products_table s d (fun _ => true)).

(** The select list; [distance_km] is the last column. *)
Definition select_list (distance_km : option Q)
    (j : Product.row * UserProfile.row * Category.row) : NearbyProduct.row :=
  let '(p, up, c) := j in
  NearbyProduct.mk
    (Product.id p) (Product.title p) (Product.description p) (Product.price p)
    (Product.category_id p) (Product.condition p) (Product.city p)
    (Product.state p) (Product.pincode p) (Product.image_urls p)
    (Product.status p) (Product.views p) (Product.created_at p)
    (Product.updated_at p) (Product.seller_id p)
    (UserProfile.full_name up) (45 # 10) (Category.name c) distance_km.

(** (ST_Distance(p.location_point, here) / 1000)::DECIMAL *)
Definition distance_km_from (here : geography) (p : Product.row) : option Q :=
  match Product.location_point p with
  | Some g => Some (ST_Distance g here / 1000)%Q
  | None => None
  end.

(** ORDER BY p.created_at DESC *)
Definition recent_first (a b : NearbyProduct.row) : bool :=
  desc_before (NearbyProduct.created_at a) (NearbyProduct.created_at b).

(** ORDER BY distance_km ASC, p.created_at DESC *)
Definition nearest_first (a b : NearbyProduct.row) : bool :=
  match compare_nulls_large Qcompare (NearbyProduct.distance_km a)
                                     (NearbyProduct.distance_km b) with
  | Lt => true
  | Gt => false
  | Eq => desc_before (NearbyProduct.created_at a) (NearbyProduct.created_at b)
  end.

(** WHERE p.status = 'active' AND p.location_point IS NOT NULL
      AND ST_DWithin(p.location_point, here, radius_km * 1000) *)
Definition within_radius (here : geography) (radius_m : option Q)
    (j : Product.row * UserProfile.row * Category.row) : bool :=
  let '(p, _, _) := j in
  is_true
    (sql_and (Some (product_status_eqb (Product.status p) active))
      (sql_and (Some (negb (is_null (Product.location_point p))))
               (ST_DWithin (Product.location_point p) (Some here) radius_m))).

Definition is_active (j : Product.row * UserProfile.row * Category.row) : bool :=
  let '(p, _, _) := j in product_status_eqb (Product.status p) active.

(** radius_km * 1000 is a product of two [integer]s; it does not depend
    on the row and is computed once for the statement. *)
Definition radius_in_metres (radius_km : option Z) : result (option Q) :=
  match radius_km with
  | None => Ok None
  | Some r => m <- to_integer (r * 1000) ;; Ok (Some (inject_Z m))
  end.

(** get_nearby_products(user_lat, user_lon, radius_km, limit_count),
    with the rights of the caller. *)
Definition get_nearby_products (s : session)
    (user_lat user_lon : option Z) (radius_km limit_count : option Z)
    (d : db) : result (list NearbyProduct.row) :=
  match user_lat, user_lon with
  | Some lat, Some lon =>
      (* Return products within radius, ordered by distance *)
      let here := ST_MakePoint lon lat in
      radius_m <- radius_in_metres radius_km ;;
      sql_limit limit_count
        (order_by nearest_first
           (map (fun j => select_list (distance_km_from here (fst (fst j))) j)
                (filter (within_radius here radius_m)
                        (from_products_sellers_categories s d))))
  | _, _ =>
      (* Return all active products if no location provided *)
      sql_limit limit_count
        (order_by recent_first
           (map (select_list None)
                (filter is_active (from_products_sellers_categories s d))))
  end.

End Nearby.

(* ================================================================== *)
(** ** Requests on tables *)
(* ================================================================== *)

(** What the data API executes for [from(table).insert/update/delete]:
    one SQL statement, run as the session of the request. Numbers of a
    request body are arbitrary decimals, assigned to the column type. *)
Module Rest.

Record product_input : Type := mk_product_input {
  pi_seller_id : uuid;
  pi_title : text;
  pi_description : text;
  pi_price : Q;
  pi_category_id : uuid;
  pi_condition : product_condition;
  pi_location : text;
  pi_image_urls : option (list text)
}.

(** INSERT INTO products; omitted columns take their DEFAULT. *)
Definition insert_product (s : session) (fresh : uuid) (now : timestamptz)
    (p : product_input) (d : db) : result db :=
  price <- to_decimal_10_2 (pi_price p) ;;
  sql_insert Schema.products_table s d
    (Product.mk fresh (pi_seller_id p) (pi_title p) (pi_description p) price
       (pi_category_id p) (pi_condition p) (pi_location p)
       (match pi_image_urls p with Some l => Some l | None => Some [] end)
       active (Some 0) (Some now) (Some now)
       None None None None None None (Some false) (Some false)).

(** UPDATE products SET .. WHERE w *)
Definition update_products (s : session) (now : timestamptz)
    (w : Product.row -> bool) (set : Product.row -> Product.row) (d : db)
    : result db :=
  sql_update Schema.products_table s now d w set.

(** UPDATE products SET price = v WHERE w *)
Definition update_product_price (s : session) (now : timestamptz)
    (w : Product.row -> bool) (v : Q) (d : db) : result db :=
  price <- to_decimal_10_2 v ;;
  update_products s now w (Product.set_price price) d.

(** DELETE FROM products WHERE w, with the referential actions of the
    tables that reference products: order_items and wishlists ON DELETE
    CASCADE, conversations and messages ON DELETE SET NULL. *)
Definition delete_products (s : session) (w : Product.row -> bool) (d : db) : db :=
  let deleted :=
    filter (delete_target Schema.products_table s d w) (products d) in
  let gone (k : uuid) : bool :=
    existsb (fun p => N.eqb (Product.id p) k) deleted in
  let gone_opt (k : option uuid) : bool :=
    match k with Some x => gone x | None => false end in
  let d1 := sql_delete Schema.products_table s d w in
  let d2 := with_order_items
              (filter (fun i => negb (gone (OrderItem.product_id i)))
                      (order_items d1)) d1 in
  let d3 := with_wishlists
              (filter (fun x => negb (gone (Wishlist.product_id x)))
                      (wishlists d2)) d2 in
  let d4 := with_conversations
              (map (fun c => if gone_opt (Conversation.product_id c)
                             then Conversation.set_product_id None c else c)
                   (conversations d3)) d3 in
  with_messages
    (map (fun m => if gone_opt (Message.product_id m)
                   then Message.set_product_id None m else m)
         (messages d4)) d4.

Record order_input : Type := mk_order_input {
  oi_buyer_id : uuid;
  oi_seller_id : uuid;
  oi_total_amount : Q;
  oi_delivery_address : Order.address;
  oi_payment_method : text;
  oi_notes : option text
}.

Definition order_row (fresh : uuid) (now : timestamptz) (total : Z)
    (o : order_input) : Order.row :=
  Order.mk fresh (oi_buyer_id o) (oi_seller_id o) total pending
           (oi_delivery_address o) (oi_payment_method o) (oi_notes o)
           (Some now) (Some now).

(** INSERT INTO orders *)
Definition insert_order (s : session) (fresh : uuid) (now : timestamptz)
    (o : order_input) (d : db) : result (Order.row * db) :=
  total <- to_decimal_10_2 (oi_total_amount o) ;;
  d' <- sql_insert Schema.orders_table s d (order_row fresh now total o) ;;
  Ok (order_row fresh now total o, d').

(** UPDATE orders SET total_amount = v WHERE w *)
Definition update_order_total_amount (s : session) (now : timestamptz)
    (w : Order.row -> bool) (v : Q) (d : db) : result db :=
  total <- to_decimal_10_2 v ;;
  sql_update Schema.orders_table s now d w (Order.set_total_amount total).

Record order_item_input : Type := mk_order_item_input {
  ii_order_id : uuid;
  ii_product_id : uuid;
  ii_quantity : Z;
  ii_unit_price : Q;
  ii_total_price : Q
}.

Definition order_item_row (now : timestamptz)
    (x : uuid * order_item_input) : result OrderItem.row :=
  let '(fresh, i) := x in
  quantity <- to_integer (ii_quantity i) ;;
  unit_price <- to_decimal_10_2 (ii_unit_price i) ;;
  total_price <- to_decimal_10_2 (ii_total_price i) ;;
  Ok (OrderItem.mk fresh (ii_order_id i) (ii_product_id i) quantity
                   unit_price total_price (Some now)).

(** The rows of a statement with the uuid each id defaults to: [fresh k]
    for the row of rank [k]. *)
Definition with_ids (fresh : nat -> uuid) (items : list order_item_input)
    : list (uuid * order_item_input) :=
  combine (map fresh (seq 0 (List.length items))) items.

(** INSERT INTO order_items, one statement for all the rows. *)
Definition insert_order_items (s : session) (now : timestamptz)
    (fresh : nat -> uuid) (items : list order_item_input) (d : db) : result db :=
  rows <- map_result (order_item_row now) (with_ids fresh items) ;;
  sql_insert_all Schema.order_items_table s d rows.

(** UPDATE order_items SET quantity = v WHERE w, and likewise for
    unit_price and total_price. *)
Definition update_order_item_quantity (s : session) (now : timestamptz)
    (w : OrderItem.row -> bool) (v : Z) (d : db) : result db :=
  quantity <- to_integer v ;;
  sql_update Schema.order_items_table s now d w (OrderItem.set_quantity quantity).

Definition update_order_item_unit_price (s : session) (now : timestamptz)
    (w : OrderItem.row -> bool) (v : Q) (d : db) : result db :=
  unit_price <- to_decimal_10_2 v ;;
  sql_update Schema.order_items_table s now d w (OrderItem.set_unit_price unit_price).

Definition update_order_item_total_price (s : session) (now : timestamptz)
    (w : OrderItem.row -> bool) (v : Q) (d : db) : result db :=
  total_price <- to_decimal_10_2 v ;;
  sql_update Schema.order_items_table s now d w
             (OrderItem.set_total_price total_price).

(** A request is a transaction of its own: the database after it is
    the one the statement produced, or the one before on an error. *)
Definition commit (r : result db) (d : db) : db :=
  match r with
  | Ok d' => d'
  | Err _ => d
  end.

End Rest.

(* ================================================================== *)
(** ** Remote procedure calls *)
(* ================================================================== *)

(** [supabase.rpc(name, args)]: the data API looks for a function of
    that name whose parameters are named by the keys of [args]; a
    parameter with a DEFAULT may be left out. When no function matches,
    the call fails and nothing is executed. *)
Module Rpc.

Inductive json : Type :=
| JNull
| JNumber (z : Z)
| JString (s : string).

Definition args : Type := list (string * json).

Record signature : Type := mk_signature {
  fn_name : string;
  (* parameter name, and whether it has a DEFAULT *)
  fn_params : list (string * bool)
}.

(** The functions that the CREATE FUNCTION statements of the migrations
    create. get_products_by_category is not one of them: its statement
    uses the name category_name twice, for a parameter and for a column
    of the result, and PostgreSQL refuses it. *)
Definition functions : list signature :=
  [ mk_signature "get_nearby_products"
      [ ("user_lat", true); ("user_lon", true);
        ("radius_km", true); ("limit_count", true) ];
    mk_signature "get_or_create_conversation"
      [ ("user1_id", false); ("user2_id", false); ("product_id", true) ];
    mk_signature "send_message"
      [ ("sender_id", false); ("receiver_id", false);
        ("message_text", false); ("product_id", true) ];
    mk_signature "toggle_wishlist" [ ("product_uuid", false) ];
    mk_signature "get_user_wishlist" [];
    mk_signature "get_special_products"
      [ ("product_type", true); ("limit_count", true) ] ].

Definition has_key (k : string) (a : args) : bool :=
  existsb (fun x => String.eqb (fst x) k) a.

Definition accepts (sg : signature) (a : args) : bool :=
  forallb (fun x => existsb (fun p => String.eqb (fst p) (fst x)) (fn_params sg)) a
  && forallb (fun p => snd p || has_key (fst p) a) (fn_params sg).

Definition resolve (name : string) (a : args) : result signature :=
  match find (fun sg => String.eqb (fn_name sg) name && accepts sg a) functions with
  | Some sg => Ok sg
  | None => Err (undefined_function name)
  end.

Definition lookup (k : string) (a : args) : option json :=
  option_map snd (find (fun x => String.eqb (fst x) k) a).

(** A numeric argument: the DEFAULT when the key is left out. *)
Definition numeric_arg (k : string) (default : option Z) (a : args)
    : result (option Z) :=
  match lookup k a with
  | None => Ok default
  | Some JNull => Ok None
  | Some (JNumber z) => Ok (Some z)
  | Some (JString _) => Err invalid_text_representation
  end.

Section Nearby.
Variable ST_Distance : geography -> geography -> Q.

Definition get_nearby_products (s : session) (a : args) (d : db)
    : result (list NearbyProduct.row) :=
  resolve "get_nearby_products" a ;;;
  user_lat <- numeric_arg "user_lat" None a ;;
  user_lon <- numeric_arg "user_lon" None a ;;
  radius_km <- numeric_arg "radius_km" (Some 50) a ;;
  limit_count <- numeric_arg "limit_count" (Some 20) a ;;
  get_nearby_products ST_Distance s user_lat user_lon radius_km limit_count d.
End Nearby.

End Rpc.

(* ================================================================== *)
(** ** The order context of the user interface *)
(* ================================================================== *)

(** [OrderProvider]: the orders of the session, held in memory. A
    JavaScript [number] is a binary64 floating-point number, and [+]
    and [*] on numbers are the IEEE 754 operations, rounding to the
    nearest, ties to even. *)
Module OrderContext.

Record OrderItem : Type := mk_item {
  item_id : string;
  title : string;
  price : float;
  image : string;
  quantity : float;
  seller_name : string
}.

Inductive status : Type := ordered | shipped | delivered | returned.

(** [orderDate] holds the instant whose ISO rendering the code stores. *)
Record Order : Type := mk_order {
  id : string;
  items : list OrderItem;
  totalAmount : float;
  order_status : status;
  orderDate : Z;
  deliveryAddress : Order.address;
  paymentMethod : string
}.

(** Date.now().toString() *)
Definition toString (z : Z) : string :=
  DecimalString.NilZero.string_of_int (Z.to_int z).

(** createOrder(items, deliveryAddress, paymentMethod): the new order
    goes in front of the list and its id is returned. [Date_now] is the
    clock, in milliseconds. The total is
      items.reduce((total, item) => total + (item.price * item.quantity), 0) *)
Definition createOrder (Date_now : Z) (items : list OrderItem)
    (deliveryAddress : Order.address) (paymentMethod : string)
    (orders : list Order) : string * list Order :=
  let newOrder :=
    mk_order (toString Date_now)
             items
             (fold_left (fun total item => total + price item * quantity item)%float
                        items 0%float)
             ordered
             Date_now
             deliveryAddress
             paymentMethod in
  (id newOrder, newOrder :: orders).

End OrderContext.

(* ================================================================== *)
(** ** Client library: lib/supabase *)
(* ================================================================== *)

(** JavaScript truthiness of an optional string and an optional number. *)
Definition truthy_string (x : option string) : bool :=
  match x with
  | Some v => negb (String.eqb v "")
  | None => false
  end.

Definition truthy_number (x : option Q) : bool :=
  match x with
  | Some v => negb (Qeq_bool v 0)
  | None => false
  end.

(** The value of an optional field that was tested to be present. *)
Definition string_of (x : option string) : string :=
  match x with Some v => v | None => "" end.

Definition number_of (x : option Q) : Q :=
  match x with Some v => v | None => 0%Q end.

(** String.prototype.includes *)
Fixpoint includes (haystack needle : string) : bool :=
  String.prefix needle haystack
  || match haystack with
     | EmptyString => false
     | String _ rest => includes rest needle
     end.

(** The labels of the product_condition enum, as the API returns them. *)
Definition condition_label (c : product_condition) : string :=
  match c with
  | cond_new => "new"
  | like_new => "like_new"
  | good => "good"
  | fair => "fair"
  | poor => "poor"
  end.

Module SupabaseClient.

(** supabase.auth.getUser(): the user of the session, if any. *)
Definition getUser (s : session) : option uuid := auth_uid s.

(* ---------------------------------------------------------------- *)
(** *** Orders *)

Record orderInput : Type := mk_orderInput {
  seller_id : uuid;
  total_amount : Q;
  delivery_address : Order.address;
  payment_method : text;
  notes : option text
}.

Record orderItemInput : Type := mk_orderItemInput {
  product_id : uuid;
  quantity : Z;
  unit_price : Q;
  total_price : Q
}.

(** createOrder(orderInput, items): two requests, the second made with
    the id of the order the first one returned. [order_uuid] and
    [item_uuid] are the ids the database generates. The result is the
    outcome for the caller and the database left behind. *)
Definition createOrder (s : session) (order_uuid : uuid)
    (item_uuid : nat -> uuid) (now : timestamptz)
    (input : orderInput) (items : list orderItemInput) (d : db)
    : result Order.row * db :=
  match getUser s with
  | None => (Err (raise_exception "User not authenticated"), d)
  | Some user =>
      match Rest.insert_order s order_uuid now
              (Rest.mk_order_input user (seller_id input) (total_amount input)
                 (delivery_address input) (payment_method input) (notes input))
              d with
      | Err orderError => (Err orderError, d)
      | Ok (orderData, d1) =>
          let orderItems :=
            map (fun item =>
                   Rest.mk_order_item_input (Order.id orderData)
                     (product_id item) (quantity item) (unit_price item)
                     (total_price item))
                items in
          match Rest.insert_order_items s now item_uuid orderItems d1 with
          | Err itemsError => (Err itemsError, d1)
          | Ok d2 => (Ok orderData, d2)
          end
      end
  end.

(* ---------------------------------------------------------------- *)
(** *** Messages, by the pair of users *)

(** getMessages(otherUserId, productId?): the messages exchanged
    between the user of the session and [otherUserId], oldest first;
    with a product, only those about it. *)
Definition getMessages (s : session) (otherUserId : uuid)
    (productId : option uuid) (d : db) : result (list Message.row) :=
  match getUser s with
  | None => Err (raise_exception "User not authenticated")
  | Some user =>
      let between (m : Message.row) : bool :=
        (N.eqb (Message.sender_id m) user
         && N.eqb (Message.receiver_id m) otherUserId)
        || (N.eqb (Message.sender_id m) otherUserId
            && N.eqb (Message.receiver_id m) user) in
      let about (m : Message.row) : bool :=
        match productId with
        | Some p => is_true (sql_eq N.eqb (Message.product_id m) (Some p))
        | None => true
        end in
      Ok (order_by (fun a b => asc_before (Message.created_at a)
                                          (Message.created_at b))
            (sql_select Schema.messages_table s d
                        (fun m => between m && about m)))
  end.

(* ---------------------------------------------------------------- *)
(** *** Product listing *)

Record userLocation : Type := mk_userLocation {
  ul_city : option string;
  ul_state : option string
}.

Record filters : Type := mk_filters {
  f_category : option string;
  f_condition : option string;
  f_minPrice : option Q;
  f_maxPrice : option Q;
  f_city : option string;
  f_state : option string;
  f_search : option string;
  f_userLocation : option userLocation
}.

Section Products.
Variable ST_Distance : geography -> geography -> Q.
(** String.prototype.toLowerCase *)
Variable toLowerCase : string -> string.
(** The rows of the regular query on [products], with the seller and
    the category embedded, and that query with its filters. *)
Variable listing : Type.
Variable regular_query : session -> option filters -> db -> result (list listing).

Definition price_of (p : NearbyProduct.row) : Q :=
  (inject_Z (NearbyProduct.price p) / 100)%Q.

(** The filters applied in memory to the rows of the procedure. *)
Definition apply_filters (f : filters) (data : list NearbyProduct.row)
    : list NearbyProduct.row :=
  let filteredData := data in
  let filteredData :=
    if truthy_string (f_category f)
       && negb (String.eqb (string_of (f_category f)) "All")
    then filter (fun p => String.eqb (NearbyProduct.category_name p)
                                     (string_of (f_category f)))
                filteredData
    else filteredData in
  let filteredData :=
    if truthy_string (f_condition f)
       && negb (String.eqb (string_of (f_condition f)) "All")
    then filter (fun p => String.eqb (condition_label (NearbyProduct.condition p))
                                     (string_of (f_condition f)))
                filteredData
    else filteredData in
  let filteredData :=
    if truthy_number (f_minPrice f)
    then filter (fun p => Qle_bool (number_of (f_minPrice f)) (price_of p))
                filteredData
    else filteredData in
  let filteredData :=
    if truthy_number (f_maxPrice f)
    then filter (fun p => Qle_bool (price_of p) (number_of (f_maxPrice f)))
                filteredData
    else filteredData in
  if truthy_string (f_search f)
  then
    let searchLower := toLowerCase (string_of (f_search f)) in
    filter (fun p =>
              includes (toLowerCase (NearbyProduct.title p)) searchLower
              || includes (toLowerCase (NearbyProduct.description p)) searchLower)
           filteredData
  else filteredData.

(** getProducts(filters?) *)
Definition getProducts (s : session) (f : option filters) (d : db)
    : result (list NearbyProduct.row + list listing) :=
  let location :=
    match f with Some fl => f_userLocation fl | None => None end in
  let city := match location with Some l => ul_city l | None => None end in
  let state := match location with Some l => ul_state l | None => None end in
  match f with
  | Some fl =>
      if truthy_string city && truthy_string state
      then
        (* Use the nearby products function if user location is provided *)
        data <- Rpc.get_nearby_products ST_Distance s
                  [ ("user_city", Rpc.JString (string_of city));
                    ("user_state", Rpc.JString (string_of state)) ] d ;;
        Ok (inl (apply_filters fl data))
      else
        (* Fallback to regular query *)
        l <- regular_query s f d ;; Ok (inr l)
  | None => l <- regular_query s f d ;; Ok (inr l)
  end.

End Products.

End SupabaseClient.

(* ================================================================== *)
(** ** Client library: location and messaging *)
(* ================================================================== *)

Module LocationClient.

Section Nearby.
Variable ST_Distance : geography -> geography -> Q.

Definition number_or_null (x : option Z) : Rpc.json :=
  match x with
  | Some v => if Z.eqb v 0 then Rpc.JNull else Rpc.JNumber v
  | None => Rpc.JNull
  end.

(** getNearbyProducts(userLat?, userLon?, radiusKm = 50, limitCount = 20) *)
Definition getNearbyProducts (s : session) (userLat userLon : option Z)
    (radiusKm limitCount : Z) (d : db) : result (list NearbyProduct.row) :=
  Rpc.get_nearby_products ST_Distance s
    [ ("user_lat", number_or_null userLat);
      ("user_lon", number_or_null userLon);
      ("radius_km", Rpc.JNumber radiusKm);
      ("limit_count", Rpc.JNumber limitCount) ] d.
End Nearby.

(** getMessages(conversationId): the messages of one conversation,
    oldest first. *)
Definition getMessages (s : session) (conversationId : uuid) (d : db)
    : result (list Message.row) :=
  Ok (order_by (fun a b => asc_before (Message.created_at a)
                                      (Message.created_at b))
        (sql_select Schema.messages_table s d
                    (fun m => N.eqb (Message.conversation_id m) conversationId))).

End LocationClient.

(* ================================================================== *)
(** ** Location of a seller and of the seller's products *)
(* ================================================================== *)

Module LocationSync.

Definition location_changed (OLD NEW : UserProfile.row) : bool :=
  is_distinct_from String.eqb (UserProfile.city OLD) (UserProfile.city NEW)
  || is_distinct_from String.eqb (UserProfile.state OLD) (UserProfile.state NEW)
  || is_distinct_from String.eqb (UserProfile.pincode OLD) (UserProfile.pincode NEW)
  || is_distinct_from Z.eqb (UserProfile.latitude OLD) (UserProfile.latitude NEW)
  || is_distinct_from Z.eqb (UserProfile.longitude OLD) (UserProfile.longitude NEW).

(** WHERE seller_id = NEW.id AND status = 'active' *)
Definition active_product_of (NEW : UserProfile.row) (p : Product.row) : bool :=
  N.eqb (Product.seller_id p) (UserProfile.id NEW)
  && product_status_eqb (Product.status p) active.

(** sync_product_location(): AFTER UPDATE ON user_profiles FOR EACH
    ROW, with the rights of the session that updates the profile. *)
Definition sync_product_location (s : session) (now : timestamptz)
    (OLD NEW : UserProfile.row) (d : db) : result db :=
  if location_changed OLD NEW then
    (* Update all active products when user profile location changes *)
    Rest.update_products s now (active_product_of NEW)
      (Product.set_location (UserProfile.city NEW) (UserProfile.state NEW)
         (UserProfile.pincode NEW) (UserProfile.latitude NEW)
         (UserProfile.longitude NEW) (UserProfile.location_point NEW)
         (Some now))
      d
  else Ok d.

(** UPDATE user_profiles SET .. WHERE w: the rows are written, then
    the AFTER trigger runs for each written row. *)
Definition update_user_profiles (s : session) (now : timestamptz)
    (w : UserProfile.row -> bool) (set : UserProfile.row -> UserProfile.row)
    (d : db) : result db :=
  d1 <- sql_update Schema.user_profiles_table s now d w set ;;
  fold_left
    (fun acc x =>
       d' <- acc ;;
       if update_target Schema.user_profiles_table s d w (fst x)
       then sync_product_location s now (fst x) (snd x) d'
       else Ok d')
    (combine (user_profiles d) (user_profiles d1))
    (Ok d1).

(** The assignments of [update(location)]: city, state and pincode, and
    the coordinates when they are given, as the columns hold them. *)
Definition location_assignment (city state pincode : text)
    (latitude longitude : option Z) (r : UserProfile.row) : UserProfile.row :=
  UserProfile.set_location (Some city) (Some state) (Some pincode)
    (match latitude with Some v => Some v | None => UserProfile.latitude r end)
    (match longitude with Some v => Some v | None => UserProfile.longitude r end)
    r.

End LocationSync.

(* ================================================================== *)
(** ** The product context of the user interface *)
(* ================================================================== *)

(** [ProductProvider]: the listings of the pages, held in memory. *)
Module ProductContext.

Record Seller : Type := mk_seller {
  seller_name : string;
  rating : Q
}.

Record Product : Type := mk_product {
  id : string;
  title : string;
  price : Q;
  location : string;
  category : string;
  condition : string;
  description : string;
  image : string;
  postedAt : string;
  status : string;
  views : option Q;
  seller : Seller
}.

(** Partial<Product>: [None] for a key the update does not carry. *)
Record Updates : Type := mk_updates {
  new_id : option string;
  new_title : option string;
  new_price : option Q;
  new_location : option string;
  new_category : option string;
  new_condition : option string;
  new_description : option string;
  new_image : option string;
  new_postedAt : option string;
  new_status : option string;
  new_views : option (option Q);
  new_seller : option Seller
}.

Definition spread {A : Type} (old : A) (new : option A) : A :=
  match new with
  | Some v => v
  | None => old
  end.

(** { ...product, ...updates } *)
Definition merge (product : Product) (updates : Updates) : Product :=
  mk_product
    (spread (id product) (new_id updates))
    (spread (title product) (new_title updates))
    (spread (price product) (new_price updates))
    (spread (location product) (new_location updates))
    (spread (category product) (new_category updates))
    (spread (condition product) (new_condition updates))
    (spread (description product) (new_description updates))
    (spread (image product) (new_image updates))
    (spread (postedAt product) (new_postedAt updates))
    (spread (status product) (new_status updates))
    (spread (views product) (new_views updates))
    (spread (seller product) (new_seller updates)).

(** setProducts(prev => [product, ...prev]) *)
Definition addProduct (product : Product) (prev : list Product) : list Product :=
  product :: prev.

(** setProducts(prev => prev.filter(product => product.id !== id)) *)
Definition deleteProduct (id_ : string) (prev : list Product) : list Product :=
  filter (fun product => negb (String.eqb (id product) id_)) prev.

(** setProducts(prev => prev.map(product =>
      product.id === id ? { ...product, ...updates } : product)) *)
Definition updateProduct (id_ : string) (updates : Updates)
    (prev : list Product) : list Product :=
  map (fun product =>
         if String.eqb (id product) id_ then merge product updates else product)
      prev.

End ProductContext.

(** The other operations of [OrderProvider]. *)
Module OrderProvider.

(** { ...order, status } *)
Definition set_status (status : OrderContext.status) (order : OrderContext.Order)
    : OrderContext.Order :=
  OrderContext.mk_order
    (OrderContext.id order) (OrderContext.items order)
    (OrderContext.totalAmount order) status (OrderContext.orderDate order)
    (OrderContext.deliveryAddress order) (OrderContext.paymentMethod order).

Definition updateOrderStatus (orderId : string) (status : OrderContext.status)
    (prev : list OrderContext.Order) : list OrderContext.Order :=
  map (fun order =>
         if String.eqb (OrderContext.id order) orderId
         then set_status status order else order)
      prev.

(** orders.find(order => order.id === orderId) *)
Definition getOrderById (orderId : string) (orders : list OrderContext.Order)
    : option OrderContext.Order :=
  find (fun order => String.eqb (OrderContext.id order) orderId) orders.

End OrderProvider.

(* ================================================================== *)
(** ** Special products and the wishlist of a user *)
(* ================================================================== *)

Module SpecialProduct.
(** RETURNS TABLE (..) of get_special_products. *)
Record row : Type := mk {
  id : uuid;
  title : text;
  description : text;
  price : Z;
  city : option text;
  state : option text;
  image_urls : option (list text);
  is_donation : option bool;
  is_urgent : option bool;
  created_at : option timestamptz;
  seller_name : text;
  category_name : text
}.
End SpecialProduct.

Module Special.

Definition select_list (j : Product.row * UserProfile.row * Category.row)
    : SpecialProduct.row :=
  let '(p, up, c) := j in
  SpecialProduct.mk
    (Product.id p) (Product.title p) (Product.description p) (Product.price p)
    (Product.city p) (Product.state p) (Product.image_urls p)
    (Product.is_donation p) (Product.is_urgent p) (Product.created_at p)
    (UserProfile.full_name up) (Category.name c).

(** WHERE p.status = 'active'
      AND ((product_type = 'donation' AND p.is_donation = true) OR
           (product_type = 'urgent' AND p.is_urgent = true) OR
           (product_type = 'all' AND (p.is_donation = true OR p.is_urgent = true))) *)
Definition is_special (product_type : option text)
    (j : Product.row * UserProfile.row * Category.row) : bool :=
  let '(p, _, _) := j in
  let type_is (label : text) : tri := sql_eq String.eqb product_type (Some label) in
  let donation : tri := sql_eq Bool.eqb (Product.is_donation p) (Some true) in
  let urgent : tri := sql_eq Bool.eqb (Product.is_urgent p) (Some true) in
  is_true
    (sql_and (Some (product_status_eqb (Product.status p) active))
       (sql_or (sql_or (sql_and (type_is "donation") donation)
                       (sql_and (type_is "urgent") urgent))
               (sql_and (type_is "all") (sql_or donation urgent)))).

(** ORDER BY p.created_at DESC *)
Definition recent_first (a b : SpecialProduct.row) : bool :=
  desc_before (SpecialProduct.created_at a) (SpecialProduct.created_at b).

(** get_special_products(product_type DEFAULT 'all', limit_count DEFAULT 10),
    SECURITY DEFINER. *)
Definition get_special_products (product_type : option text)
    (limit_count : option Z) (d : db) : result (list SpecialProduct.row) :=
  sql_limit limit_count
    (order_by recent_first
       (map select_list
            (filter (is_special product_type)
                    (from_products_sellers_categories security_definer d)))).

End Special.

Module WishlistProduct.
(** RETURNS TABLE (..) of get_user_wishlist. *)
Record row : Type := mk {
  id : uuid;
  title : text;
  description : text;
  price : Z;
  condition : product_condition;
  city : option text;
  state : option text;
  image_urls : option (list text);
  is_donation : option bool;
  is_urgent : option bool;
  created_at : option timestamptz;
  seller_name : text;
  category_name : text;
  added_to_wishlist_at : option timestamptz
}.
End WishlistProduct.

Module WishlistView.

(** FROM wishlists w
    JOIN products p ON w.product_id = p.id
    JOIN user_profiles up ON p.seller_id = up.id
    JOIN categories c ON p.category_id = c.id *)
Definition from_wishlists_products_sellers_categories (s : session) (d : db)
    : list (Wishlist.row * Product.row * UserProfile.row * Category.row) :=
  flat_map (fun w =>
    flat_map (fun p =>
      flat_map (fun up =>
        map (fun c => (w, p, up, c))
            (sql_select Schema.categories_table s d
               (fun c => N.eqb (Product.category_id p) (Category.id c))))
        (sql_select Schema.user_profiles_table s d
           (fun up => N.eqb (Product.seller_id p) (UserProfile.id up))))
      (sql_select Schema.products_table s d
         (fun p => N.eqb (Wishlist.product_id w) (Product.id p))))
    (sql_select Schema.wishlists_table s d (fun _ => true)).

Definition select_list
    (j : Wishlist.row * Product.row * UserProfile.row * Category.row)
    : WishlistProduct.row :=
  let '(w, p, up, c) := j in
  WishlistProduct.mk
    (Product.id p) (Product.title p) (Product.description p) (Product.price p)
    (Product.condition p) (Product.city p) (Product.state p)
    (Product.image_urls p) (Product.is_donation p) (Product.is_urgent p)
    (Product.created_at p) (UserProfile.full_name up) (Category.name c)
    (Wishlist.created_at w).

(** WHERE w.user_id = user_uuid AND p.status = 'active' *)
Definition listed (user_uuid : uuid)
    (j : Wishlist.row * Product.row * UserProfile.row * Category.row) : bool :=
  let '(w, p, _, _) := j in
  N.eqb (Wishlist.user_id w) user_uuid
  && product_status_eqb (Product.status p) active.

(** ORDER BY w.created_at DESC *)
Definition added_last_first (a b : WishlistProduct.row) : bool :=
  desc_before (WishlistProduct.added_to_wishlist_at a)
              (WishlistProduct.added_to_wishlist_at b).

(** get_user_wishlist(), SECURITY DEFINER. *)
Definition get_user_wishlist (s : session) (d : db)
    : result (list WishlistProduct.row) :=
  match auth_uid s with
  | None => Err (raise_exception "User not authenticated")
  | Some user_uuid =>
      Ok (order_by added_last_first
            (map select_list
                 (filter (listed user_uuid)
                         (from_wishlists_products_sellers_categories
                            security_definer d))))
  end.

End WishlistView.

(* ================================================================== *)
(** ** Sending a message *)
(* ================================================================== *)

Module Messaging.

Definition set_last_message_at (v : option timestamptz) (c : Conversation.row)
    : Conversation.row :=
  Conversation.mk (Conversation.id c) (Conversation.user1_id c)
    (Conversation.user2_id c) (Conversation.product_id c) v
    (Conversation.created_at c).

Definition set_is_read (v : option bool) (m : Message.row) : Message.row :=
  Message.mk (Message.id m) (Message.conversation_id m) (Message.sender_id m)
    (Message.receiver_id m) (Message.product_id m) (Message.message_text m) v
    (Message.created_at m) (Message.updated_at m).

(** send_message(sender_id, receiver_id, message_text, product_id DEFAULT NULL)
    RETURNS UUID, with the rights of the caller. [fresh_conversation] and
    [fresh_message] are the uuid_generate_v4() defaults of the rows it
    may insert. The names of its parameters are not names of columns in
    any place where a column can be meant: the VALUES list of the INSERT
    reads no table, and [conversations] has no column conversation_id. *)
Definition send_message (vc : variable_conflict) (s : session)
    (fresh_conversation fresh_message : uuid) (now : timestamptz)
    (sender_id receiver_id : uuid) (message_text : text)
    (product_id : option uuid) (d : db) : result (uuid * db) :=
  (* Get or create conversation *)
  found <- Conversations.get_or_create_conversation vc s fresh_conversation now
             sender_id receiver_id product_id d ;;
  let conversation_id := fst found in
  (* Insert message *)
  d2 <- sql_insert Schema.messages_table s (snd found)
          (Message.mk fresh_message conversation_id sender_id receiver_id
             product_id message_text (Some false) (Some now) (Some now)) ;;
  (* Update conversation last_message_at *)
  d3 <- sql_update Schema.conversations_table s now d2
          (fun c => N.eqb (Conversation.id c) conversation_id)
          (set_last_message_at (Some now)) ;;
  Ok (fresh_message, d3).

End Messaging.

(* ================================================================== *)
(** ** Seller statistics *)
(* ================================================================== *)

Module SellerStats.
(** The columns of the view seller_stats. *)
Record row : Type := mk {
  id : uuid;
  full_name : text;
  city : option text;
  state : option text;
  avatar_url : option text;
  member_since : option timestamptz;
  total_products : Z;
  active_products : Z;
  sold_products : Z;
  avg_views : Q;
  last_posted : option timestamptz
}.
End SellerStats.

(** COUNT(e): the number of rows for which [e] is not NULL. *)
Definition sql_count {A B : Type} (e : A -> option B) (l : list A) : Z :=
  Z.of_nat (List.length (filter (fun x => negb (is_null (e x))) l)).

(** The values of [e] that are not NULL. *)
Definition non_null {A B : Type} (e : A -> option B) (l : list A) : list B :=
  flat_map (fun x => match e x with Some v => [v] | None => [] end) l.

(** MAX(e): the largest value that is not NULL, NULL when there is none. *)
Definition sql_max {A : Type} (e : A -> option Z) (l : list A) : option Z :=
  match non_null e l with
  | [] => None
  | v :: vs => Some (fold_left Z.max vs v)
  end.

Section SellerStatsView.

(** AVG over integers: the mean of a non-empty list, as the numeric
    PostgreSQL computes. *)
Variable numeric_avg : list Z -> Q.

(** AVG(e): NULL when no value is not NULL. *)
Definition sql_avg {A : Type} (e : A -> option Z) (l : list A) : option Q :=
  match non_null e l with
  | [] => None
  | vs => Some (numeric_avg vs)
  end.

(** WHERE up.role IN ('seller', 'both') *)
Definition sells (up : UserProfile.row) : bool :=
  match UserProfile.role up with
  | seller | both => true
  | buyer => false
  end.

(** CASE WHEN p.status = st THEN 1 END *)
Definition when_status (st : product_status) (p : Product.row) : option Z :=
  if product_status_eqb (Product.status p) st then Some 1 else None.

(** The view seller_stats. It is read with the rights of its owner, so
    every product counts, whoever asks. [id] is the primary key of
    user_profiles, so each profile is a group of its own; a profile
    without products is one row of the LEFT JOIN, with a NULL product. *)
Definition seller_stats (d : db) : list SellerStats.row :=
  map (fun up =>
         let ps := filter (fun p => N.eqb (UserProfile.id up) (Product.seller_id p))
                          (products d) in
         SellerStats.mk
           (UserProfile.id up) (UserProfile.full_name up) (UserProfile.city up)
           (UserProfile.state up) (UserProfile.avatar_url up)
           (UserProfile.created_at up)
           (sql_count (fun p => Some (Product.id p)) ps)
           (sql_count (when_status active) ps)
           (sql_count (when_status sold) ps)
           (match sql_avg Product.views ps with Some a => a | None => 0%Q end)
           (sql_max Product.created_at ps))
      (filter sells (user_profiles d)).

End SellerStatsView.

(* ================================================================== *)
(** ** Responses of the data API *)
(* ================================================================== *)

(** What a request answers besides the errors of a statement: a NULL
    for a NOT NULL column, and [.single()] on a result that does not
    hold exactly one row. *)
Inductive request_error : Type :=
| statement_error (e : sql_error)
| not_null_violation (column : string)     (* 23502 *)
| not_a_single_row (rows : nat).           (* PGRST116 *)

Inductive response (A : Type) : Type :=
| Data (a : A)
| Error (e : request_error).
Arguments Data {A} a.
Arguments Error {A} e.

Definition single {A : Type} (rows : list A) : response A :=
  match rows with
  | [a] => Data a
  | _ => Error (not_a_single_row (List.length rows))
  end.

(** The labels of the product_status enum. *)
Definition status_of_label (label : string) : option product_status :=
  if String.eqb label "active" then Some active
  else if String.eqb label "sold" then Some sold
  else if String.eqb label "inactive" then Some inactive
  else None.

Definition condition_of_label (label : string) : option product_condition :=
  if String.eqb label "new" then Some cond_new
  else if String.eqb label "like_new" then Some like_new
  else if String.eqb label "good" then Some good
  else if String.eqb label "fair" then Some fair
  else if String.eqb label "poor" then Some poor
  else None.

(* ================================================================== *)
(** ** Client library: more of lib/supabase *)
(* ================================================================== *)

Module SupabaseRequests.

Definition getUser (s : session) : option uuid := auth_uid s.

Definition not_authenticated {A : Type} : response A :=
  Error (statement_error (raise_exception "User not authenticated")).

(* ---------------------------------------------------------------- *)
(** *** Products *)

(** A product with the embedded resources
    seller:user_profiles!seller_id( * ) and category:categories!category_id( * ):
    the referenced row, when the session may read it. *)
Record ProductView : Type := mk_ProductView {
  product : Product.row;
  seller : option UserProfile.row;
  category : option Category.row
}.

Definition seller_of (s : session) (d : db) (p : Product.row)
    : option UserProfile.row :=
  hd_error (sql_select Schema.user_profiles_table s d
              (fun up => N.eqb (UserProfile.id up) (Product.seller_id p))).

Definition category_of (s : session) (d : db) (p : Product.row)
    : option Category.row :=
  hd_error (sql_select Schema.categories_table s d
              (fun c => N.eqb (Category.id c) (Product.category_id p))).

(** getProduct(id) *)
Definition getProduct (s : session) (id : uuid) (d : db) : response ProductView :=
  match single (sql_select Schema.products_table s d
                  (fun p => N.eqb (Product.id p) id)) with
  | Data p => Data (mk_ProductView p (seller_of s d p) (category_of s d p))
  | Error e => Error e
  end.

Record productInput : Type := mk_productInput {
  title : text;
  description : text;
  price : Q;
  category_id : uuid;
  condition : string;
  location : text;
  image_urls : option (list text)
}.

(** createProduct(product): the row is inserted for the user of the
    session and read back. [fresh] is the id the database generates. *)
Definition createProduct (s : session) (fresh : uuid) (now : timestamptz)
    (input : productInput) (d : db) : response (Product.row * db) :=
  match getUser s with
  | None => not_authenticated
  | Some user =>
      match condition_of_label (condition input) with
      | None => Error (statement_error invalid_text_representation)
      | Some c =>
          match Rest.insert_product s fresh now
                  (Rest.mk_product_input user (title input) (description input)
                     (price input) (category_id input) c (location input)
                     (image_urls input))
                  d with
          | Err e => Error (statement_error e)
          | Ok d' =>
              match single (sql_select Schema.products_table s d'
                              (fun p => N.eqb (Product.id p) fresh)) with
              | Data row => Data (row, d')
              | Error e => Error e
              end
          end
      end
  end.

(** updateProduct(id, updates): [updates] are the assignments of the
    request. The rows written are returned; unless there is exactly
    one, the request fails and its transaction is rolled back. *)
Definition updateProduct (s : session) (now : timestamptz) (id : uuid)
    (updates : Product.row -> Product.row) (d : db)
    : response (Product.row * db) :=
  let w := fun p => N.eqb (Product.id p) id in
  match Rest.update_products s now w updates d with
  | Err e => Error (statement_error e)
  | Ok d' =>
      match single (filter (update_target Schema.products_table s d w)
                           (products d)) with
      | Data p =>
          Data (tbl_before_update Schema.products_table now (updates p), d')
      | Error e => Error e
      end
  end.

(** deleteProduct(id): no row is asked back, and an error is thrown only
    when the statement reports one. *)
Definition deleteProduct (s : session) (id : uuid) (d : db) : response db :=
  Data (Rest.delete_products s (fun p => N.eqb (Product.id p) id) d).

(** getSellerProducts(sellerId, status = 'active'), with the embedded
    category. *)
Definition getSellerProducts (s : session) (sellerId : uuid) (status : string)
    (d : db) : result (list (Product.row * option Category.row)) :=
  match status_of_label status with
  | None => Err invalid_text_representation
  | Some st =>
      Ok (map (fun p => (p, category_of s d p))
            (order_by (fun a b => desc_before (Product.created_at a)
                                              (Product.created_at b))
               (sql_select Schema.products_table s d
                  (fun p => N.eqb (Product.seller_id p) sellerId
                            && product_status_eqb (Product.status p) st))))
  end.

(* ---------------------------------------------------------------- *)
(** *** Orders *)

Record OrderItemView : Type := mk_OrderItemView {
  item : OrderItem.row;
  item_product : option Product.row
}.

Record OrderView : Type := mk_OrderView {
  order : Order.row;
  buyer : option UserProfile.row;
  order_seller : option UserProfile.row;
  order_items_of : list OrderItemView
}.

(** getOrders(userId, role): the orders whose buyer_id, for the role
    'buyer', or seller_id, for any other, is [userId], newest first,
    each with its buyer, its seller and its items with their product. *)
Definition getOrders (s : session) (userId : uuid) (role : string) (d : db)
    : list OrderView :=
  let column := if String.eqb role "buyer" then Order.buyer_id else Order.seller_id in
  map (fun o =>
         mk_OrderView o
           (hd_error (sql_select Schema.user_profiles_table s d
                        (fun up => N.eqb (UserProfile.id up) (Order.buyer_id o))))
           (hd_error (sql_select Schema.user_profiles_table s d
                        (fun up => N.eqb (UserProfile.id up) (Order.seller_id o))))
           (map (fun i =>
                   mk_OrderItemView i
                     (hd_error (sql_select Schema.products_table s d
                                  (fun p => N.eqb (Product.id p)
                                                  (OrderItem.product_id i)))))
                (sql_select Schema.order_items_table s d
                   (fun i => N.eqb (OrderItem.order_id i) (Order.id o)))))
      (order_by (fun a b => desc_before (Order.created_at a) (Order.created_at b))
         (sql_select Schema.orders_table s d (fun o => N.eqb (column o) userId))).

(* ---------------------------------------------------------------- *)
(** *** Wishlist *)

(** isProductInWishlist(productId): [!error && !!data] of a request
    for the single row of the pair. *)
Definition isProductInWishlist (s : session) (productId : uuid) (d : db) : bool :=
  match getUser s with
  | None => false
  | Some user =>
      match single (sql_select Schema.wishlists_table s d
                      (fun w => N.eqb (Wishlist.user_id w) user
                                && N.eqb (Wishlist.product_id w) productId)) with
      | Data _ => true
      | Error _ => false
      end
  end.

(* ---------------------------------------------------------------- *)
(** *** Messages *)

(** The body of an INSERT into [messages]: conversation_id may be left
    out. *)
Record message_input : Type := mk_message_input {
  mi_conversation_id : option uuid;
  mi_sender_id : uuid;
  mi_receiver_id : uuid;
  mi_product_id : option uuid;
  mi_message_text : text
}.

Definition message_row (fresh conversation_id : uuid) (now : timestamptz)
    (m : message_input) : Message.row :=
  Message.mk fresh conversation_id (mi_sender_id m) (mi_receiver_id m)
    (mi_product_id m) (mi_message_text m) (Some false) (Some now) (Some now).

(** INSERT INTO messages. A column left out takes its DEFAULT;
    conversation_id has none, so it is NULL, and the column is NOT NULL.
    The policies are checked before the constraints of the row, and
    those of [messages] do not read conversation_id. *)
Definition insert_message (s : session) (fresh : uuid) (now : timestamptz)
    (m : message_input) (d : db) : response db :=
  match mi_conversation_id m with
  | Some c =>
      match sql_insert Schema.messages_table s d (message_row fresh c now m) with
      | Ok d' => Data d'
      | Err e => Error (statement_error e)
      end
  | None =>
      if rls_with_check Schema.messages_policies FOR_INSERT s d
           (message_row fresh 0%N now m)
      then Error (not_null_violation "conversation_id")
      else Error (statement_error (rls_violation "messages"))
  end.

(** sendMessage(receiverId, productId, messageText): the row is
    inserted by the client, without a conversation. *)
Definition sendMessage (s : session) (fresh : uuid) (now : timestamptz)
    (receiverId : uuid) (productId : option uuid) (messageText : text) (d : db)
    : response db :=
  match getUser s with
  | None => not_authenticated
  | Some user =>
      insert_message s fresh now
        (mk_message_input None user receiverId productId messageText) d
  end.

End SupabaseRequests.

(* ================================================================== *)
(** ** Client library: more of the location and messaging library *)
(* ================================================================== *)

Module LocationRequests.

(** A conversation with its embedded resources, the other participant
    and the number of unread messages. *)
Record ConversationView : Type := mk_ConversationView {
  conversation : Conversation.row;
  user1 : option UserProfile.row;
  user2 : option UserProfile.row;
  product : option Product.row;
  other_user : option UserProfile.row;
  unread_count : Z
}.

Definition profile_of (s : session) (d : db) (k : uuid) : option UserProfile.row :=
  hd_error (sql_select Schema.user_profiles_table s d
              (fun up => N.eqb (UserProfile.id up) k)).

(** The count of
    .eq('conversation_id', conv.id).eq('receiver_id', user.id).eq('is_read', false) *)
Definition unread (s : session) (d : db) (user conversation_id : uuid) : Z :=
  Z.of_nat (List.length
    (sql_select Schema.messages_table s d
       (fun m => N.eqb (Message.conversation_id m) conversation_id
                 && N.eqb (Message.receiver_id m) user
                 && is_true (sql_eq Bool.eqb (Message.is_read m) (Some false))))).

(** getConversations() *)
Definition getConversations (s : session) (d : db)
    : result (list ConversationView) :=
  match auth_uid s with
  | None => Err (raise_exception "User not authenticated")
  | Some user =>
      Ok (map (fun conv =>
                 let user1 := profile_of s d (Conversation.user1_id conv) in
                 let user2 := profile_of s d (Conversation.user2_id conv) in
                 let product :=
                   match Conversation.product_id conv with
                   | Some k =>
                       hd_error (sql_select Schema.products_table s d
                                   (fun p => N.eqb (Product.id p) k))
                   | None => None
                   end in
                 let otherUser :=
                   if N.eqb (Conversation.user1_id conv) user then user2 else user1 in
                 mk_ConversationView conv user1 user2 product otherUser
                   (unread s d user (Conversation.id conv)))
            (order_by (fun a b => desc_before (Conversation.last_message_at a)
                                              (Conversation.last_message_at b))
               (sql_select Schema.conversations_table s d
                  (fun c => N.eqb (Conversation.user1_id c) user
                            || N.eqb (Conversation.user2_id c) user))))
  end.

(** markMessagesAsRead(conversationId) *)
Definition markMessagesAsRead (s : session) (now : timestamptz)
    (conversationId : uuid) (d : db) : result db :=
  match auth_uid s with
  | None => Err (raise_exception "User not authenticated")
  | Some user =>
      sql_update Schema.messages_table s now d
        (fun m => N.eqb (Message.conversation_id m) conversationId
                  && N.eqb (Message.receiver_id m) user)
        (Messaging.set_is_read (Some true))
  end.

(** sendMessage(receiverId, messageText, productId?): the procedure
    send_message is called with the user of the session as the sender. *)
Definition sendMessage (vc : variable_conflict) (s : session)
    (fresh_conversation fresh_message : uuid) (now : timestamptz)
    (receiverId : uuid) (messageText : text) (productId : option uuid) (d : db)
    : result (uuid * db) :=
  match auth_uid s with
  | None => Err (raise_exception "User not authenticated")
  | Some user =>
      Messaging.send_message vc s fresh_conversation fresh_message now
        user receiverId messageText productId d
  end.

(** A number of the request body that may be left out, assigned to a
    DECIMAL column. *)
Definition assigned (to_column : Q -> result Z) (v : option Q)
    : result (option Z) :=
  match v with
  | None => Ok None
  | Some q => c <- to_column q ;; Ok (Some c)
  end.

(** updateUserLocation({city, state, pincode, latitude?, longitude?}):
      .from('user_profiles').update(location).eq('id', user.id)
      .select().single()
    The profile of the session is updated and asked back; unless
    exactly one row was written, the request fails and its transaction
    is rolled back. The function of the same name of lib/supabase is
    this one without the two coordinates. *)
Definition updateUserLocation (s : session) (now : timestamptz)
    (city state pincode : text) (latitude longitude : option Q) (d : db)
    : response (UserProfile.row * db) :=
  match auth_uid s with
  | None => Error (statement_error (raise_exception "User not authenticated"))
  | Some user =>
      let w := fun r => N.eqb (UserProfile.id r) user in
      match (lat <- assigned to_decimal_10_8 latitude ;;
             lon <- assigned to_decimal_11_8 longitude ;;
             let set := LocationSync.location_assignment city state pincode
                          lat lon in
             d' <- LocationSync.update_user_profiles s now w set d ;;
             Ok (set, d')) with
      | Err e => Error (statement_error e)
      | Ok (set, d') =>
          match single (filter (update_target Schema.user_profiles_table s d w)
                               (user_profiles d)) with
          | Data r =>
              Data (tbl_before_update Schema.user_profiles_table now (set r), d')
          | Error e => Error e
          end
      end
  end.

Section Stats.
Variable numeric_avg : list Z -> Q.

(** getSellerStats(sellerId), for a signed-in user: the view is granted
    to authenticated. *)
Definition getSellerStats (sellerId : uuid) (d : db) : response SellerStats.row :=
  single (filter (fun r => N.eqb (SellerStats.id r) sellerId)
                 (seller_stats numeric_avg d)).
End Stats.

End LocationRequests.

(* ================================================================== *)
(** ** Listing with a location *)
(* ================================================================== *)

Module LocationListing.

Record userLocation : Type := mk_userLocation {
  latitude : option Z;
  longitude : option Z
}.

Record filters : Type := mk_filters {
  category : option string;
  condition : option string;
  minPrice : option Q;
  maxPrice : option Q;
  city : option string;
  state : option string;
  search : option string;
  location : option userLocation
}.

(** JavaScript truthiness of an optional coordinate. *)
Definition truthy_coordinate (x : option Z) : bool :=
  match x with
  | Some v => negb (Z.eqb v 0)
  | None => false
  end.

Section Products.
Variable ST_Distance : geography -> geography -> Q.
(** String.prototype.toLowerCase *)
Variable toLowerCase : string -> string.
(** The rows of the regular query on [products], and that query with
    its filters. *)
Variable listing : Type.
Variable regular_query : session -> option filters -> db -> result (list listing).

(** The filters applied in memory to the rows of the procedure. *)
Definition apply_filters (f : filters) (products : list NearbyProduct.row)
    : list NearbyProduct.row :=
  let products :=
    if truthy_string (category f)
       && negb (String.eqb (string_of (category f)) "All")
    then filter (fun p => String.eqb (NearbyProduct.category_name p)
                                     (string_of (category f)))
                products
    else products in
  let products :=
    if truthy_string (condition f)
       && negb (String.eqb (string_of (condition f)) "All")
    then filter (fun p => String.eqb (condition_label (NearbyProduct.condition p))
                                     (string_of (condition f)))
                products
    else products in
  let products :=
    if truthy_number (minPrice f)
    then filter (fun p => Qle_bool (number_of (minPrice f))
                                   (inject_Z (NearbyProduct.price p) / 100)%Q)
                products
    else products in
  let products :=
    if truthy_number (maxPrice f)
    then filter (fun p => Qle_bool (inject_Z (NearbyProduct.price p) / 100)%Q
                                   (number_of (maxPrice f)))
                products
    else products in
  if truthy_string (search f)
  then
    let searchLower := toLowerCase (string_of (search f)) in
    filter (fun p =>
              includes (toLowerCase (NearbyProduct.title p)) searchLower
              || includes (toLowerCase (NearbyProduct.description p)) searchLower)
           products
  else products.

(** getProductsWithLocation(filters?) *)
Definition getProductsWithLocation (s : session) (f : option filters) (d : db)
    : result (list NearbyProduct.row + list listing) :=
  let here := match f with Some fl => location fl | None => None end in
  let lat := match here with Some l => latitude l | None => None end in
  let lon := match here with Some l => longitude l | None => None end in
  match f with
  | Some fl =>
      if truthy_coordinate lat && truthy_coordinate lon
      then
        (* Use nearby products function if user location is provided *)
        products <- LocationClient.getNearbyProducts ST_Distance s lat lon 50 20 d ;;
        Ok (inl (apply_filters fl products))
      else
        (* Fallback to regular query *)
        l <- regular_query s f d ;; Ok (inr l)
  | None => l <- regular_query s f d ;; Ok (inr l)
  end.

End Products.

End LocationListing.

(* ================================================================== *)
(** ** Databases that satisfy their constraints *)
(* ================================================================== *)

Section Valid.
Context {row : Type}.
Variable T : table row.

Fixpoint no_conflicts (l : list row) : bool :=
  match l with
  | [] => true
  | r :: tl => is_null (first_conflict T r tl) && no_conflicts tl
  end.

(** Every row satisfies the CHECK and REFERENCES constraints of the
    table, and no two rows collide on a key. *)
Definition table_valid (d : db) : bool :=
  forallb (fun r => is_ok (tbl_check T r) && is_ok (tbl_references T d r))
          (tbl_rows T d)
  && no_conflicts (tbl_rows T d).
End Valid.

Definition db_valid (d : db) : bool :=
  table_valid Schema.user_profiles_table d
  && table_valid Schema.categories_table d
  && table_valid Schema.products_table d
  && table_valid Schema.orders_table d
  && table_valid Schema.order_items_table d
  && table_valid Schema.wishlists_table d
  && table_valid Schema.conversations_table d
  && table_valid Schema.messages_table d.

(* ================================================================== *)
(** ** A small marketplace *)
(* ================================================================== *)

(** Three users, one category, three products of the second user, and
    two conversations between the first two users: a general one and one
    about the first product, with one message each. *)
Module Sample.

Definition alice : uuid := 1%N.
Definition bob : uuid := 2%N.
Definition carol : uuid := 3%N.

Definition profile (k : uuid) (n : text) (lat lon : Z) : UserProfile.row :=
  UserProfile.mk k n None None both None (Some 0) (Some 0)
    (Some "Pune") (Some "MH") (Some "411001") (Some lat) (Some lon)
    (Some (ST_MakePoint lon lat)).

Definition books : Category.row := Category.mk 10%N "Books" None (Some 0).

Definition product (k : uuid) (t : text) (cents : Z) (st : product_status)
    (created : timestamptz) (pt : option geography) : Product.row :=
  Product.mk k bob t "as new" cents 10%N good "Pune" (Some []) st (Some 0)
    (Some created) (Some created) (Some "Pune") (Some "MH") (Some "411001")
    (option_map geo_lat pt) (option_map geo_lon pt) pt (Some false) (Some false).

Definition d0 : db :=
  mk_db
    [ profile alice "Alice" 1852040000 7385670000;
      profile bob "Bob" 1852050000 7385680000;
      profile carol "Carol" 1907600000 7287770000 ]
    [ books ]
    [ product 100%N "Calculus" 8900 active 10 (Some (ST_MakePoint 7385680000 1852050000));
      product 101%N "Algebra" 4500 active 20 (Some (ST_MakePoint 7385690000 1852050000));
      product 102%N "Atlas" 1500 sold 30 (Some (ST_MakePoint 7385680000 1852050000)) ]
    [] [] []
    [ Conversation.mk 200%N alice bob None (Some 40) (Some 40);
      Conversation.mk 201%N alice bob (Some 100%N) (Some 50) (Some 50) ]
    [ Message.mk 300%N 200%N alice bob None "hello" (Some false) (Some 40) (Some 40);
      Message.mk 301%N 201%N alice bob (Some 100%N) "is it available?"
                 (Some false) (Some 50) (Some 50) ].

(** The ids generated for the rows of one statement. *)
Definition item_uuid (k : nat) : uuid := (501 + N.of_nat k)%N.

(** A distance for the examples: the difference in longitude plus the
    difference in latitude, in units of 1e-8 degrees. *)
Definition taxicab (a b : geography) : Q :=
  inject_Z (Z.abs (geo_lon a - geo_lon b) + Z.abs (geo_lat a - geo_lat b)).

End Sample.

(* ================================================================== *)
(** ** A larger marketplace *)
(* ================================================================== *)

(** The small marketplace with a fourth user, whose role is buyer, a
    giveaway of the second user, two listings of the fourth, an order of
    the first user for the sold product of the second, a wishlist and an
    unread reply. *)
Module Market.

Definition dave : uuid := 4%N.

Definition dave_profile : UserProfile.row :=
  UserProfile.mk dave "Dave" None None buyer None (Some 5) (Some 5)
    None None None None None None.

Definition special (k seller_ : uuid) (t : text) (st : product_status)
    (created : timestamptz) (donation urgent : bool) : Product.row :=
  Product.mk k seller_ t "must go" 100 10%N fair "Pune" (Some []) st (Some 3)
    (Some created) (Some created) None None None None None None
    (Some donation) (Some urgent).

Definition d1 : db :=
  mk_db
    (user_profiles Sample.d0 ++ [ dave_profile ])%list
    (categories Sample.d0)
    (products Sample.d0
     ++ [ special 103%N Sample.bob "Old notes" active 40 true false;
          special 104%N dave "Desk" active 50 false true;
          special 105%N dave "Lamp" inactive 60 true false ])%list
    [ Order.mk 400%N Sample.alice Sample.bob 1500 delivered
        (Order.mk_address "Alice" "1 Main St" "Pune" "411001" "555")
        "card" None (Some 60) (Some 60) ]
    [ OrderItem.mk 450%N 400%N 102%N 1 1500 1500 (Some 60) ]
    [ Wishlist.mk 600%N Sample.alice 100%N (Some 70);
      Wishlist.mk 601%N Sample.alice 102%N (Some 71);
      Wishlist.mk 602%N Sample.carol 103%N (Some 72) ]
    (conversations Sample.d0)
    (messages Sample.d0
     ++ [ Message.mk 302%N 200%N Sample.bob Sample.alice None "hi"
            (Some false) (Some 80) (Some 80) ])%list.

(** Two listings of the product context. *)
Definition laptop : ProductContext.Product :=
  ProductContext.mk_product "1" "MacBook Pro 2021" 1299 "Toronto, ON"
    "Electronics" "Like New" "M1 chip" "laptop.jpeg" "2024-01-15T10:30:00Z"
    "active" (Some 127%Q) (ProductContext.mk_seller "John Doe" (48 # 10)).

Definition textbook : ProductContext.Product :=
  ProductContext.mk_product "2" "Calculus Textbook" 89 "Vancouver, BC"
    "Books" "Good" "8th edition" "book.jpeg" "2024-01-14T14:20:00Z"
    "active" (Some 89%Q) (ProductContext.mk_seller "Jane Smith" (49 # 10)).

(** An order of the order context. *)
Definition first_order : OrderContext.Order :=
  OrderContext.mk_order "1"
    [ OrderContext.mk_item "1" "MacBook Pro 2021" 1299%float "laptop.jpeg" 1%float
        "John Doe" ]
    1299%float OrderContext.delivered 1704882600000
    (Order.mk_address "Jane Smith" "123 Main St" "Toronto" "M5V 3A8" "(416) 555-0123")
    "Credit Card".

(** The mean of a list of integers. *)
Definition mean (l : list Z) : Q :=
  (inject_Z (fold_right Z.add 0%Z l) / inject_Z (Z.of_nat (List.length l)))%Q.

End Market.

(* ================================================================== *)
(** ** Vocabulary of the properties *)
(* ================================================================== *)

(** No row of [wishlists] has the identifier [k]. *)
Definition unused_wishlist_id (d : db) (k : uuid) : bool :=
  negb (existsb (fun w => N.eqb (Wishlist.id w) k) (wishlists d)).


(** Creation time descending: [a] is not older than [b]; a missing
    creation time counts as the most recent. *)
Definition newer_or_same (a b : option timestamptz) : Prop :=
  match a, b with
  | None, _ => True
  | Some _, None => False
  | Some x, Some y => y <= x
  end.



(** A row of get_nearby_products called with the point [here]: an
    active product of the table that has a location within [radius_km]
    kilometres of [here], with that distance in kilometres. *)
Definition nearby_row (ST_Distance : geography -> geography -> Q) (d : db)
    (here : geography) (radius_km : Z) (r : NearbyProduct.row) : Prop :=
  NearbyProduct.status r = active
  /\ exists p g, In p (products d)
                 /\ Product.id p = NearbyProduct.id r
                 /\ Product.status p = active
                 /\ Product.created_at p = NearbyProduct.created_at r
                 /\ Product.location_point p = Some g
                 /\ (ST_Distance g here <= inject_Z (radius_km * 1000))%Q
                 /\ NearbyProduct.distance_km r = Some (ST_Distance g here / 1000)%Q.

(** The total of a line of the order context, and the sum of a list of
    JavaScript numbers: they are added one after the other, in the order
    of the list, starting from 0. *)
Definition line_total (i : OrderContext.OrderItem) : float :=
  (OrderContext.price i * OrderContext.quantity i)%float.

Definition sum_of (l : list float) : float := fold_left PrimFloat.add l 0%float.

(** The sum of the total prices of the line items of an order of the
    database, in hundredths. *)
Definition items_total (d : db) (o : Order.row) : Z :=
  fold_right Z.add 0
    (map OrderItem.total_price
         (filter (fun i => N.eqb (OrderItem.order_id i) (Order.id o))
                 (order_items d))).

(** The writes of a monetary or quantity column: an INSERT of a row
    that carries the column, or an UPDATE that assigns it. *)
Inductive money_write : Type :=
| insert_product (fresh : uuid) (p : Rest.product_input)
| update_product_price (w : Product.row -> bool) (v : Q)
| insert_order (fresh : uuid) (o : Rest.order_input)
| update_order_total_amount (w : Order.row -> bool) (v : Q)
| insert_order_items (fresh : nat -> uuid) (items : list Rest.order_item_input)
| update_order_item_quantity (w : OrderItem.row -> bool) (v : Z)
| update_order_item_unit_price (w : OrderItem.row -> bool) (v : Q)
| update_order_item_total_price (w : OrderItem.row -> bool) (v : Q).

Definition perform (s : session) (now : timestamptz) (x : money_write) (d : db)
    : result db :=
  match x with
  | insert_product fresh p => Rest.insert_product s fresh now p d
  | update_product_price w v => Rest.update_product_price s now w v d
  | insert_order fresh o =>
      r <- Rest.insert_order s fresh now o d ;; Ok (snd r)
  | update_order_total_amount w v => Rest.update_order_total_amount s now w v d
  | insert_order_items fresh items => Rest.insert_order_items s now fresh items d
  | update_order_item_quantity w v => Rest.update_order_item_quantity s now w v d
  | update_order_item_unit_price w v => Rest.update_order_item_unit_price s now w v d
  | update_order_item_total_price w v => Rest.update_order_item_total_price s now w v d
  end.

(** The value written is zero or negative. *)
Definition non_positive (x : money_write) : Prop :=
  match x with
  | insert_product _ p => (Rest.pi_price p <= 0)%Q
  | update_product_price _ v => (v <= 0)%Q
  | insert_order _ o => (Rest.oi_total_amount o <= 0)%Q
  | update_order_total_amount _ v => (v <= 0)%Q
  | insert_order_items _ items =>
      exists i, In i items
                /\ (Rest.ii_quantity i <= 0
                    \/ (Rest.ii_unit_price i <= 0)%Q
                    \/ (Rest.ii_total_price i <= 0)%Q)
  | update_order_item_quantity _ v => v <= 0
  | update_order_item_unit_price _ v => (v <= 0)%Q
  | update_order_item_total_price _ v => (v <= 0)%Q
  end.

(** An UPDATE reaches a row when its WHERE clause and the policies of
    the session keep at least one row. An INSERT always has its row. *)
Definition reaches {row : Type} (T : table row) (s : session) (d : db)
    (w : row -> bool) : Prop :=
  exists r, In r (tbl_rows T d) /\ update_target T s d w r = true.

Definition writes_a_row (s : session) (d : db) (x : money_write) : Prop :=
  match x with
  | insert_product _ _ | insert_order _ _ | insert_order_items _ _ => True
  | update_product_price w _ => reaches Schema.products_table s d w
  | update_order_total_amount w _ => reaches Schema.orders_table s d w
  | update_order_item_quantity w _
  | update_order_item_unit_price w _
  | update_order_item_total_price w _ => reaches Schema.order_items_table s d w
  end.

(** The product [p'] is the product [p] moved to the location of the
    profile [NEW]: the location columns are those of the profile, and
    every other column but updated_at is that of [p]. *)
Definition located_at (NEW : UserProfile.row) (p p' : Product.row) : Prop :=
  (Product.city p' = UserProfile.city NEW
   /\ Product.state p' = UserProfile.state NEW
   /\ Product.pincode p' = UserProfile.pincode NEW
   /\ Product.latitude p' = UserProfile.latitude NEW
   /\ Product.longitude p' = UserProfile.longitude NEW
   /\ Product.location_point p' = UserProfile.location_point NEW)
  /\ (Product.id p' = Product.id p
      /\ Product.seller_id p' = Product.seller_id p
      /\ Product.title p' = Product.title p
      /\ Product.description p' = Product.description p
      /\ Product.price p' = Product.price p
      /\ Product.category_id p' = Product.category_id p
      /\ Product.condition p' = Product.condition p
      /\ Product.location p' = Product.location p
      /\ Product.image_urls p' = Product.image_urls p
      /\ Product.status p' = Product.status p
      /\ Product.views p' = Product.views p
      /\ Product.created_at p' = Product.created_at p
      /\ Product.is_donation p' = Product.is_donation p
      /\ Product.is_urgent p' = Product.is_urgent p).

(** The row that sync_product_location writes for a product: its SET
    list followed by the BEFORE UPDATE triggers of products. *)
Definition moved (now : timestamptz) (NEW : UserProfile.row) (p : Product.row)
    : Product.row :=
  tbl_before_update Schema.products_table now
    (Product.set_location (UserProfile.city NEW) (UserProfile.state NEW)
       (UserProfile.pincode NEW) (UserProfile.latitude NEW)
       (UserProfile.longitude NEW) (UserProfile.location_point NEW)
       (Some now) p).

(** Under the policies [ps], a row that an authenticated user may write
    with the command [c] is a row that user may read. *)
Definition readable_when_written {row : Type} (ps : list (policy row))
    (c : policy_cmd) : Prop :=
  forall (u : uuid) (d : db) (r : row),
    rls_with_check ps c (authenticated u) d r = true ->
    rls_using ps FOR_SELECT (authenticated u) d r = true.

(** The rows of a result, none for an error. *)
Definition rows_of {A : Type} (r : result (list A)) : list A :=
  match r with
  | Ok l => l
  | Err _ => []
  end.

(** A row of get_special_products called for [product_type]: an active
    product of the table, with its flags, flagged as the type asks. *)
Definition special_row (d : db) (product_type : option text)
    (r : SpecialProduct.row) : Prop :=
  (exists p, In p (products d)
             /\ Product.id p = SpecialProduct.id r
             /\ Product.status p = active
             /\ Product.is_donation p = SpecialProduct.is_donation r
             /\ Product.is_urgent p = SpecialProduct.is_urgent r
             /\ Product.created_at p = SpecialProduct.created_at r)
  /\ ((product_type = Some "donation" /\ SpecialProduct.is_donation r = Some true)
      \/ (product_type = Some "urgent" /\ SpecialProduct.is_urgent r = Some true)
      \/ (product_type = Some "all"
          /\ (SpecialProduct.is_donation r = Some true
              \/ SpecialProduct.is_urgent r = Some true))).

(** The product [k] is in the wishlist of the user [u], and is an
    active product. *)
Definition wished_and_active (d : db) (u k : uuid) : Prop :=
  (exists w, In w (wishlists d)
             /\ Wishlist.user_id w = u /\ Wishlist.product_id w = k)
  /\ (exists p, In p (products d)
                /\ Product.id p = k /\ Product.status p = active).

(** The rows that markMessagesAsRead(c) of the user [u] writes. *)
Definition marked (u c : uuid) (m : Message.row) : bool :=
  N.eqb (Message.conversation_id m) c && N.eqb (Message.receiver_id m) u.

(** The geography point of a product is the point of its coordinates,
    when it has both. *)
Definition point_follows_coordinates (p : Product.row) : Prop :=
  forall lat lon,
    Product.latitude p = Some lat -> Product.longitude p = Some lon ->
    Product.location_point p = Some (ST_MakePoint lon lat).

(** The participant of a conversation who is not the user [u]. *)
Definition other_participant (u : uuid) (c : Conversation.row) : uuid :=
  if N.eqb (Conversation.user1_id c) u
  then Conversation.user2_id c else Conversation.user1_id c.

(** Creation time ascending: [a] is not newer than [b]; a missing
    creation time counts as the latest. *)
Definition older_or_same (a b : option timestamptz) : Prop :=
  match a, b with
  | _, None => True
  | None, Some _ => False
  | Some x, Some y => x <= y
  end.

(** No row of [messages] has the identifier [k]. *)
Definition unused_message_id (d : db) (k : uuid) : bool :=
  negb (existsb (fun m => N.eqb (Message.id m) k) (messages d)).

(* ================================================================== *)
(** * Properties *)
(* ================================================================== *)

(** ** Results, lists *)

Lemma bind_ok {A B : Type} (a : A) (k : A -> result B) : bind (Ok a) k = k a.
Proof. reflexivity. Qed.

Lemma map_result_Forall2 {A B : Type} (f : A -> result B) (l : list A)
    (rows : list B) :
  map_result f l = Ok rows -> Forall2 (fun x y => f x = Ok y) l rows.
Proof.
  revert rows. induction l as [|a l IH]; intros rows; simpl.
  - intros [= <-]. constructor.
  - destruct (f a) as [b|] eqn:Ha; simpl; [|discriminate].
    destruct (map_result f l) as [bs|]; simpl; [|discriminate].
    intros [= <-]. constructor; [exact Ha | now apply IH].
Qed.

Lemma map_result_pointwise {A B : Type} (f : A -> result B) (g : A -> B)
    (l : list A) :
  (forall x, In x l -> f x = Ok (g x)) -> map_result f l = Ok (map g l).
Proof.
  induction l as [|a l IH]; intros H; simpl; [reflexivity|].
  rewrite (H a) by now left. simpl.
  rewrite IH by (intros x Hx; apply H; now right). reflexivity.
Qed.

Lemma map_result_In {A B : Type} (f : A -> result B) (l : list A) (rows : list B)
    (x : A) :
  map_result f l = Ok rows -> In x l -> exists y, f x = Ok y /\ In y rows.
Proof.
  revert rows. induction l as [|a l IH]; intros rows; simpl; [contradiction|].
  destruct (f a) as [b|] eqn:Ha; simpl; [|discriminate].
  destruct (map_result f l) as [bs|]; simpl; [|discriminate].
  intros [= <-] [-> | Hx].
  - exists b. split; [exact Ha | now left].
  - destruct (IH bs eq_refl Hx) as [y [Hy Hin]]. exists y. split; [exact Hy | now right].
Qed.

Lemma existsb_false {A : Type} (f : A -> bool) (l : list A) :
  existsb f l = false <-> (forall x, In x l -> f x = false).
Proof.
  induction l as [|a l IH]; simpl.
  - split; [intros _ x [] | reflexivity].
  - rewrite orb_false_iff, IH. split.
    + intros [Ha Hl] x [<- | Hx]; auto.
    + intros H. split; [apply H; now left | intros x Hx; apply H; now right].
Qed.

Lemma nonempty_filter_existsb {A : Type} (f : A -> bool) (l : list A) :
  match filter f l with [] => false | _ :: _ => true end = existsb f l.
Proof.
  induction l as [|a l IH]; simpl; [reflexivity|].
  destruct (f a); simpl; [reflexivity | exact IH].
Qed.

Lemma existsb_filter_negb {A : Type} (f : A -> bool) (l : list A) :
  existsb f (filter (fun x => negb (f x)) l) = false.
Proof.
  apply existsb_false. intros x Hx. apply filter_In in Hx.
  destruct Hx as [_ Hx]. now apply negb_true_iff in Hx.
Qed.

(** ** Statements run by a SECURITY DEFINER function or the service role *)

Lemma sql_select_service_role {row : Type} (T : table row) (d : db) (w : row -> bool) :
  sql_select T service_role d w = filter w (tbl_rows T d).
Proof. unfold sql_select. apply filter_ext. intros r. reflexivity. Qed.

Lemma sql_delete_service_role {row : Type} (T : table row) (d : db) (w : row -> bool) :
  sql_delete T service_role d w =
  tbl_with T (filter (fun r => negb (w r)) (tbl_rows T d)) d.
Proof.
  unfold sql_delete. f_equal. apply filter_ext. intros r.
  unfold delete_target. simpl. now rewrite !andb_true_r.
Qed.

(** ** What a successful INSERT did *)

Lemma sql_insert_inv {row : Type} (T : table row) (s : session) (d d' : db) (r : row) :
  sql_insert T s d r = Ok d' ->
  d' = tbl_with T (tbl_rows T d ++ [tbl_before_insert T r]) d
  /\ rls_with_check (tbl_policies T) FOR_INSERT s d (tbl_before_insert T r) = true
  /\ tbl_check T (tbl_before_insert T r) = Ok tt
  /\ first_conflict T (tbl_before_insert T r) (tbl_rows T d) = None
  /\ tbl_references T d (tbl_before_insert T r) = Ok tt.
Proof.
  unfold sql_insert, check_unique.
  destruct (rls_with_check _ _ _ _ _); simpl; [|discriminate].
  destruct (tbl_check T _) as [[]|]; simpl; [|discriminate].
  destruct (first_conflict T _ _); simpl; [discriminate|].
  destruct (tbl_references T d _) as [[]|]; simpl; [|discriminate].
  intros [= <-]. auto.
Qed.

(** ** Policies for writing imply policies for reading *)

Ltac policy_cases :=
  intros u d r; simpl; unfold pol_wco, pol_qual; simpl;
  rewrite ?orb_false_r, ?orb_true_r; try reflexivity;
  repeat match goal with
         | |- context [N.eqb ?a ?b] => destruct (N.eqb a b); simpl
         | |- context [product_status_eqb ?a ?b] =>
             destruct (product_status_eqb a b); simpl
         end;
  auto.

Lemma written_rows_are_readable :
  readable_when_written Schema.products_policies FOR_INSERT
  /\ readable_when_written Schema.products_policies FOR_UPDATE
  /\ readable_when_written Schema.orders_policies FOR_INSERT
  /\ readable_when_written Schema.orders_policies FOR_UPDATE
  /\ readable_when_written Schema.order_items_policies FOR_INSERT
  /\ readable_when_written Schema.wishlists_policies FOR_INSERT
  /\ readable_when_written Schema.conversations_policies FOR_INSERT
  /\ readable_when_written Schema.messages_policies FOR_INSERT
  /\ readable_when_written Schema.messages_policies FOR_UPDATE
  /\ readable_when_written Schema.user_profiles_policies FOR_UPDATE.
Proof.
  repeat split; try solve [policy_cases].
  (* order_items: the order of which the user is the buyer *)
  intros u d r. simpl. unfold pol_wco, pol_qual. simpl.
  rewrite !orb_false_r. intros H.
  apply existsb_exists in H. destruct H as [o [Ho H]].
  apply existsb_exists. exists o. split; [exact Ho|].
  apply andb_true_iff in H. destruct H as [-> ->]. reflexivity.
Qed.

(* ================================================================== *)
(** ** Wishlist toggle *)
(* ================================================================== *)

Module WishlistFacts.
Import Wishlists.

Lemma toggle_present (u p fresh : uuid) (now : timestamptz) (d : db) :
  in_wishlist d u p = true ->
  toggle_wishlist (authenticated u) fresh now p d =
  Ok (false, with_wishlists (filter (fun w => negb (is_pair u p w)) (wishlists d)) d).
Proof.
  intros Hin. unfold toggle_wishlist. simpl auth_uid. cbv iota beta.
  rewrite sql_select_service_role. simpl tbl_rows.
  rewrite nonempty_filter_existsb. fold (in_wishlist d u p). rewrite Hin.
  now rewrite sql_delete_service_role.
Qed.

Lemma toggle_absent (u p fresh : uuid) (now : timestamptz) (d : db) :
  in_wishlist d u p = false ->
  has_user d u = true ->
  has_product d p = true ->
  unused_wishlist_id d fresh = true ->
  toggle_wishlist (authenticated u) fresh now p d =
  Ok (true, with_wishlists (wishlists d ++ [Wishlist.mk fresh u p (Some now)])%list d).
Proof.
  intros Hin Hu Hp Hfresh. unfold toggle_wishlist. simpl auth_uid. cbv iota beta.
  rewrite sql_select_service_role. simpl tbl_rows.
  rewrite nonempty_filter_existsb. fold (in_wishlist d u p). rewrite Hin.
  unfold sql_insert, check_unique, first_conflict. simpl.
  apply negb_true_iff in Hfresh.
  assert (Hid : existsb (fun b => N.eqb fresh (Wishlist.id b)) (wishlists d) = false).
  { rewrite existsb_false in Hfresh |- *. intros x Hx.
    rewrite N.eqb_sym. now apply Hfresh. }
  assert (Hpair : existsb (fun b => N.eqb u (Wishlist.user_id b)
                                    && N.eqb p (Wishlist.product_id b))
                          (wishlists d) = false).
  { unfold in_wishlist in Hin. rewrite existsb_false in Hin |- *. intros x Hx.
    specialize (Hin x Hx). unfold is_pair in Hin.
    now rewrite (N.eqb_sym u), (N.eqb_sym p). }
  rewrite Hid, Hpair. simpl. rewrite Hu, Hp. reflexivity.
Qed.

Lemma in_wishlist_after_insert (u p fresh : uuid) (now : option timestamptz) (d : db) :
  in_wishlist (with_wishlists (wishlists d ++ [Wishlist.mk fresh u p now])%list d) u p = true.
Proof.
  unfold in_wishlist. simpl. rewrite existsb_app. simpl.
  unfold is_pair. simpl. rewrite !N.eqb_refl. simpl. now rewrite orb_true_r.
Qed.

Lemma in_wishlist_after_delete (u p : uuid) (d : db) :
  in_wishlist (with_wishlists (filter (fun w => negb (is_pair u p w)) (wishlists d)) d)
              u p = false.
Proof. unfold in_wishlist. simpl. apply existsb_filter_negb. Qed.

Lemma unused_id_after_delete (k : uuid) (f : Wishlist.row -> bool) (d : db) :
  unused_wishlist_id d k = true ->
  unused_wishlist_id (with_wishlists (filter f (wishlists d)) d) k = true.
Proof.
  unfold unused_wishlist_id. simpl. rewrite !negb_true_iff, !existsb_false.
  intros H x Hx. apply filter_In in Hx. now apply H.
Qed.

(** C2. For a user with a profile and an existing product,
    toggle_wishlist removes the (user, product) pair when it is in the
    wishlist and inserts it when it is not, and returns the resulting
    membership (true when added, false when removed); a second toggle
    brings the membership back to what it was. *)
Theorem toggle_wishlist_toggles (u p fresh1 fresh2 : uuid)
    (t1 t2 : timestamptz) (d : db) :
  has_user d u = true ->
  has_product d p = true ->
  unused_wishlist_id d fresh1 = true ->
  unused_wishlist_id d fresh2 = true ->
  exists d1 d2,
    toggle_wishlist (authenticated u) fresh1 t1 p d
      = Ok (negb (in_wishlist d u p), d1)
    /\ in_wishlist d1 u p = negb (in_wishlist d u p)
    /\ (in_wishlist d u p = true ->
        wishlists d1 = filter (fun w => negb (is_pair u p w)) (wishlists d))
    /\ (in_wishlist d u p = false ->
        wishlists d1 = (wishlists d ++ [Wishlist.mk fresh1 u p (Some t1)])%list)
    /\ toggle_wishlist (authenticated u) fresh2 t2 p d1
         = Ok (in_wishlist d u p, d2)
    /\ in_wishlist d2 u p = in_wishlist d u p.
Proof.
  intros Hu Hp Hf1 Hf2.
  destruct (in_wishlist d u p) eqn:Hin.
  - (* present: removed, then added again *)
    set (d1 := with_wishlists (filter (fun w => negb (is_pair u p w)) (wishlists d)) d).
    assert (Hin1 : in_wishlist d1 u p = false) by apply in_wishlist_after_delete.
    exists d1, (with_wishlists (wishlists d1 ++ [Wishlist.mk fresh2 u p (Some t2)])%list d1).
    repeat split.
    + now apply toggle_present.
    + exact Hin1.
    + discriminate.
    + apply toggle_absent; auto.
      now apply unused_id_after_delete.
    + apply in_wishlist_after_insert.
  - (* absent: added, then removed again *)
    set (d1 := with_wishlists (wishlists d ++ [Wishlist.mk fresh1 u p (Some t1)])%list d).
    assert (Hin1 : in_wishlist d1 u p = true) by apply in_wishlist_after_insert.
    exists d1, (with_wishlists (filter (fun w => negb (is_pair u p w)) (wishlists d1)) d1).
    repeat split.
    + now apply toggle_absent.
    + exact Hin1.
    + discriminate.
    + now apply toggle_present.
    + apply in_wishlist_after_delete.
Qed.

End WishlistFacts.

Example sample_db_valid : db_valid Sample.d0 = true.
Proof. reflexivity. Qed.

Lemma toggle_wishlist_toggles_witness :
  has_user Sample.d0 Sample.alice = true
  /\ has_product Sample.d0 100%N = true
  /\ unused_wishlist_id Sample.d0 400%N = true
  /\ unused_wishlist_id Sample.d0 401%N = true
  /\ exists d1 d2,
      Wishlists.toggle_wishlist (authenticated Sample.alice) 400%N 60 100%N Sample.d0
        = Ok (negb (Wishlists.in_wishlist Sample.d0 Sample.alice 100%N), d1)
      /\ Wishlists.in_wishlist d1 Sample.alice 100%N
         = negb (Wishlists.in_wishlist Sample.d0 Sample.alice 100%N)
      /\ (Wishlists.in_wishlist Sample.d0 Sample.alice 100%N = true ->
          wishlists d1
          = filter (fun w => negb (Wishlists.is_pair Sample.alice 100%N w))
                   (wishlists Sample.d0))
      /\ (Wishlists.in_wishlist Sample.d0 Sample.alice 100%N = false ->
          wishlists d1
          = (wishlists Sample.d0
              ++ [Wishlist.mk 400%N Sample.alice 100%N (Some 60)])%list)
      /\ Wishlists.toggle_wishlist (authenticated Sample.alice) 401%N 61 100%N d1
         = Ok (Wishlists.in_wishlist Sample.d0 Sample.alice 100%N, d2)
      /\ Wishlists.in_wishlist d2 Sample.alice 100%N
         = Wishlists.in_wishlist Sample.d0 Sample.alice 100%N.
Proof.
  repeat (split; [reflexivity|]).
  apply (WishlistFacts.toggle_wishlist_toggles
           Sample.alice 100%N 400%N 401%N 60 61 Sample.d0); reflexivity.
Defined.

(* ================================================================== *)
(** ** Conversation get-or-create *)
(* ================================================================== *)

Module ConversationFacts.
Import Conversations.

Lemma ordered_pair (a b : uuid) :
  (if N.ltb a b then (a, b) else (b, a)) = (N.min a b, N.max a b).
Proof.
  destruct (N.ltb_spec a b) as [H | H].
  - now rewrite N.min_l, N.max_r by lia.
  - now rewrite N.min_r, N.max_l by lia.
Qed.

(** C3. With the name resolution PL/pgSQL applies by default, every
    call of get_or_create_conversation stops at its lookup with
    "column reference user1_id is ambiguous": no conversation is
    returned for (A, B) nor for (B, A). *)
Theorem get_or_create_conversation_default_raises (s : session)
    (fresh : uuid) (now : timestamptz) (a b : uuid) (p : option uuid) (d : db) :
  get_or_create_conversation plpgsql_default s fresh now a b p d
  = Err (ambiguous_column "user1_id").
Proof.
  unfold get_or_create_conversation. now destruct (N.ltb a b).
Qed.

(** When the ambiguous names are read as columns, the two orders of
    the participants are the same call. *)
Lemma get_or_create_conversation_use_column_symmetric (s : session)
    (fresh : uuid) (now : timestamptz) (a b : uuid) (p : option uuid) (d : db) :
  get_or_create_conversation use_column s fresh now a b p d
  = get_or_create_conversation use_column s fresh now b a p d.
Proof.
  unfold get_or_create_conversation.
  rewrite (ordered_pair a b), (ordered_pair b a), N.min_comm, N.max_comm.
  reflexivity.
Qed.


End ConversationFacts.

Example default_mode_raises :
  Conversations.get_or_create_conversation plpgsql_default
    (authenticated Sample.alice) 202%N 70 Sample.alice Sample.bob None Sample.d0
  = Err (ambiguous_column "user1_id").
Proof. reflexivity. Qed.

(* ================================================================== *)
(** ** ORDER BY and LIMIT *)
(* ================================================================== *)

Section OrderByFacts.
Context {A : Type}.
Variable before : A -> A -> bool.
Hypothesis before_total : forall a b, before a b = true \/ before b a = true.
Hypothesis before_trans :
  forall a b c, before a b = true -> before b c = true -> before a c = true.

Lemma insert_row_perm (x : A) (l : list A) :
  Permutation (x :: l) (insert_row before x l).
Proof.
  induction l as [|y l IH]; simpl; [reflexivity|].
  destruct (before x y); [reflexivity|].
  rewrite perm_swap. now apply perm_skip.
Qed.

Lemma order_by_perm (l : list A) : Permutation l (order_by before l).
Proof.
  induction l as [|x l IH]; simpl; [reflexivity|].
  rewrite <- insert_row_perm. now apply perm_skip.
Qed.

Lemma insert_row_sorted (x : A) (l : list A) :
  StronglySorted (fun a b => before a b = true) l ->
  StronglySorted (fun a b => before a b = true) (insert_row before x l).
Proof.
  induction 1 as [|y l Hs IH Hy]; simpl.
  - constructor; constructor.
  - destruct (before x y) eqn:Hxy.
    + constructor; [now constructor|].
      constructor; [exact Hxy|].
      rewrite Forall_forall in Hy |- *. intros z Hz.
      apply (before_trans x y z Hxy). now apply Hy.
    + constructor; [exact IH|].
      rewrite <- insert_row_perm. constructor; [|exact Hy].
      destruct (before_total x y) as [H | H]; [congruence | exact H].
Qed.

Lemma order_by_sorted (l : list A) :
  StronglySorted (fun a b => before a b = true) (order_by before l).
Proof.
  induction l as [|x l IH]; simpl; [constructor|].
  now apply insert_row_sorted.
Qed.
End OrderByFacts.

Lemma order_by_Forall {A : Type} (before : A -> A -> bool) (P : A -> Prop)
    (l : list A) :
  Forall P l -> Forall P (order_by before l).
Proof.
  intros H. rewrite Forall_forall in H |- *. intros x Hx. apply H.
  induction l as [|y l IH] in x, Hx, H |- *; simpl in Hx; [contradiction|].
  assert (Hin : forall z k, In z (insert_row before y k) -> z = y \/ In z k).
  { intros z k. induction k as [|h k IHk]; simpl.
    - intros [<- | []]. now left.
    - destruct (before y h); simpl.
      + intros [<- | [<- | Hz]]; auto.
      + intros [<- | Hz]; auto. destruct (IHk Hz); auto. }
  destruct (Hin _ _ Hx) as [-> | Hx']; [now left|].
  right. apply IH; [|exact Hx'].
  intros z Hz. apply H. now right.
Qed.

Lemma firstn_incl {A : Type} (n : nat) (l : list A) (x : A) :
  In x (firstn n l) -> In x l.
Proof.
  revert l. induction n as [|n IH]; intros [|y l]; simpl; try contradiction.
  intros [<- | H]; [now left | right; now apply IH].
Qed.

Lemma firstn_Forall {A : Type} (P : A -> Prop) (n : nat) (l : list A) :
  Forall P l -> Forall P (firstn n l).
Proof.
  rewrite !Forall_forall. intros H x Hx. apply H. now apply firstn_incl in Hx.
Qed.

Lemma firstn_StronglySorted {A : Type} (R : A -> A -> Prop) (n : nat) (l : list A) :
  StronglySorted R l -> StronglySorted R (firstn n l).
Proof.
  intros H. revert n. induction H as [|x l Hs IH Hx]; intros [|n]; simpl;
    try constructor.
  - apply IH.
  - now apply firstn_Forall.
Qed.

Lemma StronglySorted_weaken {A : Type} (R S : A -> A -> Prop) (l : list A) :
  (forall a b, In a l -> In b l -> R a b -> S a b) ->
  StronglySorted R l -> StronglySorted S l.
Proof.
  intros HRS H. induction H as [|x l Hs IH Hx]; constructor.
  - apply IH. intros a b Ha Hb. apply HRS; now right.
  - rewrite Forall_forall in Hx |- *. intros y Hy.
    apply HRS; [now left | now right | now apply Hx].
Qed.

(** *** The two orderings *)

Lemma desc_before_spec (a b : option timestamptz) :
  desc_before a b = true <-> newer_or_same a b.
Proof.
  unfold desc_before, newer_or_same.
  destruct a as [x|], b as [y|]; simpl; try (split; [auto | reflexivity]).
  - destruct (Z.compare_spec x y); split; intros; try reflexivity; try lia;
      try discriminate.
  - split; [discriminate | contradiction].
Qed.

Lemma desc_before_total (a b : option timestamptz) :
  desc_before a b = true \/ desc_before b a = true.
Proof.
  rewrite !desc_before_spec. destruct a, b; simpl; auto; lia.
Qed.

Lemma desc_before_trans (a b c : option timestamptz) :
  desc_before a b = true -> desc_before b c = true -> desc_before a c = true.
Proof.
  rewrite !desc_before_spec. destruct a, b, c; simpl; auto; try lia; contradiction.
Qed.

Section DistanceOrder.
Let cmp := compare_nulls_large Qcompare.







End DistanceOrder.

(* ================================================================== *)
(** ** Nearby products *)
(* ================================================================== *)

Section NearbyFacts.
Variable ST_Distance : geography -> geography -> Q.

Lemma from_clause_product (s : session) (d : db)
    (j : Product.row * UserProfile.row * Category.row) :
  In j (from_products_sellers_categories s d) -> In (fst (fst j)) (products d).
Proof.
  unfold from_products_sellers_categories. intros H.
  apply in_flat_map in H. destruct H as [p [Hp H]].
  apply in_flat_map in H. destruct H as [up [_ H]].
  apply in_map_iff in H. destruct H as [c [<- _]]. simpl.
  unfold sql_select in Hp. apply filter_In in Hp. now destruct Hp.
Qed.

Lemma sql_limit_ok {A : Type} (n : Z) (l : list A) :
  0 <= n -> sql_limit (Some n) l = Ok (firstn (Z.to_nat n) l).
Proof.
  intros H. unfold sql_limit. destruct (Z.ltb_spec n 0); [lia | reflexivity].
Qed.

Lemma firstn_length_Z {A : Type} (n : Z) (l : list A) :
  0 <= n -> Z.of_nat (List.length (firstn (Z.to_nat n) l)) <= n.
Proof. intros H. rewrite length_firstn. lia. Qed.

Lemma radius_in_metres_ok (radius_km : Z) :
  0 <= radius_km * 1000 < 2 ^ 31 ->
  radius_in_metres (Some radius_km) = Ok (Some (inject_Z (radius_km * 1000))).
Proof.
  intros [H1 H2]. unfold radius_in_metres, to_integer.
  destruct (Z.leb_spec (- 2 ^ 31) (radius_km * 1000)); [|lia].
  destruct (Z.ltb_spec (radius_km * 1000) (2 ^ 31)); [|lia].
  reflexivity.
Qed.

Lemma status_active (st : product_status) :
  product_status_eqb st active = true -> st = active.
Proof. now destruct st. Qed.


Lemma nearby_rows (s : session) (d : db) (here : geography) (radius_km : Z) :
  Forall (nearby_row ST_Distance d here radius_km)
    (map (fun j => select_list (distance_km_from ST_Distance here (fst (fst j))) j)
         (filter (within_radius ST_Distance here (Some (inject_Z (radius_km * 1000))))
                 (from_products_sellers_categories s d))).
Proof.
  apply Forall_forall. intros r Hr.
  apply in_map_iff in Hr. destruct Hr as [j [<- Hj]].
  apply filter_In in Hj. destruct Hj as [Hj Hw].
  apply from_clause_product in Hj. destruct j as [[p up] c]. simpl in *.
  unfold distance_km_from.
  destruct (product_status_eqb (Product.status p) active) eqn:Hact;
    [|discriminate].
  apply status_active in Hact.
  destruct (Product.location_point p) as [g|] eqn:Hg; simpl in Hw; [|discriminate].
  destruct (Qle_bool (ST_Distance g here) (inject_Z (radius_km * 1000))) eqn:Hle;
    [|discriminate].
  apply Qle_bool_iff in Hle.
  split; [exact Hact|]. exists p, g. repeat split; auto.
Qed.


End NearbyFacts.

Example nearby_from_alice :
  match get_nearby_products Sample.taxicab (authenticated Sample.alice)
          (Some 1852040000) (Some 7385670000) (Some 50) (Some 20) Sample.d0 with
  | Ok rows => map NearbyProduct.id rows
  | Err _ => []
  end = [100%N; 101%N].
Proof. reflexivity. Qed.

Example recent_without_coordinates :
  match get_nearby_products Sample.taxicab (authenticated Sample.alice)
          None None (Some 50) (Some 1) Sample.d0 with
  | Ok rows => map NearbyProduct.id rows
  | Err _ => []
  end = [101%N].
Proof. reflexivity. Qed.

Example nearby_for_anonymous :
  get_nearby_products Sample.taxicab anon
    (Some 1852040000) (Some 7385670000) (Some 50) (Some 20) Sample.d0 = Ok [].
Proof. reflexivity. Qed.

Example nearby_radius_overflow :
  get_nearby_products Sample.taxicab (authenticated Sample.alice)
    (Some 1852040000) (Some 7385670000) (Some 3000000) (Some 20) Sample.d0
  = Err numeric_value_out_of_range.
Proof. reflexivity. Qed.

Example nearby_negative_limit :
  get_nearby_products Sample.taxicab (authenticated Sample.alice)
    None None (Some 50) (Some (-1)) Sample.d0 = Err negative_limit.
Proof. reflexivity. Qed.


(* ================================================================== *)
(** ** The two retrievals of messages *)
(* ================================================================== *)

(** C8. There is a database satisfying its constraints, with a
    conversation between two users, for which the retrieval by the pair
    of users, called with the product of the conversation as the page
    calls it, returns a message that the retrieval by the id of the
    conversation does not return. *)
Theorem getMessages_implementations_diverge :
  exists (d : db) (me other : uuid) (c : Conversation.row) (m : Message.row)
         (by_pair by_conversation : list Message.row),
    db_valid d = true
    /\ In c (conversations d)
    /\ Conversation.user1_id c = me
    /\ Conversation.user2_id c = other
    /\ SupabaseClient.getMessages (authenticated me) other
         (Conversation.product_id c) d = Ok by_pair
    /\ LocationClient.getMessages (authenticated me) (Conversation.id c) d
       = Ok by_conversation
    /\ In m by_pair
    /\ ~ In m by_conversation.
Proof.
  exists Sample.d0, Sample.alice, Sample.bob,
    (Conversation.mk 200%N Sample.alice Sample.bob None (Some 40) (Some 40)),
    (Message.mk 301%N 201%N Sample.alice Sample.bob (Some 100%N)
                "is it available?" (Some false) (Some 50) (Some 50)).
  eexists. eexists.
  split; [reflexivity|].
  split; [simpl; auto|].
  split; [reflexivity|].
  split; [reflexivity|].
  split; [reflexivity|].
  split; [reflexivity|].
  split.
  - simpl. auto.
  - simpl. intros [H | []]. discriminate H.
Qed.

(* ================================================================== *)
(** ** Listing products by the location of the user *)
(* ================================================================== *)

Section GetProductsFacts.
Variable ST_Distance : geography -> geography -> Q.
Variable toLowerCase : string -> string.
Variable listing : Type.
Variable regular_query :
  session -> option SupabaseClient.filters -> db -> result (list listing).

Lemma resolve_user_city_state (city state : string) :
  Rpc.resolve "get_nearby_products"
    [ ("user_city", Rpc.JString city); ("user_state", Rpc.JString state) ]
  = Err (undefined_function "get_nearby_products").
Proof. reflexivity. Qed.

(** C9. When the filters carry a user location with a non-empty city
    and a non-empty state, getProducts calls get_nearby_products with
    the keys user_city and user_state, which no function of that name
    declares, and fails with the error of that call. *)
Theorem getProducts_with_location_fails (s : session) (d : db)
    (fl : SupabaseClient.filters) (city state : string) :
  SupabaseClient.f_userLocation fl
    = Some (SupabaseClient.mk_userLocation (Some city) (Some state)) ->
  city <> "" ->
  state <> "" ->
  SupabaseClient.getProducts ST_Distance toLowerCase listing regular_query
    s (Some fl) d
  = Err (undefined_function "get_nearby_products").
Proof.
  intros Hloc Hc Hs. unfold SupabaseClient.getProducts. rewrite Hloc.
  cbn [SupabaseClient.ul_city SupabaseClient.ul_state truthy_string string_of].
  apply String.eqb_neq in Hc, Hs. rewrite Hc, Hs.
  cbn [negb andb]. unfold Rpc.get_nearby_products.
  now rewrite resolve_user_city_state.
Qed.
End GetProductsFacts.

(** The call of the location library names the declared parameters. *)
Example getNearbyProducts_resolves :
  Rpc.resolve "get_nearby_products"
    [ ("user_lat", Rpc.JNull); ("user_lon", Rpc.JNull);
      ("radius_km", Rpc.JNumber 50); ("limit_count", Rpc.JNumber 20) ]
  = Ok (Rpc.mk_signature "get_nearby_products"
          [ ("user_lat", true); ("user_lon", true);
            ("radius_km", true); ("limit_count", true) ]).
Proof. reflexivity. Qed.

Lemma getProducts_with_location_fails_witness :
  let fl := SupabaseClient.mk_filters None None None None None None None
              (Some (SupabaseClient.mk_userLocation (Some "Pune") (Some "MH"))) in
  SupabaseClient.f_userLocation fl
    = Some (SupabaseClient.mk_userLocation (Some "Pune") (Some "MH"))
  /\ "Pune" <> ""
  /\ "MH" <> ""
  /\ SupabaseClient.getProducts Sample.taxicab (fun x => x) unit
       (fun _ _ _ => Ok []) (authenticated Sample.alice) (Some fl) Sample.d0
     = Err (undefined_function "get_nearby_products").
Proof.
  intros fl.
  split; [reflexivity|]. split; [discriminate|]. split; [discriminate|].
  apply (getProducts_with_location_fails Sample.taxicab (fun x => x) unit
           (fun _ _ _ => Ok []) (authenticated Sample.alice) Sample.d0 fl
           "Pune" "MH"); [reflexivity | discriminate | discriminate].
Defined.

(* ================================================================== *)
(** ** Order totals *)
(* ================================================================== *)

Module OrderFacts.

Lemma fold_left_total (items : list OrderContext.OrderItem) (acc : float) :
  fold_left (fun total item =>
               total + OrderContext.price item * OrderContext.quantity item)%float
            items acc
  = fold_left PrimFloat.add (map line_total items) acc.
Proof.
  revert acc. induction items as [|i items IH]; intros acc; simpl.
  - reflexivity.
  - apply IH.
Qed.

Lemma context_order_total (Date_now : Z) (items : list OrderContext.OrderItem)
    (addr : Order.address) (pm : string) (orders : list OrderContext.Order) :
  exists o,
    snd (OrderContext.createOrder Date_now items addr pm orders) = o :: orders
    /\ fst (OrderContext.createOrder Date_now items addr pm orders)
       = OrderContext.id o
    /\ OrderContext.items o = items
    /\ OrderContext.totalAmount o = sum_of (map line_total items).
Proof.
  unfold OrderContext.createOrder. eexists.
  split; [reflexivity|]. split; [reflexivity|]. split; [reflexivity|].
  cbn [OrderContext.totalAmount]. apply fold_left_total.
Qed.

Lemma insert_order_inv (s : session) (fresh : uuid) (now : timestamptz)
    (i : Rest.order_input) (d d1 : db) (o : Order.row) :
  Rest.insert_order s fresh now i d = Ok (o, d1) ->
  to_decimal_10_2 (Rest.oi_total_amount i) = Ok (Order.total_amount o)
  /\ Order.id o = fresh
  /\ orders d1 = (orders d ++ [o])%list
  /\ order_items d1 = order_items d.
Proof.
  unfold Rest.insert_order.
  destruct (to_decimal_10_2 (Rest.oi_total_amount i)) as [total|e]; simpl;
    [|discriminate].
  destruct (sql_insert _ s d _) as [d2|e] eqn:Hins; simpl; [|discriminate].
  intros [= <- <-]. apply sql_insert_inv in Hins.
  destruct Hins as [-> _]. simpl. auto.
Qed.

Lemma insert_item_keeps_orders (s : session) (d d' : db) (r : OrderItem.row) :
  sql_insert Schema.order_items_table s d r = Ok d' -> orders d' = orders d.
Proof.
  intros H. apply sql_insert_inv in H. destruct H as [-> _]. reflexivity.
Qed.

Lemma insert_items_keep_orders (s : session) (rows : list OrderItem.row)
    (d d' : db) :
  sql_insert_all Schema.order_items_table s d rows = Ok d' -> orders d' = orders d.
Proof.
  revert d. induction rows as [|r rows IH]; simpl; intros d.
  - now intros [= <-].
  - destruct (sql_insert _ s d r) as [d1|e] eqn:H1; simpl; [|discriminate].
    intros H. rewrite (IH _ H). now apply insert_item_keeps_orders in H1.
Qed.

Lemma insert_items_append (s : session) (rows : list OrderItem.row) (d d' : db) :
  sql_insert_all Schema.order_items_table s d rows = Ok d' ->
  order_items d' = (order_items d ++ rows)%list.
Proof.
  revert d. induction rows as [|r rows IH]; simpl; intros d.
  - intros [= <-]. now rewrite app_nil_r.
  - destruct (sql_insert _ s d r) as [d1|e] eqn:H1; simpl; [|discriminate].
    intros H. rewrite (IH _ H). apply sql_insert_inv in H1.
    destruct H1 as [-> _]. simpl. now rewrite <- app_assoc.
Qed.

Lemma rows_of_items (now : timestamptz) (fresh : nat -> uuid)
    (items : list Rest.order_item_input) (rows : list OrderItem.row) :
  map_result (Rest.order_item_row now) (Rest.with_ids fresh items) = Ok rows ->
  Forall2 (fun i r => exists k, Rest.order_item_row now (k, i) = Ok r) items rows.
Proof.
  intros H. apply map_result_Forall2 in H. unfold Rest.with_ids in H.
  revert rows H. generalize 0%nat.
  induction items as [|i items IH]; intros start rows H; simpl in H.
  - inversion H. constructor.
  - inversion H as [|x r xs rs Hx Hxs]; subst. constructor; [eauto|].
    now apply (IH (S start)).
Qed.

Lemma item_row_fields (now : timestamptz) (k : uuid) (i : Rest.order_item_input)
    (r : OrderItem.row) :
  Rest.order_item_row now (k, i) = Ok r ->
  OrderItem.order_id r = Rest.ii_order_id i
  /\ OrderItem.product_id r = Rest.ii_product_id i
  /\ to_decimal_10_2 (Rest.ii_total_price i) = Ok (OrderItem.total_price r).
Proof.
  unfold Rest.order_item_row.
  destruct (to_integer _) as [q|]; simpl; [|discriminate].
  destruct (to_decimal_10_2 (Rest.ii_unit_price i)) as [u|]; simpl; [|discriminate].
  destruct (to_decimal_10_2 (Rest.ii_total_price i)) as [t|]; simpl; [|discriminate].
  intros [= <-]. simpl. auto.
Qed.

(** C4, as the code has it. The order context computes the total of a
    new order from its items: the products price times quantity, added
    in the order of the items, starting from 0, in the floating-point
    arithmetic of JavaScript numbers. The data layer stores the
    total_amount it is given (rounded to two decimals) with the order
    it creates, and the total_price it is given with each item of that
    order, whatever their sum is. *)
Theorem order_total_at_creation
    (Date_now : Z) (cart : list OrderContext.OrderItem) (addr : Order.address)
    (pm : string) (previous : list OrderContext.Order)
    (s : session) (order_uuid : uuid) (item_uuid : nat -> uuid)
    (now : timestamptz) (input : SupabaseClient.orderInput)
    (items : list SupabaseClient.orderItemInput) (d d' : db) (o : Order.row) :
  SupabaseClient.createOrder s order_uuid item_uuid now input items d = (Ok o, d') ->
  (exists c,
     snd (OrderContext.createOrder Date_now cart addr pm previous) = c :: previous
     /\ OrderContext.items c = cart
     /\ OrderContext.totalAmount c = sum_of (map line_total cart))
  /\ to_decimal_10_2 (SupabaseClient.total_amount input) = Ok (Order.total_amount o)
  /\ In o (orders d')
  /\ exists rows,
       order_items d' = (order_items d ++ rows)%list
       /\ Forall2
            (fun item r =>
               OrderItem.order_id r = Order.id o
               /\ OrderItem.product_id r = SupabaseClient.product_id item
               /\ to_decimal_10_2 (SupabaseClient.total_price item)
                  = Ok (OrderItem.total_price r))
            items rows.
Proof.
  intros H. split.
  - destruct (context_order_total Date_now cart addr pm previous)
      as [c [H1 [_ [H2 H3]]]].
    exists c. auto.
  - unfold SupabaseClient.createOrder in H.
    destruct (SupabaseClient.getUser s) as [user|]; [|discriminate].
    destruct (Rest.insert_order _ _ _ _ _) as [[orderData d1]|e] eqn:Hins;
      [|discriminate].
    destruct (Rest.insert_order_items _ _ _ _ _) as [d2|e] eqn:Hitems;
      [|discriminate].
    injection H as <- <-.
    apply insert_order_inv in Hins. simpl in Hins.
    destruct Hins as [Htotal [_ [Horders Hkept]]]. split; [exact Htotal|].
    unfold Rest.insert_order_items in Hitems.
    destruct (map_result _ _) as [rows|e] eqn:Hrows; simpl in Hitems; [|discriminate].
    split.
    + apply insert_items_keep_orders in Hitems. rewrite Hitems, Horders.
      apply in_or_app. right. now left.
    + exists rows. split.
      * apply insert_items_append in Hitems. now rewrite Hitems, Hkept.
      * apply rows_of_items in Hrows. clear Hitems. revert rows Hrows.
        induction items as [|item items IH]; intros rows Hrows; simpl in Hrows;
          inversion Hrows as [|x r xs rs [k Hk] Hrest]; subst; constructor.
        -- apply item_row_fields in Hk. simpl in Hk. exact Hk.
        -- now apply IH.
Qed.

End OrderFacts.

(** The total of the order context is a floating-point sum. A line of
    three items at 0.1 gives 0.30000000000000004, not 0.3, and the same
    three lines in another order give another total. *)
Example context_total_is_a_floating_point_sum :
  let order_of := fun cart =>
    map OrderContext.totalAmount
        (snd (OrderContext.createOrder 1705314600000 cart
                (Order.mk_address "Alice" "1 Main St" "Pune" "411001" "555-0100")
                "card" [])) in
  let line := fun price quantity =>
    OrderContext.mk_item "1" "Calculus" price "" quantity "Bob" in
  order_of [ line 0.1%float 3%float ] = [ 0.30000000000000004%float ]
  /\ 0.30000000000000004%float <> 0.3%float
  /\ order_of [ line 0.1%float 1%float; line 0.2%float 1%float; line 0.3%float 1%float ]
     = [ 0.6000000000000001%float ]
  /\ order_of [ line 0.3%float 1%float; line 0.2%float 1%float; line 0.1%float 1%float ]
     = [ 0.6%float ]
  /\ 0.6000000000000001%float <> 0.6%float.
Proof.
  cbv zeta. split; [reflexivity|]. split.
  - intros H. apply (f_equal (fun x => PrimFloat.eqb x 0.3%float)) in H.
    vm_compute in H. discriminate.
  - split; [reflexivity|]. split; [reflexivity|].
    intros H. apply (f_equal (fun x => PrimFloat.eqb x 0.6%float)) in H.
    vm_compute in H. discriminate.
Qed.

(** An order of 100.00 with a single line of 30.00 is accepted. *)
Lemma createOrder_total_differs_from_items :
  exists o d',
    SupabaseClient.createOrder (authenticated Sample.alice) 500%N Sample.item_uuid 80
      (SupabaseClient.mk_orderInput Sample.bob (100 # 1)
         (Order.mk_address "Alice" "1 Main St" "Pune" "411001" "555-0100")
         "card" None)
      [ SupabaseClient.mk_orderItemInput 100%N 1 (30 # 1) (30 # 1) ]
      Sample.d0
    = (Ok o, d')
    /\ Order.total_amount o = 10000
    /\ items_total d' o = 3000
    /\ Order.total_amount o <> items_total d' o.
Proof.
  eexists. eexists. split; [reflexivity|].
  split; [reflexivity|]. split; [reflexivity|]. discriminate.
Qed.

Lemma order_total_at_creation_witness :
  let input :=
    SupabaseClient.mk_orderInput Sample.bob (100 # 1)
      (Order.mk_address "Alice" "1 Main St" "Pune" "411001" "555-0100")
      "card" None in
  let items := [ SupabaseClient.mk_orderItemInput 100%N 1 (30 # 1) (30 # 1) ] in
  let cart := [ OrderContext.mk_item "1" "Calculus" 89%float "" 2%float "Bob" ] in
  let addr := Order.mk_address "Alice" "1 Main St" "Pune" "411001" "555-0100" in
  exists o d',
    SupabaseClient.createOrder (authenticated Sample.alice) 500%N Sample.item_uuid 80
      input items Sample.d0 = (Ok o, d')
    /\ (exists c,
          snd (OrderContext.createOrder 1705314600000 cart addr "card" []) = [c]
          /\ OrderContext.items c = cart
          /\ OrderContext.totalAmount c = sum_of (map line_total cart))
    /\ to_decimal_10_2 (SupabaseClient.total_amount input) = Ok (Order.total_amount o)
    /\ In o (orders d')
    /\ exists rows,
         order_items d' = (order_items Sample.d0 ++ rows)%list
         /\ Forall2
              (fun item r =>
                 OrderItem.order_id r = Order.id o
                 /\ OrderItem.product_id r = SupabaseClient.product_id item
                 /\ to_decimal_10_2 (SupabaseClient.total_price item)
                    = Ok (OrderItem.total_price r))
              items rows.
Proof.
  intros input items cart addr.
  eexists. eexists. split; [reflexivity|].
  apply (OrderFacts.order_total_at_creation 1705314600000 cart addr "card" []
           (authenticated Sample.alice) 500%N Sample.item_uuid 80 input items
           Sample.d0).
  reflexivity.
Defined.

(* ================================================================== *)
(** ** Non-positive prices, totals and quantities *)
(* ================================================================== *)

Module ConstraintFacts.

(** *** Assignment to the column types *)

Lemma round_half_away_non_positive (q : Q) :
  (q <= 0)%Q -> round_half_away q <= 0.
Proof.
  intros Hq. unfold round_half_away.
  destruct (Qle_bool 0 q) eqn:H0.
  - apply Qle_bool_iff in H0.
    assert (Hz : (q == 0)%Q) by now apply Qle_antisym.
    assert (Hh : (q + (1 # 2) == 1 # 2)%Q) by (rewrite Hz; ring).
    rewrite Hh. now vm_compute.
  - assert (Hpos : (0 <= - q + (1 # 2))%Q).
    { apply (Qle_trans _ (0 + (1 # 2))%Q); [discriminate|].
      apply Qplus_le_compat; [|apply Qle_refl].
      rewrite <- (Qopp_involutive 0). apply Qopp_le_compat. exact Hq. }
    apply Qfloor_resp_le in Hpos. change (Qfloor 0) with 0 in Hpos. lia.
Qed.

Lemma decimal_non_positive (q : Q) (c : Z) :
  (q <= 0)%Q -> to_decimal_10_2 q = Ok c -> c <= 0.
Proof.
  intros Hq. unfold to_decimal_10_2.
  destruct (Z.abs _ <? 10 ^ 10); [|discriminate].
  intros [= <-]. apply round_half_away_non_positive.
  rewrite <- (Qmult_0_l 100). apply Qmult_le_compat_r; [exact Hq | discriminate].
Qed.

Lemma integer_value (z c : Z) : to_integer z = Ok c -> c = z.
Proof.
  unfold to_integer. destruct (_ && _); [|discriminate]. now intros [= <-].
Qed.

Lemma check_non_positive (name : string) (c : Z) :
  c <= 0 -> check name (0 <? c) = Err (check_violation name).
Proof.
  intros H. unfold check. destruct (Z.ltb_spec 0 c); [lia | reflexivity].
Qed.

(** *** Statements whose row violates a CHECK *)

Section Rejected.
Context {row : Type}.
Variable T : table row.

Lemma sql_insert_rejected (s : session) (d : db) (r : row) (e : sql_error) :
  tbl_check T (tbl_before_insert T r) = Err e ->
  exists e', sql_insert T s d r = Err e'.
Proof.
  intros H. unfold sql_insert.
  destruct (rls_with_check _ _ _ _ _); simpl; [|eauto].
  rewrite H. simpl. eauto.
Qed.

Lemma sql_insert_all_rejected (s : session) (rows : list row) (r : row) :
  In r rows ->
  (exists e, tbl_check T (tbl_before_insert T r) = Err e) ->
  forall d, exists e', sql_insert_all T s d rows = Err e'.
Proof.
  intros Hin [e He]. induction rows as [|x rows IH]; [contradiction|].
  intros d. simpl. destruct Hin as [-> | Hin].
  - destruct (sql_insert_rejected s d r e He) as [e' ->]. simpl. eauto.
  - destruct (sql_insert T s d x) as [d1|e1]; simpl; [|eauto].
    now apply IH.
Qed.

Lemma map_result_err {B : Type} (f : row -> result B) (l : list row) (x : row) :
  In x l -> (exists e, f x = Err e) -> exists e', map_result f l = Err e'.
Proof.
  intros Hin [e He]. induction l as [|y l IH]; [contradiction|]. simpl.
  destruct Hin as [-> | Hin].
  - rewrite He. simpl. eauto.
  - destruct (f y); simpl; [|eauto].
    destruct (IH Hin) as [e' ->]. simpl. eauto.
Qed.

Lemma map_result_untouched (f : row -> result (bool * row)) (l : list row) :
  (forall x, In x l -> f x = Ok (false, x)) ->
  map_result f l = Ok (map (fun x => (false, x)) l).
Proof.
  induction l as [|y l IH]; intros H; simpl; [reflexivity|].
  rewrite (H y) by now left. simpl.
  rewrite IH by (intros x Hx; apply H; now right). reflexivity.
Qed.

Lemma update_conflict_untouched (l : list row) :
  update_conflict T (map (fun x => (false, x)) l) = None.
Proof.
  induction l as [|y l IH]; simpl; [reflexivity|].
  assert (Hnil : filter (fun x : bool * row => fst x)
                        (map (fun x => (false, x)) l) = []).
  { clear. induction l; simpl; auto. }
  rewrite Hnil. simpl.
  unfold first_conflict. simpl.
  replace (find _ (tbl_unique T)) with (@None (string * (row -> row -> bool))).
  - exact IH.
  - symmetry. induction (tbl_unique T); simpl; auto.
Qed.

Lemma updated_row_rejected (s : session) (now : timestamptz) (d : db)
    (set : row -> row) (r : row) (e : sql_error) :
  tbl_check T (tbl_before_update T now (set r)) = Err e ->
  exists e', updated_row T s now d set r = Err e'.
Proof.
  intros H. unfold updated_row.
  destruct (rls_with_check _ _ _ _ _); simpl; [|eauto].
  rewrite H. simpl. eauto.
Qed.

(** An UPDATE whose every written row would violate a CHECK fails
    as soon as it reaches a row, and changes nothing otherwise. *)
Lemma sql_update_rejected (s : session) (now : timestamptz) (d : db)
    (w : row -> bool) (set : row -> row) :
  (forall r, exists e, tbl_check T (tbl_before_update T now (set r)) = Err e) ->
  (reaches T s d w -> exists e, sql_update T s now d w set = Err e)
  /\ (forall d', sql_update T s now d w set = Ok d' ->
                 d' = tbl_with T (tbl_rows T d) d).
Proof.
  intros Hbad.
  assert (Hreach : reaches T s d w ->
                   exists e, sql_update T s now d w set = Err e).
  { intros [r [Hr Ht]]. unfold sql_update.
    destruct (map_result_err (update_step T s now d w set) (tbl_rows T d) r Hr)
      as [e' ->]; [|simpl; eauto].
    unfold update_step. rewrite Ht.
    destruct (Hbad r) as [e He].
    destruct (updated_row_rejected s now d set r e He) as [e' ->].
    simpl. eauto. }
  split; [exact Hreach|].
  intros d' Hok.
  destruct (existsb (update_target T s d w) (tbl_rows T d)) eqn:Hex.
  - apply existsb_exists in Hex. destruct (Hreach Hex) as [e He]. congruence.
  - rewrite existsb_false in Hex. unfold sql_update in Hok.
    rewrite map_result_untouched in Hok.
    + simpl in Hok. rewrite update_conflict_untouched in Hok.
      injection Hok as <-. f_equal. rewrite map_map. simpl. apply map_id.
    + intros x Hx. unfold update_step. now rewrite (Hex x Hx).
Qed.
End Rejected.

Lemma with_ids_In (fresh : nat -> uuid) (items : list Rest.order_item_input)
    (i : Rest.order_item_input) :
  In i items -> exists k, In (k, i) (Rest.with_ids fresh items).
Proof.
  unfold Rest.with_ids. generalize 0%nat.
  induction items as [|x items IH]; intros start; simpl; [contradiction|].
  intros [-> | Hi].
  - exists (fresh start). now left.
  - destruct (IH (S start) Hi) as [k Hk]. exists k. now right.
Qed.

(** *** The CHECK constraints of the three tables *)

Lemma product_price_after_triggers (now : timestamptz) (c : Z) (r : Product.row) :
  Product.price (tbl_before_update Schema.products_table now (Product.set_price c r)) = c.
Proof.
  simpl. unfold Triggers.update_location_point_product. simpl.
  now destruct (Product.latitude r), (Product.longitude r).
Qed.

Lemma product_check_rejects (now : timestamptz) (c : Z) (r : Product.row) :
  c <= 0 ->
  exists e, tbl_check Schema.products_table
              (tbl_before_update Schema.products_table now (Product.set_price c r))
            = Err e.
Proof.
  intros H. cbn [tbl_check Schema.products_table].
  rewrite product_price_after_triggers, check_non_positive by exact H. eauto.
Qed.

Lemma order_item_check_rejects (r : OrderItem.row) :
  OrderItem.quantity r <= 0 \/ OrderItem.unit_price r <= 0
  \/ OrderItem.total_price r <= 0 ->
  exists e, tbl_check Schema.order_items_table r = Err e.
Proof.
  intros H. cbn [tbl_check Schema.order_items_table]. unfold check.
  destruct (Z.ltb_spec 0 (OrderItem.quantity r)); simpl; [|eauto].
  destruct (Z.ltb_spec 0 (OrderItem.total_price r)); simpl; [|eauto].
  destruct (Z.ltb_spec 0 (OrderItem.unit_price r)); simpl; [|eauto].
  lia.
Qed.

Lemma commit_rejected (r : result db) (d : db) :
  (exists e, r = Err e) -> Rest.commit r d = d.
Proof. now intros [e ->]. Qed.

(** What an UPDATE gives when every row it would write is rejected. *)
Lemma rejected_update {row : Type} (T : table row) (s : session)
    (now : timestamptz) (d : db) (w : row -> bool) (set : row -> row) :
  tbl_with T (tbl_rows T d) d = d ->
  (forall r, exists e, tbl_check T (tbl_before_update T now (set r)) = Err e) ->
  Rest.commit (sql_update T s now d w set) d = d
  /\ (reaches T s d w -> exists e, sql_update T s now d w set = Err e).
Proof.
  intros Hlens Hbad.
  destruct (sql_update_rejected T s now d w set Hbad) as [Hreach Hok].
  split; [|exact Hreach].
  destruct (sql_update T s now d w set) as [d'|e] eqn:Hu; [|reflexivity].
  simpl. now rewrite (Hok d' eq_refl).
Qed.

Lemma products_lens (d : db) :
  tbl_with Schema.products_table (tbl_rows Schema.products_table d) d = d.
Proof. now destruct d. Qed.

Lemma orders_lens (d : db) :
  tbl_with Schema.orders_table (tbl_rows Schema.orders_table d) d = d.
Proof. now destruct d. Qed.

Lemma order_items_lens (d : db) :
  tbl_with Schema.order_items_table (tbl_rows Schema.order_items_table d) d = d.
Proof. now destruct d. Qed.

(** C5. A write of a non-positive product price, order total, item
    quantity, item unit price or item total price leaves the database
    as it was, and fails whenever it has a row to write: always for an
    INSERT, and for an UPDATE when it reaches a row. *)
Theorem non_positive_write_rejected (s : session) (now : timestamptz)
    (x : money_write) (d : db) :
  non_positive x ->
  Rest.commit (perform s now x d) d = d
  /\ (writes_a_row s d x -> exists e, perform s now x d = Err e).
Proof.
  assert (Hins : forall r : result db,
            (exists e, r = Err e) ->
            Rest.commit r d = d /\ (True -> exists e, r = Err e)).
  { intros r H. split; [now apply commit_rejected | auto]. }
  assert (Hcoerce : forall (A : Type) (e : sql_error) (k : A -> result db) (P : Prop),
            Rest.commit (bind (Err e) k) d = d
            /\ (P -> exists e', bind (Err e) k = Err e')).
  { intros. simpl. eauto. }
  destruct x as [fresh p | w v | fresh o | w v | fresh items | w v | w v | w v];
    simpl; intros Hx.
  - (* INSERT INTO products *)
    apply Hins. unfold Rest.insert_product.
    destruct (to_decimal_10_2 (Rest.pi_price p)) as [c|e] eqn:Hc; simpl; [|eauto].
    eapply sql_insert_rejected. cbn [tbl_check Schema.products_table].
    simpl. apply check_non_positive. eapply decimal_non_positive; eauto.
  - (* UPDATE products SET price *)
    unfold Rest.update_product_price, Rest.update_products.
    destruct (to_decimal_10_2 v) as [c|e] eqn:Hc; [|apply Hcoerce].
    simpl bind. apply rejected_update; [apply products_lens|].
    intros r. apply product_check_rejects. eapply decimal_non_positive; eauto.
  - (* INSERT INTO orders *)
    apply Hins. unfold Rest.insert_order.
    destruct (to_decimal_10_2 (Rest.oi_total_amount o)) as [c|e] eqn:Hc;
      simpl; [|eauto].
    edestruct (sql_insert_rejected Schema.orders_table s d
                 (Rest.order_row fresh now c o)) as [e' ->]; [|simpl; eauto].
    simpl. apply check_non_positive. eapply decimal_non_positive; eauto.
  - (* UPDATE orders SET total_amount *)
    unfold Rest.update_order_total_amount.
    destruct (to_decimal_10_2 v) as [c|e] eqn:Hc; [|apply Hcoerce].
    simpl bind. apply rejected_update; [apply orders_lens|].
    intros r. simpl. rewrite check_non_positive; [eauto|].
    eapply decimal_non_positive; eauto.
  - (* INSERT INTO order_items *)
    apply Hins. destruct Hx as [i [Hi Hbad]]. unfold Rest.insert_order_items.
    destruct (map_result (Rest.order_item_row now) (Rest.with_ids fresh items))
      as [rows|e] eqn:Hrows; simpl; [|eauto].
    destruct (with_ids_In fresh items i Hi) as [k Hk].
    destruct (map_result_In _ _ _ (k, i) Hrows Hk) as [y [Hy Hin]].
    apply (sql_insert_all_rejected Schema.order_items_table s rows y Hin).
    apply order_item_check_rejects.
    unfold Rest.order_item_row in Hy.
    destruct (to_integer (Rest.ii_quantity i)) as [q|] eqn:Hq; simpl in Hy;
      [|discriminate].
    destruct (to_decimal_10_2 (Rest.ii_unit_price i)) as [u|] eqn:Hu;
      simpl in Hy; [|discriminate].
    destruct (to_decimal_10_2 (Rest.ii_total_price i)) as [t|] eqn:Ht;
      simpl in Hy; [|discriminate].
    injection Hy as <-. simpl.
    apply integer_value in Hq.
    destruct Hbad as [H | [H | H]].
    + left. lia.
    + right. left. eapply decimal_non_positive; eauto.
    + right. right. eapply decimal_non_positive; eauto.
  - (* UPDATE order_items SET quantity *)
    unfold Rest.update_order_item_quantity.
    destruct (to_integer v) as [c|e] eqn:Hc; [|apply Hcoerce].
    simpl bind. apply rejected_update; [apply order_items_lens|].
    intros r. apply order_item_check_rejects. simpl.
    apply integer_value in Hc. left. lia.
  - (* UPDATE order_items SET unit_price *)
    unfold Rest.update_order_item_unit_price.
    destruct (to_decimal_10_2 v) as [c|e] eqn:Hc; [|apply Hcoerce].
    simpl bind. apply rejected_update; [apply order_items_lens|].
    intros r. apply order_item_check_rejects. simpl.
    right. left. eapply decimal_non_positive; eauto.
  - (* UPDATE order_items SET total_price *)
    unfold Rest.update_order_item_total_price.
    destruct (to_decimal_10_2 v) as [c|e] eqn:Hc; [|apply Hcoerce].
    simpl bind. apply rejected_update; [apply order_items_lens|].
    intros r. apply order_item_check_rejects. simpl.
    right. right. eapply decimal_non_positive; eauto.
Qed.

End ConstraintFacts.

Example negative_price_update :
  perform (authenticated Sample.bob) 90
    (update_product_price (fun p => N.eqb (Product.id p) 100%N) (-5 # 1)) Sample.d0
  = Err (check_violation "products_price_check").
Proof. reflexivity. Qed.

Example tiny_price_update :
  perform (authenticated Sample.bob) 90
    (update_product_price (fun p => N.eqb (Product.id p) 100%N) (4 # 1000)) Sample.d0
  = Err (check_violation "products_price_check").
Proof. reflexivity. Qed.

Example positive_price_update :
  option_map Product.price
    (find (fun p => N.eqb (Product.id p) 100%N)
          (products (Rest.commit
             (perform (authenticated Sample.bob) 90
                (update_product_price (fun p => N.eqb (Product.id p) 100%N) (1250 # 100))
                Sample.d0)
             Sample.d0)))
  = Some 1250.
Proof. reflexivity. Qed.

Example zero_quantity_insert :
  perform service_role 90
    (insert_order_items Sample.item_uuid
       [ Rest.mk_order_item_input 500%N 100%N 0 (30 # 1) (30 # 1) ])
    Sample.d0
  = Err (check_violation "order_items_quantity_check").
Proof. reflexivity. Qed.

Lemma non_positive_write_rejected_witness :
  let x := update_product_price (fun p => N.eqb (Product.id p) 100%N) (-5 # 1) in
  non_positive x
  /\ writes_a_row (authenticated Sample.bob) Sample.d0 x
  /\ Rest.commit (perform (authenticated Sample.bob) 90 x Sample.d0) Sample.d0
     = Sample.d0
  /\ exists e, perform (authenticated Sample.bob) 90 x Sample.d0 = Err e.
Proof.
  intros x.
  assert (Hx : non_positive x) by (simpl; discriminate).
  assert (Hw : writes_a_row (authenticated Sample.bob) Sample.d0 x).
  { simpl. eexists. split; [left; reflexivity | reflexivity]. }
  destruct (ConstraintFacts.non_positive_write_rejected
              (authenticated Sample.bob) 90 x Sample.d0 Hx) as [H1 H2].
  split; [exact Hx|]. split; [exact Hw|]. split; [exact H1 | exact (H2 Hw)].
Defined.

(* ================================================================== *)
(** ** Only the seller changes a product *)
(* ================================================================== *)

Module OwnershipFacts.

(** The policies of products, for the commands that change a row. *)
Lemma update_policy (u : uuid) (d : db) (p : Product.row) :
  rls_using Schema.products_policies FOR_UPDATE (authenticated u) d p
  = N.eqb u (Product.seller_id p).
Proof.
  simpl. unfold pol_qual. simpl. now destruct (N.eqb u (Product.seller_id p)).
Qed.

Lemma delete_policy (u : uuid) (d : db) (p : Product.row) :
  rls_using Schema.products_policies FOR_DELETE (authenticated u) d p
  = N.eqb u (Product.seller_id p).
Proof.
  simpl. unfold pol_qual. simpl. now destruct (N.eqb u (Product.seller_id p)).
Qed.

Lemma not_update_target (u : uuid) (d : db) (w : Product.row -> bool)
    (p : Product.row) :
  Product.seller_id p <> u ->
  update_target Schema.products_table (authenticated u) d w p = false.
Proof.
  intros H. unfold update_target. cbn [tbl_policies Schema.products_table].
  rewrite update_policy.
  replace (N.eqb u (Product.seller_id p)) with false.
  - now rewrite andb_false_r.
  - symmetry. apply N.eqb_neq. congruence.
Qed.

Lemma not_delete_target (u : uuid) (d : db) (w : Product.row -> bool)
    (p : Product.row) :
  Product.seller_id p <> u ->
  delete_target Schema.products_table (authenticated u) d w p = false.
Proof.
  intros H. unfold delete_target. cbn [tbl_policies Schema.products_table].
  rewrite delete_policy.
  replace (N.eqb u (Product.seller_id p)) with false.
  - now rewrite andb_false_r.
  - symmetry. apply N.eqb_neq. congruence.
Qed.

Lemma products_after_delete (s : session) (w : Product.row -> bool) (d : db) :
  products (Rest.delete_products s w d)
  = filter (fun p => negb (delete_target Schema.products_table s d w p))
           (products d).
Proof. reflexivity. Qed.

Lemma filter_filter_implied {A : Type} (g h : A -> bool) (l : list A) :
  (forall x, In x l -> g x = true -> h x = true) ->
  filter g (filter h l) = filter g l.
Proof.
  induction l as [|a l IH]; intros H; simpl; [reflexivity|].
  assert (IH' : filter g (filter h l) = filter g l).
  { apply IH. intros x Hx. apply H. now right. }
  destruct (h a) eqn:Hh; simpl.
  - now rewrite IH'.
  - destruct (g a) eqn:Hg; [|exact IH'].
    rewrite (H a) in Hh; [discriminate | now left | exact Hg].
Qed.

(** C6. For an authenticated identity [u], an UPDATE of products,
    whatever its WHERE clause and its assignments, leaves every
    product whose seller is not [u] as it was, and a DELETE keeps
    every such product: a product is changed or removed only when
    its seller_id is [u]. *)
Theorem only_seller_mutates_product (u : uuid) (now : timestamptz)
    (w : Product.row -> bool) (set : Product.row -> Product.row) (d : db) :
  Forall2 (fun p p' => Product.seller_id p <> u -> p' = p)
    (products d)
    (products (Rest.commit (Rest.update_products (authenticated u) now w set d) d))
  /\ (forall p, In p (products d) -> Product.seller_id p <> u ->
                In p (products (Rest.delete_products (authenticated u) w d)))
  /\ filter (fun p => negb (N.eqb (Product.seller_id p) u))
            (products (Rest.delete_products (authenticated u) w d))
     = filter (fun p => negb (N.eqb (Product.seller_id p) u)) (products d).
Proof.
  split; [|split].
  - unfold Rest.update_products, sql_update.
    destruct (map_result _ (tbl_rows Schema.products_table d)) as [rows|e] eqn:Hrows;
      simpl.
    + apply map_result_Forall2 in Hrows. simpl in Hrows.
      assert (Hgoal : Forall2 (fun p p' => Product.seller_id p <> u -> p' = p)
                              (products d) (map snd rows)).
      { induction Hrows as [|p x ps xs Hpx _ IH]; simpl; constructor; [|exact IH].
        intros Hne. unfold update_step in Hpx.
        rewrite (not_update_target u d w p Hne) in Hpx. now injection Hpx as <-. }
      destruct (update_conflict _ rows); simpl; [|exact Hgoal].
      clear. induction (products d); constructor; auto.
    + clear. induction (products d); constructor; auto.
  - intros p Hp Hne. rewrite products_after_delete. apply filter_In.
    split; [exact Hp|]. now rewrite not_delete_target.
  - rewrite products_after_delete. apply filter_filter_implied.
    intros p _ Hp. rewrite not_delete_target; [reflexivity|].
    apply negb_true_iff, N.eqb_neq in Hp. exact Hp.
Qed.

End OwnershipFacts.

Example alice_cannot_reprice_bobs_product :
  Rest.commit
    (Rest.update_products (authenticated Sample.alice) 90
       (fun p => N.eqb (Product.id p) 100%N) (Product.set_price 1) Sample.d0)
    Sample.d0
  = Sample.d0.
Proof. reflexivity. Qed.

Example alice_cannot_delete_bobs_product :
  Rest.delete_products (authenticated Sample.alice)
    (fun p => N.eqb (Product.id p) 100%N) Sample.d0
  = Sample.d0.
Proof. reflexivity. Qed.

Example bob_deletes_his_product :
  map Product.id
      (products (Rest.delete_products (authenticated Sample.bob)
                   (fun p => N.eqb (Product.id p) 100%N) Sample.d0))
  = [101%N; 102%N].
Proof. reflexivity. Qed.

Lemma only_seller_mutates_product_witness :
  let w := fun p => N.eqb (Product.id p) 100%N in
  Forall2 (fun p p' => Product.seller_id p <> Sample.alice -> p' = p)
    (products Sample.d0)
    (products (Rest.commit
       (Rest.update_products (authenticated Sample.alice) 90 w
          (Product.set_price 1) Sample.d0) Sample.d0))
  /\ (forall p, In p (products Sample.d0) -> Product.seller_id p <> Sample.alice ->
                In p (products (Rest.delete_products (authenticated Sample.alice)
                                  w Sample.d0)))
  /\ filter (fun p => negb (N.eqb (Product.seller_id p) Sample.alice))
            (products (Rest.delete_products (authenticated Sample.alice) w Sample.d0))
     = filter (fun p => negb (N.eqb (Product.seller_id p) Sample.alice))
              (products Sample.d0).
Proof.
  intros w.
  exact (OwnershipFacts.only_seller_mutates_product Sample.alice 90 w
           (Product.set_price 1) Sample.d0).
Defined.

(* ================================================================== *)
(** ** Products follow the location of their seller *)
(* ================================================================== *)

Module LocationFacts.
Import LocationSync.

Lemma products_first_conflict (r : Product.row) (others : list Product.row) :
  first_conflict Schema.products_table r others
  = if existsb (fun o => N.eqb (Product.id r) (Product.id o)) others
    then Some "products_pkey" else None.
Proof.
  unfold first_conflict. simpl. now destruct (existsb _ others).
Qed.

(** Rewriting rows without changing their ids cannot break the
    primary key. *)
Lemma update_conflict_same_ids (g : Product.row -> bool * Product.row)
    (l : list Product.row) :
  (forall p, Product.id (snd (g p)) = Product.id p) ->
  no_conflicts Schema.products_table l = true ->
  update_conflict Schema.products_table (map g l) = None.
Proof.
  intros Hid. induction l as [|p l IH]; simpl; [reflexivity|].
  rewrite andb_true_iff. intros [Hp Hl].
  destruct (g p) as [b r] eqn:Hg.
  rewrite products_first_conflict in Hp |- *.
  destruct (existsb _ l) eqn:Hex; [discriminate|].
  replace (existsb _ (map snd _)) with false; [now apply IH|].
  symmetry. apply existsb_false. intros x Hx.
  apply in_map_iff in Hx. destruct Hx as [y [<- Hy]].
  apply filter_In in Hy. destruct Hy as [Hy _].
  apply in_map_iff in Hy. destruct Hy as [q [<- Hq]].
  rewrite existsb_false in Hex. specialize (Hex q Hq).
  rewrite Hid. specialize (Hid p). rewrite Hg in Hid. simpl in Hid.
  now rewrite Hid.
Qed.

Lemma moved_located_at (now : timestamptz) (NEW : UserProfile.row)
    (p : Product.row) :
  Triggers.update_location_point_profile NEW = NEW ->
  located_at NEW p (moved now NEW p).
Proof.
  intros Hpt. unfold moved. simpl.
  unfold Triggers.update_location_point_product. simpl.
  unfold Triggers.update_location_point_profile in Hpt.
  destruct (UserProfile.latitude NEW) as [lat|] eqn:Hlat,
           (UserProfile.longitude NEW) as [lon|] eqn:Hlon;
    unfold located_at; simpl; repeat split; auto.
  now rewrite <- Hpt.
Qed.

Lemma select_policy_for_seller (u : uuid) (d : db) (p : Product.row) :
  Product.seller_id p = u ->
  rls_using Schema.products_policies FOR_SELECT (authenticated u) d p = true.
Proof.
  intros <-. simpl. unfold pol_qual. simpl. rewrite N.eqb_refl.
  now rewrite !orb_true_r.
Qed.

Lemma update_check_for_seller (u : uuid) (d : db) (p : Product.row) :
  Product.seller_id p = u ->
  rls_with_check Schema.products_policies FOR_UPDATE (authenticated u) d p = true.
Proof.
  intros <-. simpl. unfold pol_wco, pol_qual. simpl. rewrite N.eqb_refl.
  now rewrite !orb_true_r.
Qed.

(** The hypotheses of the property below hold of every run of the
    trigger: the row it receives went through the BEFORE UPDATE triggers
    of user_profiles, and an authenticated session updates no profile
    but its own. *)
Lemma profile_triggers_idempotent (now : timestamptz) (r : UserProfile.row) :
  Triggers.update_location_point_profile
    (tbl_before_update Schema.user_profiles_table now r)
  = tbl_before_update Schema.user_profiles_table now r.
Proof.
  simpl. unfold Triggers.update_location_point_profile. simpl.
  destruct (UserProfile.latitude r) as [lat|] eqn:Hlat,
           (UserProfile.longitude r) as [lon|] eqn:Hlon; simpl;
    rewrite ?Hlat, ?Hlon; reflexivity.
Qed.

Lemma profile_update_target (u : uuid) (d : db) (w : UserProfile.row -> bool)
    (r : UserProfile.row) :
  update_target Schema.user_profiles_table (authenticated u) d w r = true ->
  UserProfile.id r = u.
Proof.
  unfold update_target. simpl. unfold pol_qual. simpl.
  rewrite !andb_true_iff, !orb_false_r. intros [_ H].
  apply N.eqb_eq in H. congruence.
Qed.

Lemma profile_id_after_triggers (now : timestamptz) (r : UserProfile.row) :
  UserProfile.id (tbl_before_update Schema.user_profiles_table now r)
  = UserProfile.id r.
Proof.
  simpl. unfold Triggers.update_location_point_profile. simpl.
  now destruct (UserProfile.latitude r), (UserProfile.longitude r).
Qed.

(** What the trigger does to the products, on a table that satisfies
    its constraints. *)
Lemma trigger_moves_active_products (s : session) (now : timestamptz)
    (OLD NEW : UserProfile.row) (d : db) :
  location_changed OLD NEW = true ->
  s = authenticated (UserProfile.id NEW) \/ s = service_role ->
  table_valid Schema.products_table d = true ->
  Triggers.update_location_point_profile NEW = NEW ->
  exists d',
    sync_product_location s now OLD NEW d = Ok d'
    /\ d' = with_products (products d') d
    /\ Forall2
         (fun p p' =>
            (Product.seller_id p = UserProfile.id NEW /\ Product.status p = active ->
             located_at NEW p p')
            /\ (Product.seller_id p <> UserProfile.id NEW \/ Product.status p <> active ->
                p' = p))
         (products d) (products d').
Proof.
  intros Hchanged Hs Hvalid Hpt.
  unfold sync_product_location. rewrite Hchanged.
  unfold Rest.update_products, sql_update.
  set (set_ := Product.set_location _ _ _ _ _ _ _).
  set (g := fun p : Product.row =>
              if active_product_of NEW p then (true, moved now NEW p) else (false, p)).
  unfold table_valid in Hvalid. apply andb_true_iff in Hvalid.
  destruct Hvalid as [Hrows Hkeys]. rewrite forallb_forall in Hrows.
  assert (Hstep : forall p, In p (products d) ->
            update_step Schema.products_table s now d (active_product_of NEW) set_ p
            = Ok (g p)).
  { intros p Hp. unfold update_step, update_target, g.
    destruct (active_product_of NEW p) eqn:Hw; simpl; [|reflexivity].
    unfold active_product_of in Hw. apply andb_true_iff in Hw.
    destruct Hw as [Hseller _]. apply N.eqb_eq in Hseller.
    specialize (Hrows p Hp). apply andb_true_iff in Hrows.
    destruct Hrows as [Hcheck Hrefs]. simpl in Hcheck, Hrefs.
    assert (Hrls :
      rls_using Schema.products_policies FOR_SELECT s d p
      && rls_using Schema.products_policies FOR_UPDATE s d p = true
      /\ rls_with_check Schema.products_policies FOR_UPDATE s d (moved now NEW p)
         = true).
    { destruct Hs as [-> | ->]; [|now split].
      rewrite select_policy_for_seller by exact Hseller.
      rewrite OwnershipFacts.update_policy, update_check_for_seller.
      - rewrite Hseller, N.eqb_refl. now split.
      - destruct (moved_located_at now NEW p Hpt) as [_ [_ [Hsame _]]].
        now rewrite Hsame. }
    destruct Hrls as [-> Hwc]. simpl.
    unfold updated_row.
    change (tbl_before_update Schema.products_table now (set_ p))
      with (moved now NEW p).
    cbn [tbl_policies tbl_check tbl_references tbl_name Schema.products_table].
    rewrite Hwc.
    destruct (moved_located_at now NEW p Hpt)
      as [_ [_ [Hsel [_ [_ [Hprice [Hcat _]]]]]]].
    rewrite Hprice, Hsel, Hcat.
    destruct (check _ (0 <? Product.price p)) as [[]|]; [|discriminate].
    destruct (references _ (has_user d (Product.seller_id p))) as [[]|];
      [|discriminate].
    destruct (references _ (has_category d (Product.category_id p))) as [[]|];
      [|discriminate].
    reflexivity. }
  cbn [tbl_rows Schema.products_table].
  rewrite (map_result_pointwise _ g _ Hstep). simpl bind.
  rewrite update_conflict_same_ids.
  - eexists. split; [reflexivity|]. split; [reflexivity|].
    cbn [tbl_with Schema.products_table]. simpl products.
    rewrite map_map. clear Hstep Hrows Hkeys.
    induction (products d) as [|p l IH]; simpl; constructor; [|exact IH].
    unfold g, active_product_of.
    destruct (N.eqb_spec (Product.seller_id p) (UserProfile.id NEW)) as [He | Hne];
      simpl.
    + destruct (Product.status p) eqn:Hst; simpl; split;
        try (intros [_ H]; discriminate H);
        try (intros _; reflexivity).
      * intros _. now apply moved_located_at.
      * intros [H | H]; [contradiction | congruence].
    + split; [intros [H _]; contradiction | reflexivity].
  - intros p. unfold g. destruct (active_product_of NEW p); [|reflexivity].
    simpl. now destruct (moved_located_at now NEW p Hpt) as [_ [Hsame _]].
  - exact Hkeys.
Qed.

(** C10. When the location of a profile changes, the trigger run by
    the owner of the profile (or by the service role) on a products
    table that satisfies its constraints succeeds; it touches no other
    table; each active product of that seller gets the location of the
    profile and keeps its other columns, and every other product, of
    that seller or another, is left as it was. *)
Theorem sync_product_location_frame (s : session) (now : timestamptz)
    (OLD NEW : UserProfile.row) (d : db) :
  location_changed OLD NEW = true ->
  s = authenticated (UserProfile.id NEW) \/ s = service_role ->
  table_valid Schema.products_table d = true ->
  Triggers.update_location_point_profile NEW = NEW ->
  exists d',
    sync_product_location s now OLD NEW d = Ok d'
    /\ d' = with_products (products d') d
    /\ Forall2
         (fun p p' =>
            (Product.seller_id p = UserProfile.id NEW /\ Product.status p = active ->
             located_at NEW p p')
            /\ (Product.seller_id p <> UserProfile.id NEW \/ Product.status p <> active ->
                p' = p))
         (products d) (products d').
Proof.
  intros Hchanged Hs Hvalid Hpt.
  destruct (trigger_moves_active_products s now OLD NEW d Hchanged Hs Hvalid Hpt)
    as [d' [Hrun [Hframe Hproducts]]].
  exists d'. split; [exact Hrun|]. split; [exact Hframe | exact Hproducts].
Qed.

(** *** The whole request *)

Section KeysPreserved.
Context {row : Type}.
Variable T : table row.

Lemma first_conflict_none (r : row) (others : list row) :
  first_conflict T r others = None <->
  (forall c, In c (tbl_unique T) -> existsb (snd c r) others = false).
Proof.
  unfold first_conflict.
  induction (tbl_unique T) as [|c cs IH]; simpl.
  - split; [intros _ c [] | reflexivity].
  - destruct (existsb (snd c r) others) eqn:Hc; simpl.
    + split; [discriminate|]. intros H. specialize (H c (or_introl eq_refl)).
      congruence.
    + rewrite IH. split.
      * intros H c' [<- | Hc']; auto.
      * intros H c' Hc'. apply H. now right.
Qed.

Variable g : row -> bool * row.
Hypothesis keys_preserved :
  forall c, In c (tbl_unique T) ->
  forall a b, snd c (snd (g a)) (snd (g b)) = snd c a b.

(** An UPDATE that keeps the key columns of every row cannot break a
    unique index. *)
Lemma update_conflict_preserved (l : list row) :
  no_conflicts T l = true -> update_conflict T (map g l) = None.
Proof.
  induction l as [|p l IH]; simpl; [reflexivity|].
  rewrite andb_true_iff. intros [Hp Hl].
  destruct (g p) as [b r] eqn:Hg.
  destruct (first_conflict T p l) eqn:Hfc; [discriminate|].
  rewrite first_conflict_none in Hfc.
  replace (first_conflict T r _) with (@None string); [now apply IH|].
  symmetry. apply first_conflict_none. intros c Hc.
  apply existsb_false. intros x Hx.
  apply in_map_iff in Hx. destruct Hx as [y [<- Hy]].
  apply filter_In in Hy. destruct Hy as [Hy _].
  apply in_map_iff in Hy. destruct Hy as [q [<- Hq]].
  specialize (Hfc c Hc). rewrite existsb_false in Hfc.
  replace r with (snd (g p)) by now rewrite Hg.
  rewrite keys_preserved by exact Hc. now apply Hfc.
Qed.
End KeysPreserved.

Lemma own_profile_target (u : uuid) (d : db) (r : UserProfile.row) :
  update_target Schema.user_profiles_table (authenticated u) d
    (fun x => N.eqb (UserProfile.id x) u) r
  = N.eqb (UserProfile.id r) u.
Proof.
  unfold update_target. simpl. unfold pol_qual. simpl.
  rewrite (N.eqb_sym u). destruct (N.eqb (UserProfile.id r) u); reflexivity.
Qed.

Lemma has_user_same_ids (d : db) (h : UserProfile.row -> UserProfile.row) (k : uuid) :
  (forall r, UserProfile.id (h r) = UserProfile.id r) ->
  has_user (with_user_profiles (map h (user_profiles d)) d) k = has_user d k.
Proof.
  intros Hid. unfold has_user. simpl.
  induction (user_profiles d) as [|r l IH]; simpl; [reflexivity|].
  now rewrite Hid, IH.
Qed.

Lemma products_valid_same_users (d : db) (h : UserProfile.row -> UserProfile.row) :
  (forall r, UserProfile.id (h r) = UserProfile.id r) ->
  table_valid Schema.products_table (with_user_profiles (map h (user_profiles d)) d)
  = table_valid Schema.products_table d.
Proof.
  intros Hid. unfold table_valid. simpl. f_equal.
  induction (products d) as [|p l IH]; simpl; [reflexivity|].
  now rewrite IH, (has_user_same_ids d h (Product.seller_id p) Hid).
Qed.

(** The AFTER triggers of a statement in which the rows [l] were
    replaced by [upd]: only the row of identifier [u] was written. *)
Lemma triggers_of_one_row (u : uuid) (now : timestamptz) (d d1 : db)
    (upd : UserProfile.row -> UserProfile.row)
    (l : list UserProfile.row) (OLD : UserProfile.row) :
  no_conflicts Schema.user_profiles_table l = true ->
  In OLD l ->
  UserProfile.id OLD = u ->
  fold_left
    (fun acc x =>
       d' <- acc ;;
       if update_target Schema.user_profiles_table (authenticated u) d
            (fun r => N.eqb (UserProfile.id r) u) (fst x)
       then sync_product_location (authenticated u) now (fst x) (snd x) d'
       else Ok d')
    (combine l (map (fun r => if N.eqb (UserProfile.id r) u then upd r else r) l))
    (Ok d1)
  = sync_product_location (authenticated u) now OLD (upd OLD) d1.
Proof.
  intros Hkeys Hin Hid.
  set (F := fun (acc : result db) (x : UserProfile.row * UserProfile.row) => _).
  assert (Hskip : forall (l' : list UserProfile.row) (acc : result db),
            (forall r, In r l' -> N.eqb (UserProfile.id r) u = false) ->
            fold_left F
              (combine l' (map (fun r => if N.eqb (UserProfile.id r) u
                                         then upd r else r) l')) acc = acc).
  { induction l' as [|r l' IH]; intros acc Hno; simpl; [reflexivity|].
    rewrite IH by (intros x Hx; apply Hno; now right).
    unfold F. simpl. rewrite own_profile_target, (Hno r) by now left.
    now destruct acc. }
  induction l as [|r l IH]; [contradiction|].
  simpl in Hkeys. apply andb_true_iff in Hkeys. destruct Hkeys as [Hr Hl].
  destruct (first_conflict Schema.user_profiles_table r l) eqn:Hfc; [discriminate|].
  rewrite first_conflict_none in Hfc.
  specialize (Hfc _ (or_introl eq_refl)). simpl in Hfc. rewrite existsb_false in Hfc.
  simpl. destruct (N.eqb_spec (UserProfile.id r) u) as [Hru | Hru].
  - assert (HOLD : OLD = r).
    { destruct Hin as [<- | Hin]; [reflexivity|].
      specialize (Hfc OLD Hin). apply N.eqb_neq in Hfc. congruence. }
    subst OLD. rewrite Hskip.
    + unfold F. simpl. rewrite own_profile_target.
      apply N.eqb_eq in Hru. now rewrite Hru.
    + intros x Hx. specialize (Hfc x Hx). apply N.eqb_neq in Hfc.
      apply N.eqb_neq. congruence.
  - destruct Hin as [<- | Hin]; [congruence|].
    rewrite own_profile_target.
    replace (N.eqb (UserProfile.id r) u) with false
      by (symmetry; now apply N.eqb_neq).
    now apply IH.
Qed.

(** The one row that the UPDATE of the own profile writes. *)
Lemma own_profile_written (u : uuid) (d : db) (l : list UserProfile.row)
    (OLD : UserProfile.row) :
  no_conflicts Schema.user_profiles_table l = true ->
  In OLD l ->
  UserProfile.id OLD = u ->
  filter (update_target Schema.user_profiles_table (authenticated u) d
            (fun r => N.eqb (UserProfile.id r) u)) l
  = [OLD].
Proof.
  intros Hkeys Hin Hid.
  assert (Hskip : forall l' : list UserProfile.row,
            (forall r, In r l' -> N.eqb (UserProfile.id r) u = false) ->
            filter (update_target Schema.user_profiles_table (authenticated u) d
                      (fun r => N.eqb (UserProfile.id r) u)) l' = []).
  { induction l' as [|r l' IH]; intros Hno; simpl; [reflexivity|].
    rewrite own_profile_target, (Hno r) by now left.
    apply IH. intros x Hx. apply Hno. now right. }
  induction l as [|r l IH]; [contradiction|].
  simpl in Hkeys. apply andb_true_iff in Hkeys. destruct Hkeys as [Hr Hl].
  destruct (first_conflict Schema.user_profiles_table r l) eqn:Hfc; [discriminate|].
  rewrite first_conflict_none in Hfc.
  specialize (Hfc _ (or_introl eq_refl)). simpl in Hfc. rewrite existsb_false in Hfc.
  simpl. rewrite own_profile_target.
  destruct (N.eqb_spec (UserProfile.id r) u) as [Hru | Hru].
  - assert (HOLD : OLD = r).
    { destruct Hin as [<- | Hin]; [reflexivity|].
      specialize (Hfc OLD Hin). apply N.eqb_neq in Hfc. congruence. }
    subst OLD. rewrite Hskip; [reflexivity|].
    intros x Hx. specialize (Hfc x Hx). apply N.eqb_neq in Hfc.
    apply N.eqb_neq. congruence.
  - destruct Hin as [<- | Hin]; [congruence|]. now apply IH.
Qed.

(** The UPDATE of the own profile, with the triggers it fires. *)
Lemma update_own_profile (u : uuid) (now : timestamptz)
    (city state pincode : text) (latitude longitude : option Z) (d : db)
    (OLD : UserProfile.row) :
  table_valid Schema.user_profiles_table d = true ->
  table_valid Schema.products_table d = true ->
  In OLD (user_profiles d) ->
  UserProfile.id OLD = u ->
  let NEW :=
    tbl_before_update Schema.user_profiles_table now
      (location_assignment city state pincode latitude longitude OLD) in
  location_changed OLD NEW = true ->
  exists d',
    update_user_profiles (authenticated u) now
      (fun r => N.eqb (UserProfile.id r) u)
      (location_assignment city state pincode latitude longitude) d
    = Ok d'
    /\ Forall2
         (fun p p' =>
            (Product.seller_id p = u /\ Product.status p = active ->
             located_at NEW p p')
            /\ (Product.seller_id p <> u \/ Product.status p <> active -> p' = p))
         (products d) (products d').
Proof.
  intros Hprofiles Hproducts Hin Hid NEW Hchanged.
  set (set_ := location_assignment city state pincode latitude longitude).
  set (upd := fun r => tbl_before_update Schema.user_profiles_table now (set_ r)).
  set (g := fun r : UserProfile.row =>
              if N.eqb (UserProfile.id r) u then (true, upd r) else (false, r)).
  assert (Hupd_id : forall r, UserProfile.id (upd r) = UserProfile.id r).
  { intros r. unfold upd. now rewrite profile_id_after_triggers. }
  assert (Hg_id : forall r, UserProfile.id (snd (g r)) = UserProfile.id r).
  { intros r. unfold g. destruct (N.eqb _ u); [apply Hupd_id | reflexivity]. }
  unfold table_valid in Hprofiles. apply andb_true_iff in Hprofiles.
  destruct Hprofiles as [_ Hkeys]. simpl tbl_rows in Hkeys.
  unfold update_user_profiles. fold set_.
  assert (Hupdate :
    sql_update Schema.user_profiles_table (authenticated u) now d
      (fun r => N.eqb (UserProfile.id r) u) set_
    = Ok (with_user_profiles (map (fun r => snd (g r)) (user_profiles d)) d)).
  { unfold sql_update. simpl tbl_rows.
    rewrite (map_result_pointwise _ g).
    - simpl bind. rewrite update_conflict_preserved.
      + simpl. now rewrite map_map.
      + intros c [<- | []] a b. simpl. now rewrite !Hg_id.
      + exact Hkeys.
    - intros r _. unfold update_step. rewrite own_profile_target. unfold g.
      destruct (N.eqb_spec (UserProfile.id r) u) as [Hr | Hr]; [|reflexivity].
      unfold updated_row. fold (upd r). simpl.
      unfold pol_wco, pol_qual. simpl.
      rewrite Hupd_id, Hr, N.eqb_refl. reflexivity. }
  rewrite Hupdate, bind_ok.
  set (d1 := with_user_profiles _ d).
  assert (Hrows : user_profiles d1
                  = map (fun r => if N.eqb (UserProfile.id r) u then upd r else r)
                        (user_profiles d)).
  { unfold d1. simpl. apply map_ext. intros r. unfold g.
    now destruct (N.eqb (UserProfile.id r) u). }
  rewrite Hrows, (triggers_of_one_row u now d d1 upd _ OLD Hkeys Hin Hid).
  destruct (trigger_moves_active_products (authenticated u) now OLD (upd OLD) d1)
    as [d' [Hsync [_ Hframe]]].
  - exact Hchanged.
  - left. now rewrite Hupd_id, Hid.
  - unfold d1. now rewrite products_valid_same_users.
  - apply profile_triggers_idempotent.
  - exists d'. split; [exact Hsync|].
    fold NEW in Hframe. unfold NEW in *. change (products d1) with (products d) in Hframe.
    rewrite Hupd_id, Hid in Hframe. exact Hframe.
Qed.

(** X28. A user whose profile is in a database that satisfies the
    constraints of user_profiles and products changes location with
    updateUserLocation, giving coordinates that the columns can hold,
    a latitude below 100 and a longitude below 1000 in magnitude once
    rounded to eight decimals, or none: the request succeeds and
    answers the profile as it is stored, the active products of the
    user get the new location, and the other products of the user and
    the products of the other sellers stay as they were. *)
Theorem updateUserLocation_moves_products (u : uuid) (now : timestamptz)
    (city state pincode : text) (latitude longitude : option Q)
    (lat lon : option Z) (d : db) (OLD : UserProfile.row) :
  table_valid Schema.user_profiles_table d = true ->
  table_valid Schema.products_table d = true ->
  In OLD (user_profiles d) ->
  UserProfile.id OLD = u ->
  LocationRequests.assigned to_decimal_10_8 latitude = Ok lat ->
  LocationRequests.assigned to_decimal_11_8 longitude = Ok lon ->
  let NEW :=
    tbl_before_update Schema.user_profiles_table now
      (location_assignment city state pincode lat lon OLD) in
  location_changed OLD NEW = true ->
  exists d',
    LocationRequests.updateUserLocation (authenticated u) now city state pincode
      latitude longitude d
    = Data (NEW, d')
    /\ Forall2
         (fun p p' =>
            (Product.seller_id p = u /\ Product.status p = active ->
             located_at NEW p p')
            /\ (Product.seller_id p <> u \/ Product.status p <> active -> p' = p))
         (products d) (products d').
Proof.
  intros Hprofiles Hproducts Hin Hid Hlat Hlon NEW Hchanged.
  destruct (update_own_profile u now city state pincode lat lon d OLD
              Hprofiles Hproducts Hin Hid Hchanged) as [d' [Hupdate Hframe]].
  exists d'. split; [|exact Hframe].
  unfold LocationRequests.updateUserLocation. simpl auth_uid. cbv iota beta zeta.
  rewrite Hlat, bind_ok, Hlon, bind_ok, Hupdate, bind_ok.
  unfold table_valid in Hprofiles. apply andb_true_iff in Hprofiles.
  destruct Hprofiles as [_ Hkeys]. simpl tbl_rows in Hkeys.
  now rewrite (own_profile_written u d _ OLD Hkeys Hin Hid).
Qed.

(** A latitude or a longitude that the column cannot hold is refused
    with the error of the assignment, and a user without a profile gets
    the error of [.single()]; nothing is written. *)
Lemma updateUserLocation_refused (s : session) (now : timestamptz)
    (city state pincode : text) (latitude longitude : option Q) (d : db) :
  (forall e, LocationRequests.assigned to_decimal_10_8 latitude = Err e ->
             LocationRequests.updateUserLocation s now city state pincode
               latitude longitude d
             = match auth_uid s with
               | Some _ => Error (statement_error e)
               | None => SupabaseRequests.not_authenticated
               end)
  /\ (forall lat e,
        LocationRequests.assigned to_decimal_10_8 latitude = Ok lat ->
        LocationRequests.assigned to_decimal_11_8 longitude = Err e ->
        LocationRequests.updateUserLocation s now city state pincode
          latitude longitude d
        = match auth_uid s with
          | Some _ => Error (statement_error e)
          | None => SupabaseRequests.not_authenticated
          end).
Proof.
  unfold LocationRequests.updateUserLocation, SupabaseRequests.not_authenticated.
  split.
  - intros e H. destruct (auth_uid s); [|reflexivity]. now rewrite H.
  - intros lat e H1 H2. destruct (auth_uid s); [|reflexivity].
    now rewrite H1, bind_ok, H2.
Qed.

End LocationFacts.

(** Bob moves to Mumbai: his two active products follow, the sold one
    and the rest of the database stay. *)
Example bob_moves :
  match LocationRequests.updateUserLocation (authenticated Sample.bob) 90
          "Mumbai" "MH" "400001" (Some (19076 # 1000)) (Some (728777 # 10000))
          Sample.d0 with
  | Data (_, d') =>
      map (fun p => (Product.id p, Product.city p, Product.location_point p))
          (products d')
  | Error _ => []
  end
  = [ (100%N, Some "Mumbai", Some (ST_MakePoint 7287770000 1907600000));
      (101%N, Some "Mumbai", Some (ST_MakePoint 7287770000 1907600000));
      (102%N, Some "Pune", Some (ST_MakePoint 7385680000 1852050000)) ].
Proof. reflexivity. Qed.

(** A latitude of 100 degrees does not fit DECIMAL(10, 8), and a user
    without a profile writes no row. *)
Example updateUserLocation_errors :
  LocationRequests.updateUserLocation (authenticated Sample.bob) 90
    "Nowhere" "NA" "000000" (Some (100 # 1)) (Some (728777 # 10000)) Sample.d0
  = Error (statement_error numeric_value_out_of_range)
  /\ LocationRequests.updateUserLocation (authenticated Sample.bob) 90
       "Nowhere" "NA" "000000" (Some (19076 # 1000)) (Some (1000 # 1)) Sample.d0
     = Error (statement_error numeric_value_out_of_range)
  /\ LocationRequests.updateUserLocation (authenticated 9%N) 90
       "Mumbai" "MH" "400001" (Some (19076 # 1000)) (Some (728777 # 10000))
       Sample.d0
     = Error (not_a_single_row 0).
Proof. repeat split; reflexivity. Qed.

Lemma sync_product_location_frame_witness :
  let OLD := Sample.profile Sample.bob "Bob" 1852050000 7385680000 in
  let NEW :=
    UserProfile.mk Sample.bob "Bob" None None both None (Some 0) (Some 90)
      (Some "Mumbai") (Some "MH") (Some "400001")
      (Some 1907600000) (Some 7287770000)
      (Some (ST_MakePoint 7287770000 1907600000)) in
  LocationSync.location_changed OLD NEW = true
  /\ (authenticated Sample.bob = authenticated (UserProfile.id NEW)
      \/ authenticated Sample.bob = service_role)
  /\ table_valid Schema.products_table Sample.d0 = true
  /\ Triggers.update_location_point_profile NEW = NEW
  /\ exists d',
      LocationSync.sync_product_location (authenticated Sample.bob) 90 OLD NEW
        Sample.d0 = Ok d'
      /\ d' = with_products (products d') Sample.d0
      /\ Forall2
           (fun p p' =>
              (Product.seller_id p = UserProfile.id NEW /\ Product.status p = active ->
               located_at NEW p p')
              /\ (Product.seller_id p <> UserProfile.id NEW
                  \/ Product.status p <> active -> p' = p))
           (products Sample.d0) (products d').
Proof.
  intros OLD NEW.
  split; [reflexivity|]. split; [left; reflexivity|].
  split; [reflexivity|]. split; [reflexivity|].
  apply (LocationFacts.sync_product_location_frame (authenticated Sample.bob) 90
           OLD NEW Sample.d0);
    [reflexivity | left; reflexivity | reflexivity | reflexivity].
Defined.

(* ================================================================== *)
(** ** The product context *)
(* ================================================================== *)

Module ProductContextFacts.
Import ProductContext.

(** X1. Adding a product whose id no listed product has, and then
    deleting that id, gives back the list of products as it was. *)
Theorem deleteProduct_after_addProduct (product : Product) (prev : list Product) :
  (forall q, In q prev -> id q <> id product) ->
  deleteProduct (id product) (addProduct product prev) = prev.
Proof.
  intros Hfresh. unfold deleteProduct, addProduct. simpl.
  rewrite String.eqb_refl. simpl.
  induction prev as [|q prev IH]; simpl; [reflexivity|].
  destruct (String.eqb_spec (id q) (id product)) as [Heq | _].
  - exfalso. apply (Hfresh q); [now left | exact Heq].
  - simpl. f_equal. apply IH. intros x Hx. apply Hfresh. now right.
Qed.

(** addProduct does not look for a product of the same id, and
    deleteProduct removes every product that has the id: deleting the
    id of a product just added also removes the products of that id
    listed before, and no product of the result of a deletion has the
    deleted id. *)
Lemma deleteProduct_removes_every_copy (product : Product)
    (prev : list Product) :
  deleteProduct (id product) (addProduct product prev)
  = deleteProduct (id product) prev
  /\ (forall k q, In q (deleteProduct k prev) -> id q <> k /\ In q prev)
  /\ (forall k q, In q prev -> id q <> k -> In q (deleteProduct k prev)).
Proof.
  unfold deleteProduct, addProduct. simpl.
  rewrite String.eqb_refl. simpl. split; [reflexivity|]. split.
  - intros k q Hq. apply filter_In in Hq. destruct Hq as [Hin Hq].
    apply negb_true_iff in Hq. split; [now apply String.eqb_neq | exact Hin].
  - intros k q Hin Hq. apply filter_In. split; [exact Hin|].
    apply negb_true_iff. now apply String.eqb_neq.
Qed.

(** X2. updateProduct with an id that no listed product has changes
    nothing, and reports nothing. *)
Theorem updateProduct_unknown_id (k : string) (updates : Updates)
    (prev : list Product) :
  (forall q, In q prev -> id q <> k) ->
  updateProduct k updates prev = prev.
Proof.
  intros Hno. unfold updateProduct.
  induction prev as [|q prev IH]; simpl; [reflexivity|].
  destruct (String.eqb_spec (id q) k) as [Heq | _].
  - exfalso. apply (Hno q); [now left | exact Heq].
  - f_equal. apply IH. intros x Hx. apply Hno. now right.
Qed.

(** X3. An update that carries no id keeps the ids of the listed
    products, in their order; an update that carries one gives it to
    every product that had the updated id. *)
Theorem updateProduct_ids (k : string) (updates : Updates) (prev : list Product) :
  map id (updateProduct k updates prev)
  = map (fun q => if String.eqb (id q) k then spread (id q) (new_id updates)
                  else id q) prev
  /\ (new_id updates = None -> map id (updateProduct k updates prev) = map id prev).
Proof.
  assert (H : map id (updateProduct k updates prev)
              = map (fun q => if String.eqb (id q) k
                              then spread (id q) (new_id updates) else id q) prev).
  { unfold updateProduct. rewrite map_map. apply map_ext. intros q.
    now destruct (String.eqb (id q) k). }
  split; [exact H|].
  intros Hnone. rewrite H. apply map_ext. intros q. rewrite Hnone. simpl.
  now destruct (String.eqb (id q) k).
Qed.

End ProductContextFacts.

Lemma deleteProduct_after_addProduct_witness :
  (forall q, In q [Market.textbook] ->
             ProductContext.id q <> ProductContext.id Market.laptop)
  /\ ProductContext.deleteProduct (ProductContext.id Market.laptop)
       (ProductContext.addProduct Market.laptop [Market.textbook])
     = [Market.textbook].
Proof.
  assert (H : forall q, In q [Market.textbook] ->
                        ProductContext.id q <> ProductContext.id Market.laptop).
  { intros q [<- | []]. discriminate. }
  split; [exact H|].
  exact (ProductContextFacts.deleteProduct_after_addProduct
           Market.laptop [Market.textbook] H).
Defined.

Lemma updateProduct_unknown_id_witness :
  (forall q, In q [Market.laptop; Market.textbook] -> ProductContext.id q <> "7")
  /\ ProductContext.updateProduct "7"
       (ProductContext.mk_updates None None (Some 1%Q) None None None None None
          None None None None)
       [Market.laptop; Market.textbook]
     = [Market.laptop; Market.textbook].
Proof.
  assert (H : forall q, In q [Market.laptop; Market.textbook] ->
                        ProductContext.id q <> "7").
  { intros q [<- | [<- | []]]; discriminate. }
  split; [exact H|].
  exact (ProductContextFacts.updateProduct_unknown_id "7" _ _ H).
Defined.

(* ================================================================== *)
(** ** The order context *)
(* ================================================================== *)

Module OrderProviderFacts.
Import OrderProvider.

(** X4. The id that createOrder returns finds, with getOrderById,
    the order just created: the given items, address and payment
    method, the status ordered, at the head of the orders; this also
    when an earlier order has the same id. *)
Theorem getOrderById_after_createOrder (Date_now : Z)
    (items : list OrderContext.OrderItem) (deliveryAddress : Order.address)
    (paymentMethod : string) (orders : list OrderContext.Order) :
  let created :=
    OrderContext.createOrder Date_now items deliveryAddress paymentMethod orders in
  exists newOrder,
    getOrderById (fst created) (snd created) = Some newOrder
    /\ hd_error (snd created) = Some newOrder
    /\ OrderContext.id newOrder = fst created
    /\ OrderContext.items newOrder = items
    /\ OrderContext.order_status newOrder = OrderContext.ordered
    /\ OrderContext.deliveryAddress newOrder = deliveryAddress
    /\ OrderContext.paymentMethod newOrder = paymentMethod.
Proof.
  simpl. unfold getOrderById. simpl. rewrite String.eqb_refl.
  eexists. repeat split.
Qed.

Lemma find_updated (k k' : string) (status : OrderContext.status)
    (orders : list OrderContext.Order) :
  find (fun order => String.eqb (OrderContext.id order) k')
       (updateOrderStatus k status orders)
  = option_map (fun order => if String.eqb (OrderContext.id order) k
                             then set_status status order else order)
      (find (fun order => String.eqb (OrderContext.id order) k') orders).
Proof.
  unfold updateOrderStatus.
  induction orders as [|o orders IH]; simpl; [reflexivity|].
  assert (Hid : OrderContext.id
                  (if String.eqb (OrderContext.id o) k then set_status status o else o)
                = OrderContext.id o).
  { now destruct (String.eqb (OrderContext.id o) k). }
  rewrite Hid. destruct (String.eqb (OrderContext.id o) k'); [reflexivity | exact IH].
Qed.

(** X5. After updateOrderStatus, the order that getOrderById finds
    for the updated id is the one it found before with the new status,
    its items, total, date, address and payment method unchanged; the
    order found for any other id is the one found before. *)
Theorem getOrderById_after_updateOrderStatus (k : string)
    (status : OrderContext.status) (orders : list OrderContext.Order)
    (order : OrderContext.Order) :
  getOrderById k orders = Some order ->
  getOrderById k (updateOrderStatus k status orders)
  = Some (OrderContext.mk_order
            (OrderContext.id order) (OrderContext.items order)
            (OrderContext.totalAmount order) status (OrderContext.orderDate order)
            (OrderContext.deliveryAddress order) (OrderContext.paymentMethod order))
  /\ (forall k', k' <> k ->
        getOrderById k' (updateOrderStatus k status orders) = getOrderById k' orders)
  /\ List.length (updateOrderStatus k status orders) = List.length orders.
Proof.
  intros Hfound. unfold getOrderById in *. split; [|split].
  - rewrite find_updated, Hfound. simpl.
    apply find_some in Hfound. destruct Hfound as [_ ->]. reflexivity.
  - intros k' Hk'. rewrite find_updated.
    destruct (find (fun order => String.eqb (OrderContext.id order) k') orders)
      as [o|] eqn:Ho; [|reflexivity]. simpl.
    apply find_some in Ho. destruct Ho as [_ Ho]. apply String.eqb_eq in Ho.
    destruct (String.eqb_spec (OrderContext.id o) k) as [Hk | _]; [congruence|].
    reflexivity.
  - unfold updateOrderStatus. apply length_map.
Qed.

End OrderProviderFacts.

Lemma getOrderById_after_updateOrderStatus_witness :
  OrderProvider.getOrderById "1" [Market.first_order] = Some Market.first_order
  /\ OrderProvider.getOrderById "1"
       (OrderProvider.updateOrderStatus "1" OrderContext.returned [Market.first_order])
     = Some (OrderContext.mk_order
               (OrderContext.id Market.first_order)
               (OrderContext.items Market.first_order)
               (OrderContext.totalAmount Market.first_order)
               OrderContext.returned
               (OrderContext.orderDate Market.first_order)
               (OrderContext.deliveryAddress Market.first_order)
               (OrderContext.paymentMethod Market.first_order))
  /\ (forall k', k' <> "1" ->
        OrderProvider.getOrderById k'
          (OrderProvider.updateOrderStatus "1" OrderContext.returned
             [Market.first_order])
        = OrderProvider.getOrderById k' [Market.first_order])
  /\ List.length (OrderProvider.updateOrderStatus "1" OrderContext.returned
                    [Market.first_order])
     = List.length [Market.first_order].
Proof.
  split; [reflexivity|].
  exact (OrderProviderFacts.getOrderById_after_updateOrderStatus "1"
           OrderContext.returned [Market.first_order] Market.first_order eq_refl).
Defined.

(* ================================================================== *)
(** ** Special products *)
(* ================================================================== *)

Lemma filter_none {A : Type} (f : A -> bool) (l : list A) :
  (forall x, In x l -> f x = false) -> filter f l = [].
Proof.
  induction l as [|a l IH]; intros H; cbn [filter]; [reflexivity|].
  rewrite (H a) by now left. apply IH. intros x Hx. apply H. now right.
Qed.

Module SpecialFacts.
Import Special.

Lemma sql_eq_true (b : option bool) :
  is_true (sql_eq Bool.eqb b (Some true)) = true <-> b = Some true.
Proof. destruct b as [[|]|]; simpl; split; congruence. Qed.

Lemma type_is (product_type : option text) (label : text) :
  is_true (sql_eq String.eqb product_type (Some label)) = true
  <-> product_type = Some label.
Proof.
  destruct product_type as [t|]; simpl; [|split; discriminate].
  destruct (String.eqb_spec t label) as [-> | Hne]; split; congruence.
Qed.

Lemma is_true_and (a b : tri) :
  is_true (sql_and a b) = is_true a && is_true b.
Proof. now destruct a as [[|]|], b as [[|]|]. Qed.

Lemma is_true_or (a b : tri) :
  is_true (sql_or a b) = is_true a || is_true b.
Proof. now destruct a as [[|]|], b as [[|]|]. Qed.

(** The WHERE clause, read as a condition on the product. *)
Lemma is_special_spec (product_type : option text)
    (p : Product.row) (up : UserProfile.row) (c : Category.row) :
  is_special product_type (p, up, c) = true <->
  Product.status p = active
  /\ ((product_type = Some "donation" /\ Product.is_donation p = Some true)
      \/ (product_type = Some "urgent" /\ Product.is_urgent p = Some true)
      \/ (product_type = Some "all"
          /\ (Product.is_donation p = Some true
              \/ Product.is_urgent p = Some true))).
Proof.
  unfold is_special.
  rewrite is_true_and, !is_true_or, !is_true_and, is_true_or. simpl is_true at 1.
  rewrite andb_true_iff, !orb_true_iff, !andb_true_iff, orb_true_iff.
  rewrite !type_is, !sql_eq_true.
  split.
  - intros [Hst H]. split; [now destruct (Product.status p)|]. tauto.
  - intros [Hst H]. rewrite Hst. split; [reflexivity|]. tauto.
Qed.

Lemma special_rows (product_type : option text) (d : db) :
  Forall (special_row d product_type)
    (map select_list
         (filter (is_special product_type)
                 (from_products_sellers_categories security_definer d))).
Proof.
  apply Forall_forall. intros r Hr.
  apply in_map_iff in Hr. destruct Hr as [j [<- Hj]].
  apply filter_In in Hj. destruct Hj as [Hj Hw].
  apply from_clause_product in Hj. destruct j as [[p up] c].
  apply is_special_spec in Hw. destruct Hw as [Hst Hflags]. simpl in *.
  split; [|exact Hflags].
  exists p. repeat split; auto.
Qed.

(** X6. For a count that is not negative, get_special_products
    returns at most that many rows, newest first; each is an active
    product, and is flagged as a donation when the type is 'donation',
    as urgent when it is 'urgent', as one of the two when it is 'all'. *)
Theorem get_special_products_spec (product_type : option text) (n : Z) (d : db) :
  0 <= n ->
  exists rows,
    get_special_products product_type (Some n) d = Ok rows
    /\ Forall (special_row d product_type) rows
    /\ StronglySorted
         (fun r1 r2 => newer_or_same (SpecialProduct.created_at r1)
                                     (SpecialProduct.created_at r2)) rows
    /\ Z.of_nat (List.length rows) <= n.
Proof.
  intros Hn. unfold get_special_products. rewrite sql_limit_ok by exact Hn.
  eexists. split; [reflexivity|]. split; [|split].
  - apply firstn_Forall, order_by_Forall, special_rows.
  - apply firstn_StronglySorted.
    eapply StronglySorted_weaken; [| apply (order_by_sorted recent_first)].
    + intros a b _ _ H. now apply desc_before_spec.
    + intros a b. apply desc_before_total.
    + intros a b c. apply desc_before_trans.
  - now apply firstn_length_Z.
Qed.

(** X7. A type other than 'donation', 'urgent' and 'all', NULL
    included, is no error: the procedure returns no row. *)
Theorem get_special_products_other_type (product_type : option text)
    (limit_count : option Z) (d : db) :
  product_type <> Some "donation" ->
  product_type <> Some "urgent" ->
  product_type <> Some "all" ->
  (forall n, limit_count = Some n -> 0 <= n) ->
  get_special_products product_type limit_count d = Ok [].
Proof.
  intros Hd Hu Ha Hlimit. unfold get_special_products.
  assert (Hnone : filter (is_special product_type)
                         (from_products_sellers_categories security_definer d) = []).
  { apply filter_none. intros [[p up] c] _.
    destruct (is_special product_type (p, up, c)) eqn:Hs; [|reflexivity].
    apply is_special_spec in Hs. destruct Hs as [_ [[H _] | [[H _] | [H _]]]];
      contradiction. }
  rewrite Hnone. simpl.
  destruct limit_count as [n|]; [|reflexivity].
  rewrite sql_limit_ok by now apply Hlimit.
  now rewrite firstn_nil.
Qed.

Lemma in_special (product_type : option text) (d : db) (r : SpecialProduct.row) :
  In r (rows_of (get_special_products product_type None d)) <->
  exists j, In j (from_products_sellers_categories security_definer d)
            /\ is_special product_type j = true /\ select_list j = r.
Proof.
  unfold get_special_products. simpl. split.
  - intros H. apply (Permutation_in _ (Permutation_sym (order_by_perm _ _))) in H.
    apply in_map_iff in H. destruct H as [j [Hr Hj]].
    apply filter_In in Hj. exists j. tauto.
  - intros [j [Hj [Hs Hr]]].
    apply (Permutation_in _ (order_by_perm _ _)).
    apply in_map_iff. exists j. split; [exact Hr|]. apply filter_In. tauto.
Qed.

(** X8. Without a limit, the rows for 'all' are the rows for
    'donation' together with the rows for 'urgent'. *)
Theorem get_special_products_all (d : db) (r : SpecialProduct.row) :
  In r (rows_of (get_special_products (Some "all") None d)) <->
  In r (rows_of (get_special_products (Some "donation") None d))
  \/ In r (rows_of (get_special_products (Some "urgent") None d)).
Proof.
  rewrite !in_special. split.
  - intros [[[p up] c] [Hj [Hs Hr]]].
    apply is_special_spec in Hs. destruct Hs as [Hst [[H _] | [[H _] | [_ [H | H]]]]];
      try discriminate.
    + left. exists (p, up, c). split; [exact Hj|]. split; [|exact Hr].
      apply is_special_spec. tauto.
    + right. exists (p, up, c). split; [exact Hj|]. split; [|exact Hr].
      apply is_special_spec. tauto.
  - intros [[[[p up] c] [Hj [Hs Hr]]] | [[[p up] c] [Hj [Hs Hr]]]];
      apply is_special_spec in Hs;
      destruct Hs as [Hst [[H Hf] | [[H Hf] | [H _]]]]; try discriminate;
      exists (p, up, c); (split; [exact Hj|]); (split; [|exact Hr]);
      apply is_special_spec; tauto.
Qed.

End SpecialFacts.

Example special_products_of_the_market :
  (map SpecialProduct.id
       (rows_of (Special.get_special_products (Some "all") (Some 10) Market.d1)),
   map SpecialProduct.id
       (rows_of (Special.get_special_products (Some "donation") (Some 10) Market.d1)),
   map SpecialProduct.id
       (rows_of (Special.get_special_products (Some "urgent") (Some 10) Market.d1)))
  = ([104%N; 103%N], [103%N], [104%N]).
Proof. reflexivity. Qed.

Lemma get_special_products_spec_witness :
  0 <= 10
  /\ exists rows,
       Special.get_special_products (Some "all") (Some 10) Market.d1 = Ok rows
       /\ Forall (special_row Market.d1 (Some "all")) rows
       /\ StronglySorted
            (fun r1 r2 => newer_or_same (SpecialProduct.created_at r1)
                                        (SpecialProduct.created_at r2)) rows
       /\ Z.of_nat (List.length rows) <= 10.
Proof.
  split; [lia|].
  apply (SpecialFacts.get_special_products_spec (Some "all") 10 Market.d1). lia.
Defined.

Lemma get_special_products_other_type_witness :
  Some "Donation" <> Some "donation"
  /\ Some "Donation" <> Some "urgent"
  /\ Some "Donation" <> Some "all"
  /\ (forall n, Some 10 = Some n -> 0 <= n)
  /\ Special.get_special_products (Some "Donation") (Some 10) Market.d1 = Ok [].
Proof.
  assert (Hn : forall n, Some 10 = Some n -> 0 <= n) by (intros n [= <-]; lia).
  split; [discriminate|]. split; [discriminate|]. split; [discriminate|].
  split; [exact Hn|].
  apply (SpecialFacts.get_special_products_other_type (Some "Donation") (Some 10)
           Market.d1); [discriminate | discriminate | discriminate | exact Hn].
Defined.

(* ================================================================== *)
(** ** The wishlist of a user *)
(* ================================================================== *)

Module WishlistViewFacts.
Import Wishlists WishlistView.

Lemma has_user_In (d : db) (k : uuid) :
  has_user d k = true <-> exists up, In up (user_profiles d) /\ UserProfile.id up = k.
Proof.
  unfold has_user. rewrite existsb_exists. split.
  - intros [up [Hin H]]. apply N.eqb_eq in H. eauto.
  - intros [up [Hin H]]. exists up. split; [exact Hin | now apply N.eqb_eq].
Qed.

Lemma has_category_In (d : db) (k : uuid) :
  has_category d k = true <-> exists c, In c (categories d) /\ Category.id c = k.
Proof.
  unfold has_category. rewrite existsb_exists. split.
  - intros [c [Hin H]]. apply N.eqb_eq in H. eauto.
  - intros [c [Hin H]]. exists c. split; [exact Hin | now apply N.eqb_eq].
Qed.

(** In a table of products that satisfies its foreign keys, every
    product has its seller and its category. *)
Lemma product_references (d : db) (p : Product.row) :
  table_valid Schema.products_table d = true ->
  In p (products d) ->
  has_user d (Product.seller_id p) = true
  /\ has_category d (Product.category_id p) = true.
Proof.
  unfold table_valid. rewrite andb_true_iff, forallb_forall. intros [H _] Hp.
  specialize (H p Hp). apply andb_true_iff in H. destruct H as [_ H].
  simpl in H. unfold references, guard in H.
  destruct (has_user d (Product.seller_id p)); [|discriminate].
  destruct (has_category d (Product.category_id p)); [|discriminate].
  auto.
Qed.

Lemma join_In (d : db) (w : Wishlist.row) (p : Product.row)
    (up : UserProfile.row) (c : Category.row) :
  In (w, p, up, c) (from_wishlists_products_sellers_categories security_definer d)
  <-> In w (wishlists d)
      /\ (In p (products d) /\ Wishlist.product_id w = Product.id p)
      /\ (In up (user_profiles d) /\ Product.seller_id p = UserProfile.id up)
      /\ (In c (categories d) /\ Product.category_id p = Category.id c).
Proof.
  unfold from_wishlists_products_sellers_categories, security_definer.
  rewrite in_flat_map. setoid_rewrite in_flat_map. setoid_rewrite in_flat_map.
  setoid_rewrite in_map_iff. setoid_rewrite sql_select_service_role.
  setoid_rewrite filter_In. setoid_rewrite N.eqb_eq. simpl tbl_rows.
  split.
  - intros [w' [[w'' [-> Hw]] [p' [[Hp Hwp] [up' [[Hup Hpu] [c' [Heq [Hc Hpc]]]]]]]]].
    injection Heq as -> -> -> ->. tauto.
  - intros [Hw [[Hp Hwp] [[Hup Hpu] [Hc Hpc]]]].
    exists w. split; [exists w; tauto|]. exists p. split; [tauto|].
    exists up. split; [tauto|]. exists c. tauto.
Qed.

Lemma listed_rows (u : uuid) (d : db) (r : WishlistProduct.row) :
  In r (rows_of (get_user_wishlist (authenticated u) d)) <->
  exists j, In j (from_wishlists_products_sellers_categories security_definer d)
            /\ listed u j = true /\ select_list j = r.
Proof.
  unfold get_user_wishlist. simpl. split.
  - intros H. apply (Permutation_in _ (Permutation_sym (order_by_perm _ _))) in H.
    apply in_map_iff in H. destruct H as [j [Hr Hj]].
    apply filter_In in Hj. exists j. tauto.
  - intros [j [Hj [Hs Hr]]].
    apply (Permutation_in _ (order_by_perm _ _)).
    apply in_map_iff. exists j. split; [exact Hr|]. apply filter_In. tauto.
Qed.

Lemma listed_sound (u k : uuid) (d : db) :
  In k (map WishlistProduct.id (rows_of (get_user_wishlist (authenticated u) d))) ->
  wished_and_active d u k.
Proof.
  intros H. apply in_map_iff in H. destruct H as [r [<- Hr]].
  apply listed_rows in Hr. destruct Hr as [[[[w p] up] c] [Hj [Hl <-]]].
  apply join_In in Hj. destruct Hj as [Hw [[Hp Hwp] _]].
  unfold listed in Hl. apply andb_true_iff in Hl. destruct Hl as [Hu Hst].
  apply N.eqb_eq in Hu. apply status_active in Hst. simpl.
  split; [exists w | exists p]; auto.
Qed.

Lemma listed_complete (u k : uuid) (d : db) :
  table_valid Schema.products_table d = true ->
  wished_and_active d u k ->
  In k (map WishlistProduct.id (rows_of (get_user_wishlist (authenticated u) d))).
Proof.
  intros Hvalid [[w [Hw [Hu Hk]]] [p [Hp [Hid Hst]]]].
  destruct (product_references d p Hvalid Hp) as [Hseller Hcat].
  apply has_user_In in Hseller. destruct Hseller as [up [Hup Hupid]].
  apply has_category_In in Hcat. destruct Hcat as [c [Hc Hcid]].
  apply in_map_iff. exists (select_list (w, p, up, c)). split; [exact Hid|].
  apply listed_rows. exists (w, p, up, c). split; [|split; [|reflexivity]].
  - apply join_In. repeat split; auto; congruence.
  - unfold listed. rewrite Hu, N.eqb_refl, Hst. reflexivity.
Qed.

(** X9. In a database whose products have their seller and their
    category, get_user_wishlist lists, for the user who calls it, the
    products that are in the wishlist of that user and are active, and
    no other: a product that is sold or inactive is not listed, though
    it stays in the wishlist. Without a user it raises. *)
Theorem get_user_wishlist_lists (u : uuid) (d : db) :
  table_valid Schema.products_table d = true ->
  (exists rows,
     get_user_wishlist (authenticated u) d = Ok rows
     /\ forall k, In k (map WishlistProduct.id rows) <-> wished_and_active d u k)
  /\ get_user_wishlist anon d = Err (raise_exception "User not authenticated").
Proof.
  intros Hvalid. split; [|reflexivity].
  exists (rows_of (get_user_wishlist (authenticated u) d)).
  split; [reflexivity|]. intros k. split.
  - apply listed_sound.
  - now apply listed_complete.
Qed.

Lemma toggle_inv (u fresh k : uuid) (now : timestamptz) (d d' : db) (added : bool) :
  toggle_wishlist (authenticated u) fresh now k d = Ok (added, d') ->
  (added = false
   /\ in_wishlist d u k = true
   /\ d' = with_wishlists (filter (fun w => negb (is_pair u k w)) (wishlists d)) d)
  \/ (added = true
      /\ in_wishlist d u k = false
      /\ d' = with_wishlists
                (wishlists d ++ [Wishlist.mk fresh u k (Some now)])%list d).
Proof.
  destruct (in_wishlist d u k) eqn:Hin.
  - rewrite (WishlistFacts.toggle_present u k fresh now d Hin).
    intros [= <- <-]. left. auto.
  - unfold toggle_wishlist. simpl auth_uid. cbv iota beta.
    rewrite sql_select_service_role. simpl tbl_rows.
    rewrite nonempty_filter_existsb. fold (in_wishlist d u k). rewrite Hin.
    destruct (sql_insert _ _ _ _) as [d1|] eqn:Hins; simpl; [|discriminate].
    intros [= <- <-]. right.
    apply sql_insert_inv in Hins. destruct Hins as [-> _]. auto.
Qed.

Lemma in_wishlist_In (d : db) (u k : uuid) :
  in_wishlist d u k = true <->
  exists w, In w (wishlists d) /\ Wishlist.user_id w = u /\ Wishlist.product_id w = k.
Proof.
  unfold in_wishlist, is_pair. rewrite existsb_exists. split.
  - intros [w [Hw H]]. apply andb_true_iff in H. destruct H as [H1 H2].
    apply N.eqb_eq in H1, H2. eauto.
  - intros [w [Hw [H1 H2]]]. exists w. split; [exact Hw|].
    apply andb_true_iff. split; now apply N.eqb_eq.
Qed.

(** What a toggle of the product [k] by the user [u] leaves of the
    wishlist of [u]. *)
Lemma wished_after_toggle (u fresh k : uuid) (now : timestamptz) (d d' : db)
    (added : bool) (k' : uuid) :
  toggle_wishlist (authenticated u) fresh now k d = Ok (added, d') ->
  products d' = products d
  /\ (in_wishlist d' u k = added)
  /\ (k' <> k -> in_wishlist d' u k' = in_wishlist d u k').
Proof.
  intros H. apply toggle_inv in H.
  destruct H as [[-> [Hin ->]] | [-> [Hin ->]]].
  - split; [reflexivity|]. split; [apply WishlistFacts.in_wishlist_after_delete|].
    intros Hk. unfold in_wishlist. simpl.
    induction (wishlists d) as [|w l IH]; simpl; [reflexivity|].
    destruct (is_pair u k w) eqn:Hw; simpl.
    + rewrite IH. unfold is_pair in *. apply andb_true_iff in Hw.
      destruct Hw as [_ Hw]. apply N.eqb_eq in Hw. rewrite Hw.
      replace (N.eqb k k') with false by (symmetry; apply N.eqb_neq; congruence).
      now rewrite andb_false_r.
    + now rewrite IH.
  - split; [reflexivity|]. split; [apply WishlistFacts.in_wishlist_after_insert|].
    intros Hk. unfold in_wishlist. simpl. rewrite existsb_app. simpl.
    unfold is_pair at 2. simpl.
    replace (N.eqb k k') with false by (symmetry; apply N.eqb_neq; congruence).
    now rewrite andb_false_r, !orb_false_r.
Qed.

(** X10. After toggle_wishlist has answered for an active product,
    get_user_wishlist lists that product exactly when the answer was
    true (added), and lists every other product as before. *)
Theorem toggled_product_is_listed (u fresh k : uuid) (now : timestamptz)
    (d d' : db) (added : bool) :
  table_valid Schema.products_table d = true ->
  (exists p, In p (products d) /\ Product.id p = k /\ Product.status p = active) ->
  toggle_wishlist (authenticated u) fresh now k d = Ok (added, d') ->
  exists rows,
    get_user_wishlist (authenticated u) d' = Ok rows
    /\ existsb (fun r => N.eqb (WishlistProduct.id r) k) rows = added
    /\ (forall k', k' <> k ->
          (In k' (map WishlistProduct.id rows) <->
           In k' (map WishlistProduct.id
                      (rows_of (get_user_wishlist (authenticated u) d))))).
Proof.
  intros Hvalid Hactive Htoggle.
  assert (Hproducts : products d' = products d)
    by apply (wished_after_toggle u fresh k now d d' added k Htoggle).
  assert (Hvalid' : table_valid Schema.products_table d' = true).
  { apply toggle_inv in Htoggle.
    destruct Htoggle as [[_ [_ ->]] | [_ [_ ->]]]; exact Hvalid. }
  assert (Hiff : forall x,
            In x (map WishlistProduct.id
                      (rows_of (get_user_wishlist (authenticated u) d')))
            <-> in_wishlist d' u x = true
                /\ (exists p, In p (products d) /\ Product.id p = x
                              /\ Product.status p = active)).
  { intros x. rewrite in_wishlist_In, <- Hproducts. split.
    - apply listed_sound.
    - now apply listed_complete. }
  assert (Hiff0 : forall x,
            In x (map WishlistProduct.id
                      (rows_of (get_user_wishlist (authenticated u) d)))
            <-> in_wishlist d u x = true
                /\ (exists p, In p (products d) /\ Product.id p = x
                              /\ Product.status p = active)).
  { intros x. rewrite in_wishlist_In. split.
    - apply listed_sound.
    - now apply listed_complete. }
  exists (rows_of (get_user_wishlist (authenticated u) d')).
  split; [reflexivity|]. split.
  - destruct (wished_after_toggle u fresh k now d d' added k Htoggle)
      as [_ [Hin _]].
    destruct added.
    + apply existsb_exists.
      assert (Hk : In k (map WishlistProduct.id
                             (rows_of (get_user_wishlist (authenticated u) d'))))
        by (apply Hiff; auto).
      apply in_map_iff in Hk. destruct Hk as [r [Hr Hin']].
      exists r. split; [exact Hin' | now apply N.eqb_eq].
    + apply existsb_false. intros r Hr.
      apply N.eqb_neq. intros Hid.
      assert (Hk : In k (map WishlistProduct.id
                             (rows_of (get_user_wishlist (authenticated u) d'))))
        by (apply in_map_iff; eauto).
      apply Hiff in Hk. destruct Hk as [Hk _]. congruence.
  - intros k' Hk'. rewrite Hiff, Hiff0.
    destruct (wished_after_toggle u fresh k now d d' added k' Htoggle)
      as [_ [_ Hother]].
    now rewrite (Hother Hk').
Qed.

End WishlistViewFacts.

Lemma get_user_wishlist_lists_witness :
  table_valid Schema.products_table Market.d1 = true
  /\ (exists rows,
        WishlistView.get_user_wishlist (authenticated Sample.alice) Market.d1 = Ok rows
        /\ forall k, In k (map WishlistProduct.id rows)
                     <-> wished_and_active Market.d1 Sample.alice k)
  /\ WishlistView.get_user_wishlist anon Market.d1
     = Err (raise_exception "User not authenticated").
Proof.
  split; [reflexivity|].
  apply (WishlistViewFacts.get_user_wishlist_lists Sample.alice Market.d1).
  reflexivity.
Defined.

(** Alice has the products 100 and 102 in her wishlist; 102 is sold. *)
Example wishlist_of_alice :
  map WishlistProduct.id
      (rows_of (WishlistView.get_user_wishlist (authenticated Sample.alice) Market.d1))
  = [100%N].
Proof. reflexivity. Qed.

Lemma toggled_product_is_listed_witness :
  let d' :=
    with_wishlists
      (wishlists Market.d1
       ++ [Wishlist.mk 603%N Sample.alice 101%N (Some 90)])%list Market.d1 in
  table_valid Schema.products_table Market.d1 = true
  /\ (exists p, In p (products Market.d1)
                /\ Product.id p = 101%N /\ Product.status p = active)
  /\ Wishlists.toggle_wishlist (authenticated Sample.alice) 603%N 90 101%N Market.d1
     = Ok (true, d')
  /\ exists rows,
       WishlistView.get_user_wishlist (authenticated Sample.alice) d' = Ok rows
       /\ existsb (fun r => N.eqb (WishlistProduct.id r) 101%N) rows = true
       /\ (forall k', k' <> 101%N ->
             (In k' (map WishlistProduct.id rows) <->
              In k' (map WishlistProduct.id
                         (rows_of (WishlistView.get_user_wishlist
                                     (authenticated Sample.alice) Market.d1))))).
Proof.
  intros d'.
  assert (Hp : exists p, In p (products Market.d1)
                         /\ Product.id p = 101%N /\ Product.status p = active).
  { eexists. split; [right; left; reflexivity|]. split; reflexivity. }
  split; [reflexivity|]. split; [exact Hp|]. split; [reflexivity|].
  apply (WishlistViewFacts.toggled_product_is_listed Sample.alice 603%N 101%N 90
           Market.d1 d' true); [reflexivity | exact Hp | reflexivity].
Defined.

(* ================================================================== *)
(** ** Requests of lib/supabase *)
(* ================================================================== *)

Module WishlistRequestFacts.
Import Wishlists SupabaseRequests.

(** The rows of the request of isProductInWishlist: row-level security
    lets a user read the rows of their own wishlist. *)
Lemma own_pairs (u k : uuid) (d : db) :
  sql_select Schema.wishlists_table (authenticated u) d
    (fun w => N.eqb (Wishlist.user_id w) u && N.eqb (Wishlist.product_id w) k)
  = filter (is_pair u k) (wishlists d).
Proof.
  unfold sql_select. simpl tbl_rows. apply filter_ext. intros w.
  unfold is_pair. simpl. unfold pol_qual. simpl.
  rewrite (N.eqb_sym u). destruct (N.eqb (Wishlist.user_id w) u); reflexivity.
Qed.

(** Under UNIQUE(user_id, product_id) a pair has at most one row. *)
Lemma pair_at_most_once (u k : uuid) (l : list Wishlist.row) :
  no_conflicts Schema.wishlists_table l = true ->
  filter (is_pair u k) l = []
  \/ exists w, filter (is_pair u k) l = [w].
Proof.
  induction l as [|w l IH]; simpl; [now left|].
  rewrite andb_true_iff. intros [Hw Hl].
  destruct (is_pair u k w) eqn:Hpair; [|now apply IH].
  right. exists w. f_equal. apply filter_none. intros x Hx.
  destruct (first_conflict Schema.wishlists_table w l) eqn:Hfc; [discriminate|].
  rewrite LocationFacts.first_conflict_none in Hfc.
  specialize (Hfc _ (or_intror (or_introl eq_refl))). simpl in Hfc.
  rewrite existsb_false in Hfc. specialize (Hfc x Hx).
  unfold is_pair in *. apply andb_true_iff in Hpair. destruct Hpair as [H1 H2].
  apply N.eqb_eq in H1, H2. now rewrite <- H1, <- H2, N.eqb_sym, (N.eqb_sym (Wishlist.product_id x)).
Qed.

(** X11. In a wishlists table that satisfies its unique constraint,
    isProductInWishlist answers whether the pair of the user and the
    product is in the table; for a visitor who is not signed in it
    answers false. *)
Theorem isProductInWishlist_spec (u k : uuid) (d : db) :
  table_valid Schema.wishlists_table d = true ->
  isProductInWishlist (authenticated u) k d = in_wishlist d u k
  /\ isProductInWishlist anon k d = false.
Proof.
  intros Hvalid. split; [|reflexivity].
  unfold table_valid in Hvalid. apply andb_true_iff in Hvalid.
  destruct Hvalid as [_ Hkeys]. simpl tbl_rows in Hkeys.
  unfold isProductInWishlist. simpl getUser. cbv iota beta.
  rewrite own_pairs. unfold in_wishlist.
  rewrite <- nonempty_filter_existsb.
  destruct (pair_at_most_once u k (wishlists d) Hkeys) as [-> | [w ->]];
    reflexivity.
Qed.

(** X12. Right after toggle_wishlist has answered, isProductInWishlist
    gives the same answer for that product. *)
Theorem isProductInWishlist_after_toggle (u fresh k : uuid) (now : timestamptz)
    (d d' : db) (added : bool) :
  toggle_wishlist (authenticated u) fresh now k d = Ok (added, d') ->
  isProductInWishlist (authenticated u) k d' = added.
Proof.
  intros H. apply WishlistViewFacts.toggle_inv in H.
  unfold isProductInWishlist. simpl getUser. cbv iota beta. rewrite own_pairs.
  destruct H as [[-> [Hin ->]] | [-> [Hin ->]]]; simpl wishlists.
  - rewrite filter_none; [reflexivity|].
    intros w Hw. apply filter_In in Hw. destruct Hw as [_ Hw].
    now apply negb_true_iff in Hw.
  - rewrite filter_app. unfold in_wishlist in Hin. rewrite existsb_false in Hin.
    rewrite (filter_none _ _ Hin). simpl.
    unfold is_pair. simpl. now rewrite !N.eqb_refl.
Qed.

End WishlistRequestFacts.

Lemma isProductInWishlist_spec_witness :
  table_valid Schema.wishlists_table Market.d1 = true
  /\ SupabaseRequests.isProductInWishlist (authenticated Sample.alice) 102%N Market.d1
     = Wishlists.in_wishlist Market.d1 Sample.alice 102%N
  /\ SupabaseRequests.isProductInWishlist anon 102%N Market.d1 = false.
Proof.
  split; [reflexivity|].
  apply (WishlistRequestFacts.isProductInWishlist_spec Sample.alice 102%N Market.d1).
  reflexivity.
Defined.

Lemma isProductInWishlist_after_toggle_witness :
  let d' :=
    with_wishlists
      (filter (fun w => negb (Wishlists.is_pair Sample.alice 100%N w))
              (wishlists Market.d1)) Market.d1 in
  Wishlists.toggle_wishlist (authenticated Sample.alice) 603%N 90 100%N Market.d1
  = Ok (false, d')
  /\ SupabaseRequests.isProductInWishlist (authenticated Sample.alice) 100%N d' = false.
Proof.
  intros d'. split; [reflexivity|].
  apply (WishlistRequestFacts.isProductInWishlist_after_toggle Sample.alice 603%N
           100%N 90 Market.d1 d' false).
  reflexivity.
Defined.

(* ================================================================== *)
(** ** Sending a message *)
(* ================================================================== *)

(** An UPDATE that reaches no row succeeds and leaves the table as it
    was. *)
Lemma sql_update_no_target {row : Type} (T : table row) (s : session)
    (now : timestamptz) (d : db) (w : row -> bool) (set : row -> row) :
  (forall r, In r (tbl_rows T d) -> update_target T s d w r = false) ->
  sql_update T s now d w set = Ok (tbl_with T (tbl_rows T d) d).
Proof.
  intros Hno. unfold sql_update.
  rewrite ConstraintFacts.map_result_untouched.
  - rewrite bind_ok, ConstraintFacts.update_conflict_untouched.
    rewrite map_map. simpl. now rewrite map_id.
  - intros x Hx. unfold update_step. now rewrite (Hno x Hx).
Qed.

Module MessagingFacts.
Import Messaging.

(** X13. With the name resolution PL/pgSQL has by default, sendMessage
    of the location and messaging library stores no message for any
    user and any receiver: the procedure send_message starts by calling
    get_or_create_conversation, which raises on its lookup. *)
Theorem sendMessage_default_raises (s : session)
    (fresh_conversation fresh_message : uuid) (now : timestamptz)
    (receiverId : uuid) (messageText : text) (productId : option uuid) (d : db) :
  LocationRequests.sendMessage plpgsql_default s fresh_conversation fresh_message
    now receiverId messageText productId d
  = Err (match auth_uid s with
         | Some _ => ambiguous_column "user1_id"
         | None => raise_exception "User not authenticated"
         end).
Proof.
  unfold LocationRequests.sendMessage.
  destruct (auth_uid s) as [user|]; [|reflexivity].
  unfold send_message, Conversations.get_or_create_conversation. simpl.
  now destruct (N.ltb user receiverId).
Qed.




(** X15. sendMessage of lib/supabase stores no message either: it
    inserts into messages without a conversation_id, which the table
    declares NOT NULL without a default, so a signed-in user gets the
    violation of that constraint for every receiver, product and text. *)
Theorem sendMessage_without_conversation (s : session) (fresh : uuid)
    (now : timestamptz) (receiverId : uuid) (productId : option uuid)
    (messageText : text) (d : db) :
  SupabaseRequests.sendMessage s fresh now receiverId productId messageText d
  = Error (match s with
           | authenticated _ => not_null_violation "conversation_id"
           | _ => statement_error (raise_exception "User not authenticated")
           end).
Proof.
  destruct s as [|u|]; try reflexivity.
  unfold SupabaseRequests.sendMessage, SupabaseRequests.insert_message. simpl.
  unfold pol_wco, pol_qual. simpl. now rewrite N.eqb_refl.
Qed.

End MessagingFacts.

(** Alice cannot advance last_message_at of her conversation with Bob. *)
Example alice_touches_her_conversation :
  In (Conversation.mk 200%N Sample.alice Sample.bob None (Some 40) (Some 40))
     (conversations Sample.d0)
  /\ sql_update Schema.conversations_table (authenticated Sample.alice) 90 Sample.d0
       (fun c => N.eqb (Conversation.id c) 200%N)
       (Messaging.set_last_message_at (Some 90))
     = Ok Sample.d0.
Proof. split; [left; reflexivity | reflexivity]. Qed.

(* ================================================================== *)
(** ** Conversations and unread messages *)
(* ================================================================== *)

Module UnreadFacts.
Import LocationRequests.

Lemma length_filter_map {A B : Type} (P : B -> bool) (Q : A -> bool) (h : A -> B)
    (l : list A) :
  (forall x, In x l -> P (h x) = Q x) ->
  List.length (filter P (map h l)) = List.length (filter Q l).
Proof.
  induction l as [|a l IH]; intros H; simpl; [reflexivity|].
  rewrite (H a) by now left.
  destruct (Q a); simpl; rewrite IH; auto; intros x Hx; apply H; now right.
Qed.

Lemma marked_target (u c : uuid) (d : db) (m : Message.row) :
  update_target Schema.messages_table (authenticated u) d
    (fun m => N.eqb (Message.conversation_id m) c
              && N.eqb (Message.receiver_id m) u) m
  = marked u c m.
Proof.
  unfold update_target, marked. simpl. unfold pol_qual. simpl.
  rewrite !orb_false_r.
  destruct (N.eqb (Message.conversation_id m) c); simpl; [|reflexivity].
  rewrite (N.eqb_sym u (Message.receiver_id m)).
  destruct (N.eqb (Message.receiver_id m) u); simpl;
    [now rewrite orb_true_r | reflexivity].
Qed.

Lemma message_references (d : db) (m : Message.row) :
  table_valid Schema.messages_table d = true ->
  In m (messages d) ->
  tbl_references Schema.messages_table d m = Ok tt.
Proof.
  unfold table_valid. rewrite andb_true_iff, forallb_forall. intros [H _] Hm.
  specialize (H m Hm). apply andb_true_iff in H. destruct H as [_ H].
  destruct (tbl_references Schema.messages_table d m) as [[]|]; [reflexivity|].
  discriminate.
Qed.

Lemma markMessagesAsRead_ok (u c : uuid) (now : timestamptz) (d : db) :
  table_valid Schema.messages_table d = true ->
  markMessagesAsRead (authenticated u) now c d
  = Ok (with_messages
          (map (fun m => if marked u c m
                         then Messaging.set_is_read (Some true) m else m)
               (messages d)) d).
Proof.
  intros Hvalid.
  set (g := fun m : Message.row =>
              if marked u c m then (true, Messaging.set_is_read (Some true) m)
              else (false, m)).
  unfold markMessagesAsRead. simpl auth_uid. cbv iota beta.
  unfold sql_update. simpl tbl_rows.
  rewrite (map_result_pointwise _ g).
  - rewrite bind_ok. rewrite LocationFacts.update_conflict_preserved.
    + simpl. rewrite map_map. do 2 f_equal. apply map_ext. intros m. unfold g.
      now destruct (marked u c m).
    + intros k [<- | []] a b. simpl. unfold g.
      now destruct (marked u c a), (marked u c b).
    + unfold table_valid in Hvalid. apply andb_true_iff in Hvalid.
      now destruct Hvalid.
  - intros m Hm. unfold update_step. rewrite marked_target. unfold g.
    destruct (marked u c m) eqn:Hmarked; [|reflexivity].
    unfold updated_row.
    assert (Href : tbl_references Schema.messages_table d
                     (Messaging.set_is_read (Some true) m) = Ok tt)
      by exact (message_references d m Hvalid Hm).
    simpl tbl_before_update. rewrite Href.
    unfold marked in Hmarked. apply andb_true_iff in Hmarked.
    destruct Hmarked as [_ Hrecv]. apply N.eqb_eq in Hrecv.
    simpl. unfold pol_wco, pol_qual. simpl.
    rewrite Hrecv, N.eqb_refl, !orb_true_r. reflexivity.
Qed.

(** The count of unread messages, over the rows of the table. *)
Lemma unread_count_rows (u c : uuid) (d : db) :
  unread (authenticated u) d u c
  = Z.of_nat (List.length
      (filter (fun m => N.eqb (Message.conversation_id m) c
                        && N.eqb (Message.receiver_id m) u
                        && is_true (sql_eq Bool.eqb (Message.is_read m) (Some false)))
              (messages d))).
Proof.
  unfold unread, sql_select. simpl tbl_rows. do 2 f_equal.
  apply filter_ext. intros m. simpl. unfold pol_qual. simpl.
  rewrite !orb_false_r, (N.eqb_sym u (Message.receiver_id m)).
  destruct (N.eqb (Message.receiver_id m) u); simpl.
  - now rewrite orb_true_r.
  - now rewrite andb_false_r, andb_false_r.
Qed.

(** X16. In a messages table that satisfies its constraints,
    markMessagesAsRead(c) succeeds for a signed-in user: it marks as
    read the messages of the conversation [c] that the user received
    and leaves every other message, and every other column, as it was;
    after it getConversations shows no unread message for [c], and
    for every other conversation the count it showed before. *)
Theorem markMessagesAsRead_clears_unread (u c : uuid) (now : timestamptz) (d : db) :
  table_valid Schema.messages_table d = true ->
  exists d',
    markMessagesAsRead (authenticated u) now c d = Ok d'
    /\ d' = with_messages (messages d') d
    /\ Forall2
         (fun m m' =>
            m' = if N.eqb (Message.conversation_id m) c
                    && N.eqb (Message.receiver_id m) u
                 then Messaging.set_is_read (Some true) m else m)
         (messages d) (messages d')
    /\ (forall v, In v (rows_of (getConversations (authenticated u) d')) ->
          unread_count v
          = if N.eqb (Conversation.id (conversation v)) c then 0
            else unread (authenticated u) d u (Conversation.id (conversation v))).
Proof.
  intros Hvalid. eexists. split; [now apply markMessagesAsRead_ok|].
  split; [reflexivity|]. split.
  - simpl. clear Hvalid. induction (messages d) as [|m l IH]; simpl; constructor.
    + reflexivity.
    + exact IH.
  - intros v Hv. unfold getConversations in Hv. simpl in Hv.
    apply in_map_iff in Hv. destruct Hv as [conv [<- _]].
    cbv beta zeta. simpl unread_count. simpl conversation.
    set (k := Conversation.id conv).
    rewrite !unread_count_rows. simpl messages.
    destruct (N.eqb_spec k c) as [-> | Hk].
    + rewrite (length_filter_map _ (fun _ => false)).
      * rewrite filter_none by reflexivity. reflexivity.
      * intros m _. unfold marked.
        destruct (N.eqb (Message.conversation_id m) c) eqn:Hc; simpl;
          [|now rewrite Hc].
        destruct (N.eqb (Message.receiver_id m) u) eqn:Hr; simpl;
          [now rewrite Hc, Hr | now rewrite Hc, Hr].
    + f_equal. apply length_filter_map. intros m _.
      destruct (marked u c m) eqn:Hm; [|reflexivity].
      unfold marked in Hm. apply andb_true_iff in Hm. destruct Hm as [Hc _].
      apply N.eqb_eq in Hc. simpl. rewrite Hc.
      replace (N.eqb c k) with false by (symmetry; apply N.eqb_neq; congruence).
      reflexivity.
Qed.

End UnreadFacts.

(** Alice has one unread message in the conversation 200; after she
    has marked the conversation as read she has none. *)
Example alice_reads_her_messages :
  (map (fun v => (Conversation.id (LocationRequests.conversation v),
                  option_map UserProfile.full_name (LocationRequests.other_user v),
                  LocationRequests.unread_count v))
       (rows_of (LocationRequests.getConversations (authenticated Sample.alice)
                   Market.d1)),
   match LocationRequests.markMessagesAsRead (authenticated Sample.alice) 90 200%N
           Market.d1 with
   | Ok d' =>
       map (fun v => (Conversation.id (LocationRequests.conversation v),
                      LocationRequests.unread_count v))
           (rows_of (LocationRequests.getConversations (authenticated Sample.alice) d'))
   | Err _ => []
   end)
  = ([ (201%N, Some "Bob", 0); (200%N, Some "Bob", 1) ],
     [ (201%N, 0); (200%N, 0) ]).
Proof. reflexivity. Qed.

Lemma markMessagesAsRead_clears_unread_witness :
  table_valid Schema.messages_table Market.d1 = true
  /\ exists d',
       LocationRequests.markMessagesAsRead (authenticated Sample.alice) 90 200%N
         Market.d1 = Ok d'
       /\ d' = with_messages (messages d') Market.d1
       /\ Forall2
            (fun m m' =>
               m' = if N.eqb (Message.conversation_id m) 200%N
                       && N.eqb (Message.receiver_id m) Sample.alice
                    then Messaging.set_is_read (Some true) m else m)
            (messages Market.d1) (messages d')
       /\ (forall v,
             In v (rows_of (LocationRequests.getConversations
                              (authenticated Sample.alice) d')) ->
             LocationRequests.unread_count v
             = if N.eqb (Conversation.id (LocationRequests.conversation v)) 200%N
               then 0
               else LocationRequests.unread (authenticated Sample.alice) Market.d1
                      Sample.alice
                      (Conversation.id (LocationRequests.conversation v))).
Proof.
  split; [reflexivity|].
  apply (UnreadFacts.markMessagesAsRead_clears_unread Sample.alice 200%N 90 Market.d1).
  reflexivity.
Defined.

(* ================================================================== *)
(** ** Seller statistics *)
(* ================================================================== *)

Lemma filter_map_comm {A B : Type} (P : B -> bool) (h : A -> B) (l : list A) :
  filter P (map h l) = map h (filter (fun x => P (h x)) l).
Proof.
  induction l as [|a l IH]; simpl; [reflexivity|].
  destruct (P (h a)); simpl; now rewrite IH.
Qed.

Lemma disjoint_filters {A : Type} (f g : A -> bool) (l : list A) :
  (forall x, f x = true -> g x = false) ->
  (List.length (filter f l) + List.length (filter g l) <= List.length l)%nat.
Proof.
  intros H. induction l as [|a l IH]; simpl; [lia|].
  destruct (f a) eqn:Hf; simpl.
  - rewrite (H a Hf). lia.
  - destruct (g a); simpl; lia.
Qed.

(** Under a primary key on id, the profile of an id is one row. *)
Lemma profile_of_id (l : list UserProfile.row) (up : UserProfile.row) :
  no_conflicts Schema.user_profiles_table l = true ->
  In up l ->
  filter (fun x => N.eqb (UserProfile.id x) (UserProfile.id up)) l = [up].
Proof.
  induction l as [|a l IH]; simpl; [contradiction|].
  rewrite andb_true_iff. intros [Ha Hl] Hin.
  destruct (first_conflict Schema.user_profiles_table a l) eqn:Hfc; [discriminate|].
  rewrite LocationFacts.first_conflict_none in Hfc.
  specialize (Hfc _ (or_introl eq_refl)). simpl in Hfc.
  rewrite existsb_false in Hfc.
  destruct Hin as [-> | Hin].
  - rewrite N.eqb_refl. f_equal. apply filter_none. intros x Hx.
    rewrite N.eqb_sym. now apply Hfc.
  - rewrite (Hfc up Hin). now apply IH.
Qed.

Lemma filter_comm {A : Type} (f g : A -> bool) (l : list A) :
  filter f (filter g l) = filter g (filter f l).
Proof.
  induction l as [|a l IH]; simpl; [reflexivity|].
  destruct (f a) eqn:Hf, (g a) eqn:Hg; simpl; rewrite ?Hf, ?Hg, IH; reflexivity.
Qed.

Section SellerStatsFacts.
Variable numeric_avg : list Z -> Q.

(** X17. Every row of seller_stats is the profile of a user whose
    role is seller or both, with the count of all the products of that
    user, whatever their status; the counts of active and of sold
    products are not negative and together at most the total; a seller
    without products has the counts 0, the average 0 and no last
    posting. *)
Theorem seller_stats_counts (d : db) :
  Forall
    (fun r =>
       (exists up, In up (user_profiles d)
                   /\ UserProfile.id up = SellerStats.id r
                   /\ UserProfile.full_name up = SellerStats.full_name r
                   /\ UserProfile.role up <> buyer)
       /\ SellerStats.total_products r
          = Z.of_nat (List.length
              (filter (fun p => N.eqb (SellerStats.id r) (Product.seller_id p))
                      (products d)))
       /\ 0 <= SellerStats.active_products r
       /\ 0 <= SellerStats.sold_products r
       /\ SellerStats.active_products r + SellerStats.sold_products r
          <= SellerStats.total_products r
       /\ (SellerStats.total_products r = 0 ->
           SellerStats.avg_views r = 0%Q /\ SellerStats.last_posted r = None))
    (seller_stats numeric_avg d).
Proof.
  apply Forall_forall. intros r Hr. unfold seller_stats in Hr.
  apply in_map_iff in Hr. destruct Hr as [up [<- Hup]].
  apply filter_In in Hup. destruct Hup as [Hup Hsells]. simpl.
  set (ps := filter (fun p => N.eqb (UserProfile.id up) (Product.seller_id p))
                    (products d)).
  assert (Htotal : sql_count (fun p => Some (Product.id p)) ps
                   = Z.of_nat (List.length ps)).
  { unfold sql_count. simpl. do 2 f_equal.
    clear. induction ps as [|p l IH]; simpl; [reflexivity | now rewrite IH]. }
  split; [|split; [exact Htotal|split; [|split; [|split]]]].
  - exists up. repeat split; auto.
    unfold sells in Hsells. destruct (UserProfile.role up); congruence.
  - unfold sql_count. lia.
  - unfold sql_count. lia.
  - rewrite Htotal. unfold sql_count. rewrite <- Nat2Z.inj_add.
    apply Nat2Z.inj_le. apply disjoint_filters.
    intros p. unfold when_status. now destruct (Product.status p).
  - rewrite Htotal. intros H0.
    assert (Hnil : ps = []) by (destruct ps; [reflexivity | simpl in H0; lia]).
    rewrite Hnil. split; reflexivity.
Qed.

(** X18. In a table of profiles that satisfies its primary key,
    getSellerStats fails for a user whose role is buyer, with the error
    of a request for a single row that found none, also when that user
    has products; for a user whose role is seller or both it returns
    the row of that user. *)
Theorem getSellerStats_by_role (d : db) (up : UserProfile.row) :
  table_valid Schema.user_profiles_table d = true ->
  In up (user_profiles d) ->
  match UserProfile.role up with
  | buyer =>
      LocationRequests.getSellerStats numeric_avg (UserProfile.id up) d
      = Error (not_a_single_row 0)
  | _ =>
      exists r,
        LocationRequests.getSellerStats numeric_avg (UserProfile.id up) d = Data r
        /\ In r (seller_stats numeric_avg d)
        /\ SellerStats.id r = UserProfile.id up
  end.
Proof.
  intros Hvalid Hup. unfold table_valid in Hvalid.
  apply andb_true_iff in Hvalid. destruct Hvalid as [_ Hkeys].
  simpl tbl_rows in Hkeys.
  unfold LocationRequests.getSellerStats, seller_stats.
  rewrite filter_map_comm. cbv beta. cbn [SellerStats.id].
  rewrite filter_comm, (profile_of_id _ up Hkeys Hup).
  cbn [filter].
  assert (Hsells : sells up = match UserProfile.role up with
                              | buyer => false
                              | _ => true
                              end)
    by (unfold sells; now destruct (UserProfile.role up)).
  rewrite Hsells.
  destruct (UserProfile.role up); cbn [map single List.length];
    try reflexivity;
    eexists; (split; [reflexivity|]); (split; [|reflexivity]);
    apply in_map_iff; exists up; (split; [reflexivity|]);
    apply filter_In; (split; [exact Hup | exact Hsells]).
Qed.

End SellerStatsFacts.

(** Dave, whose role is buyer, has two listings and no row in the view. *)
Example seller_stats_of_the_market :
  map (fun r => (SellerStats.full_name r, SellerStats.total_products r,
                 SellerStats.active_products r, SellerStats.sold_products r,
                 SellerStats.last_posted r))
      (seller_stats Market.mean Market.d1)
  = [ ("Alice", 0, 0, 0, None); ("Bob", 4, 3, 1, Some 40); ("Carol", 0, 0, 0, None) ].
Proof. reflexivity. Qed.

Lemma getSellerStats_by_role_witness :
  table_valid Schema.user_profiles_table Market.d1 = true
  /\ In Market.dave_profile (user_profiles Market.d1)
  /\ LocationRequests.getSellerStats Market.mean
       (UserProfile.id Market.dave_profile) Market.d1
     = Error (not_a_single_row 0).
Proof.
  assert (Hin : In Market.dave_profile (user_profiles Market.d1)).
  { simpl. tauto. }
  split; [reflexivity|]. split; [exact Hin|].
  exact (getSellerStats_by_role Market.mean Market.d1 Market.dave_profile
           eq_refl Hin).
Defined.

(* ================================================================== *)
(** ** Products of a seller, and requests of those who are not *)
(* ================================================================== *)

Module ProductRequestFacts.
Import SupabaseRequests.

Lemma select_policy (u : uuid) (d : db) (p : Product.row) :
  rls_using Schema.products_policies FOR_SELECT (authenticated u) d p
  = product_status_eqb (Product.status p) active || N.eqb u (Product.seller_id p).
Proof.
  simpl. unfold pol_qual. simpl.
  destruct (product_status_eqb (Product.status p) active),
           (N.eqb u (Product.seller_id p)); reflexivity.
Qed.

Lemma status_eqb_eq (a b : product_status) :
  product_status_eqb a b = true <-> a = b.
Proof. destruct a, b; simpl; split; congruence. Qed.

(** X19. getSellerProducts, asked by a signed-in user for the
    products of a seller in a given status, returns all of them when
    the user is that seller or the status is 'active', and none when
    the user is someone else and the status is 'sold' or 'inactive':
    the policies show a user the active products and their own. A
    status that is no label of the enum is an error. *)
Theorem getSellerProducts_visibility (u sellerId : uuid) (label : string) (d : db) :
  match status_of_label label with
  | None =>
      getSellerProducts (authenticated u) sellerId label d
      = Err invalid_text_representation
  | Some st =>
      exists rows,
        getSellerProducts (authenticated u) sellerId label d = Ok rows
        /\ (u <> sellerId -> st <> active -> rows = [])
        /\ (u = sellerId \/ st = active ->
            Permutation (map fst rows)
              (filter (fun p => N.eqb (Product.seller_id p) sellerId
                                && product_status_eqb (Product.status p) st)
                      (products d)))
  end.
Proof.
  unfold getSellerProducts.
  destruct (status_of_label label) as [st|]; [|reflexivity].
  eexists. split; [reflexivity|]. split.
  - intros Hu Hst. unfold sql_select. simpl tbl_rows.
    rewrite filter_none; [reflexivity|].
    intros p _. cbn [tbl_policies Schema.products_table]. rewrite select_policy.
    destruct (N.eqb_spec (Product.seller_id p) sellerId) as [Hs | Hs];
      [|now rewrite andb_false_r].
    destruct (product_status_eqb (Product.status p) st) eqn:Hp;
      [|now rewrite andb_false_r].
    apply status_eqb_eq in Hp.
    replace (N.eqb u (Product.seller_id p)) with false
      by (symmetry; apply N.eqb_neq; congruence).
    replace (product_status_eqb (Product.status p) active) with false;
      [reflexivity|].
    symmetry. destruct (product_status_eqb (Product.status p) active) eqn:Ha;
      [|reflexivity].
    apply status_eqb_eq in Ha. congruence.
  - intros Hcase. rewrite map_map. simpl. rewrite map_id.
    rewrite <- order_by_perm. unfold sql_select. simpl tbl_rows.
    erewrite filter_ext; [reflexivity|].
    intros p. cbn [tbl_policies Schema.products_table]. rewrite select_policy.
    destruct (N.eqb_spec (Product.seller_id p) sellerId) as [Hs | Hs];
      [|now rewrite andb_false_r].
    destruct (product_status_eqb (Product.status p) st) eqn:Hp;
      [|now rewrite andb_false_r].
    apply status_eqb_eq in Hp. simpl. rewrite andb_true_r.
    destruct Hcase as [-> | ->].
    + rewrite Hs, N.eqb_refl. now rewrite orb_true_r.
    + rewrite Hp. reflexivity.
Qed.

Lemma filter_all {A : Type} (f : A -> bool) (l : list A) :
  (forall x, In x l -> f x = true) -> filter f l = l.
Proof.
  induction l as [|a l IH]; intros H; simpl; [reflexivity|].
  rewrite (H a) by now left. f_equal. apply IH. intros x Hx. apply H. now right.
Qed.

(** A DELETE that reaches no product leaves the database as it was. *)
Lemma delete_nothing (s : session) (w : Product.row -> bool) (d : db) :
  (forall p, In p (products d) ->
             delete_target Schema.products_table s d w p = false) ->
  Rest.delete_products s w d = d.
Proof.
  intros Hno. unfold Rest.delete_products.
  rewrite (filter_none _ _ Hno). cbv zeta. cbn [existsb].
  unfold sql_delete. simpl tbl_rows.
  rewrite (filter_all (fun r => negb (delete_target Schema.products_table s d w r)))
    by (intros p Hp; now rewrite (Hno p Hp)).
  simpl.
  rewrite !filter_all by reflexivity.
  rewrite (map_ext_in _ (fun m : Message.row => m)), map_id.
  - rewrite (map_ext_in _ (fun c : Conversation.row => c)), map_id;
      [now destruct d|].
    intros c _. now destruct (Conversation.product_id c).
  - intros m _. now destruct (Message.product_id m).
Qed.

(** X20. A signed-in user who is not the seller of the product of an
    id, or who gives an id that no product has, changes nothing with
    updateProduct and deleteProduct; updateProduct reports it, with the
    error of a request for a single row that found none, and
    deleteProduct reports success. *)
Theorem requests_of_a_non_owner (u : uuid) (now : timestamptz) (k : uuid)
    (updates : Product.row -> Product.row) (d : db) :
  (forall p, In p (products d) -> Product.id p = k -> Product.seller_id p <> u) ->
  updateProduct (authenticated u) now k updates d = Error (not_a_single_row 0)
  /\ deleteProduct (authenticated u) k d = Data d.
Proof.
  intros Hother.
  assert (Hupd : forall p, In p (products d) ->
            update_target Schema.products_table (authenticated u) d
              (fun p => N.eqb (Product.id p) k) p = false).
  { intros p Hp. destruct (N.eqb_spec (Product.id p) k) as [Hk | Hk].
    - apply OwnershipFacts.not_update_target. now apply Hother.
    - unfold update_target. apply N.eqb_neq in Hk. now rewrite Hk. }
  assert (Hdel : forall p, In p (products d) ->
            delete_target Schema.products_table (authenticated u) d
              (fun p => N.eqb (Product.id p) k) p = false).
  { intros p Hp. destruct (N.eqb_spec (Product.id p) k) as [Hk | Hk].
    - apply OwnershipFacts.not_delete_target. now apply Hother.
    - unfold delete_target. apply N.eqb_neq in Hk. now rewrite Hk. }
  split.
  - unfold updateProduct, Rest.update_products.
    rewrite sql_update_no_target by exact Hupd.
    now rewrite (filter_none _ _ Hupd).
  - unfold deleteProduct. f_equal. now apply delete_nothing.
Qed.

End ProductRequestFacts.

(** Alice asks for the products of Bob: two of the three active ones
    when she asks for 'active', nothing when she asks for 'sold'; Bob
    sees his sold product. *)
Example products_of_bob :
  (map (fun x => Product.id (fst x))
       (rows_of (SupabaseRequests.getSellerProducts (authenticated Sample.alice)
                   Sample.bob "active" Sample.d0)),
   map (fun x => Product.id (fst x))
       (rows_of (SupabaseRequests.getSellerProducts (authenticated Sample.alice)
                   Sample.bob "sold" Sample.d0)),
   map (fun x => Product.id (fst x))
       (rows_of (SupabaseRequests.getSellerProducts (authenticated Sample.bob)
                   Sample.bob "sold" Sample.d0)))
  = ([101%N; 100%N], [], [102%N]).
Proof. reflexivity. Qed.

Lemma requests_of_a_non_owner_witness :
  (forall p, In p (products Sample.d0) -> Product.id p = 100%N ->
             Product.seller_id p <> Sample.alice)
  /\ SupabaseRequests.updateProduct (authenticated Sample.alice) 90 100%N
       (Product.set_price 1) Sample.d0
     = Error (not_a_single_row 0)
  /\ SupabaseRequests.deleteProduct (authenticated Sample.alice) 100%N Sample.d0
     = Data Sample.d0.
Proof.
  assert (H : forall p, In p (products Sample.d0) -> Product.id p = 100%N ->
                        Product.seller_id p <> Sample.alice).
  { intros p [<- | [<- | [<- | []]]] _; discriminate. }
  split; [exact H|].
  exact (ProductRequestFacts.requests_of_a_non_owner Sample.alice 90 100%N
           (Product.set_price 1) Sample.d0 H).
Defined.

(* ================================================================== *)
(** ** The orders of a user *)
(* ================================================================== *)

Module OrderRequestFacts.
Import SupabaseRequests.

Lemma orders_select_policy (u : uuid) (d : db) (o : Order.row) :
  rls_using Schema.orders_policies FOR_SELECT (authenticated u) d o
  = N.eqb u (Order.buyer_id o) || N.eqb u (Order.seller_id o).
Proof.
  simpl. unfold pol_qual. simpl.
  destruct (N.eqb u (Order.buyer_id o)), (N.eqb u (Order.seller_id o)); reflexivity.
Qed.

(** X21. getOrders, asked by a signed-in user for the orders of
    [userId] in a role, returns the orders of the table that have
    [userId] in the column of the role and the asking user as buyer or
    as seller, and no other: asked about someone else, it returns the
    orders between the two. The items of each order are items of that
    order, and the product shown with an item is a product the user may
    read: an active one or one of their own; for any other product of
    an item, a sold one of another seller for instance, no product is
    shown. *)
Theorem getOrders_spec (u userId : uuid) (role : string) (d : db) :
  let column := if String.eqb role "buyer" then Order.buyer_id else Order.seller_id in
  (forall o,
     In o (map order (getOrders (authenticated u) userId role d)) <->
     In o (orders d)
     /\ column o = userId
     /\ (Order.buyer_id o = u \/ Order.seller_id o = u))
  /\ Forall
       (fun v =>
          Forall
            (fun i =>
               In (item i) (order_items d)
               /\ OrderItem.order_id (item i) = Order.id (order v)
               /\ match item_product i with
                  | Some p =>
                      In p (products d)
                      /\ Product.id p = OrderItem.product_id (item i)
                      /\ (Product.status p = active \/ Product.seller_id p = u)
                  | None =>
                      forall p, In p (products d) ->
                                Product.id p = OrderItem.product_id (item i) ->
                                Product.status p <> active
                                /\ Product.seller_id p <> u
                  end)
            (order_items_of v))
       (getOrders (authenticated u) userId role d).
Proof.
  intros column. split.
  - intros o. unfold getOrders. rewrite map_map. simpl order. rewrite map_id.
    fold column. split.
    + intros H. apply (Permutation_in _ (Permutation_sym (order_by_perm _ _))) in H.
      unfold sql_select in H. apply filter_In in H. destruct H as [Hin H].
      cbn [tbl_policies Schema.orders_table] in H.
      rewrite orders_select_policy in H.
      apply andb_true_iff in H. destruct H as [Hrls Hcol].
      apply N.eqb_eq in Hcol. apply orb_true_iff in Hrls.
      rewrite !N.eqb_eq in Hrls. split; [exact Hin|]. split; [exact Hcol|].
      destruct Hrls; auto.
    + intros [Hin [Hcol Hparty]].
      apply (Permutation_in _ (order_by_perm _ _)).
      unfold sql_select. apply filter_In. split; [exact Hin|].
      cbn [tbl_policies Schema.orders_table]. rewrite orders_select_policy.
      apply andb_true_iff. split; [|now apply N.eqb_eq].
      apply orb_true_iff. rewrite !N.eqb_eq. destruct Hparty; auto.
  - apply Forall_forall. intros v Hv. unfold getOrders in Hv.
    apply in_map_iff in Hv. destruct Hv as [o [<- _]]. simpl.
    apply Forall_forall. intros i Hi.
    apply in_map_iff in Hi. destruct Hi as [x [<- Hx]]. simpl.
    unfold sql_select in Hx. apply filter_In in Hx. destruct Hx as [Hx Hw].
    apply andb_true_iff in Hw. destruct Hw as [_ Hw]. apply N.eqb_eq in Hw.
    split; [exact Hx|]. split; [exact Hw|].
    unfold sql_select. simpl tbl_rows.
    destruct (filter _ (products d)) as [|p l] eqn:Hf; simpl.
    + intros p Hp Hid.
      assert (Hnot : (rls_using (tbl_policies Schema.products_table) FOR_SELECT
                        (authenticated u) d p
                      && N.eqb (Product.id p) (OrderItem.product_id x)) = false).
      { destruct (_ && _) eqn:Hc; [|reflexivity].
        assert (Hin : In p []) by (rewrite <- Hf; apply filter_In; auto).
        destruct Hin. }
      cbn [tbl_policies Schema.products_table] in Hnot.
      rewrite ProductRequestFacts.select_policy in Hnot.
      apply N.eqb_eq in Hid. rewrite Hid, andb_true_r in Hnot.
      apply orb_false_iff in Hnot. destruct Hnot as [Hst Hs].
      split.
      * intros Ha. rewrite Ha in Hst. discriminate.
      * apply N.eqb_neq in Hs. congruence.
    + assert (Hin : In p (p :: l)) by now left.
      rewrite <- Hf in Hin. apply filter_In in Hin. destruct Hin as [Hp Hc].
      cbn [tbl_policies Schema.products_table] in Hc.
      rewrite ProductRequestFacts.select_policy in Hc.
      apply andb_true_iff in Hc. destruct Hc as [Hrls Hid].
      apply N.eqb_eq in Hid. split; [exact Hp|]. split; [exact Hid|].
      apply orb_true_iff in Hrls. destruct Hrls as [Hst | Hs].
      * left. now apply ProductRequestFacts.status_eqb_eq.
      * right. apply N.eqb_eq in Hs. congruence.
Qed.

End OrderRequestFacts.

(** Alice bought the product 102 of Bob, which is now sold: her order
    shows the item without its product, Bob's shows it with it, and
    Carol sees no order. *)
Example orders_of_alice :
  (map (fun v => (Order.id (SupabaseRequests.order v),
                  map (fun i => (OrderItem.product_id (SupabaseRequests.item i),
                                 option_map Product.title
                                            (SupabaseRequests.item_product i)))
                      (SupabaseRequests.order_items_of v)))
       (SupabaseRequests.getOrders (authenticated Sample.alice) Sample.alice "buyer"
          Market.d1),
   map (fun v => (Order.id (SupabaseRequests.order v),
                  map (fun i => (OrderItem.product_id (SupabaseRequests.item i),
                                 option_map Product.title
                                            (SupabaseRequests.item_product i)))
                      (SupabaseRequests.order_items_of v)))
       (SupabaseRequests.getOrders (authenticated Sample.bob) Sample.alice "buyer"
          Market.d1),
   SupabaseRequests.getOrders (authenticated Sample.carol) Sample.alice "buyer"
     Market.d1)
  = ([ (400%N, [ (102%N, None) ]) ],
     [ (400%N, [ (102%N, Some "Atlas") ]) ],
     []).
Proof. reflexivity. Qed.

(* ================================================================== *)
(** ** A product created and read back *)
(* ================================================================== *)

Module CreateProductFacts.
Import SupabaseRequests.

Lemma existsb_pointwise {A : Type} (f g : A -> bool) (l : list A) :
  (forall x, f x = g x) -> existsb f l = existsb g l.
Proof.
  intros H. induction l as [|a l IH]; cbn [existsb]; [reflexivity|].
  now rewrite H, IH.
Qed.

Lemma hd_error_filter_In {A : Type} (f : A -> bool) (l : list A) :
  existsb f l = true ->
  exists x, hd_error (filter f l) = Some x /\ In x l /\ f x = true.
Proof.
  induction l as [|a l IH]; simpl; [discriminate|].
  destruct (f a) eqn:Ha; simpl.
  - intros _. exists a. auto.
  - intros H. destruct (IH H) as [x [Hx [Hin Hf]]]. exists x. auto.
Qed.

(** X22. When createProduct succeeds, the row it returns has the
    generated id, the user of the session as seller, the status
    active, no views, the price rounded to two decimals, which is
    positive, and the title, description, category and location that
    were given; from then on getProduct of that id returns, to every
    signed-in user, that row with the profile of the seller and the
    category. *)
Theorem getProduct_after_createProduct (u viewer : uuid) (fresh : uuid)
    (now : timestamptz) (input : productInput) (d d' : db) (row : Product.row) :
  createProduct (authenticated u) fresh now input d = Data (row, d') ->
  (Product.id row = fresh
   /\ Product.seller_id row = u
   /\ Product.status row = active
   /\ Product.views row = Some 0
   /\ to_decimal_10_2 (price input) = Ok (Product.price row)
   /\ 0 < Product.price row
   /\ Product.title row = title input
   /\ Product.description row = description input
   /\ Product.category_id row = category_id input
   /\ condition_of_label (condition input) = Some (Product.condition row)
   /\ Product.location row = location input)
  /\ products d' = (products d ++ [row])%list
  /\ exists up c,
       getProduct (authenticated viewer) fresh d'
       = Data (mk_ProductView row (Some up) (Some c))
       /\ In up (user_profiles d') /\ UserProfile.id up = u
       /\ In c (categories d') /\ Category.id c = category_id input.
Proof.
  unfold createProduct. simpl getUser. cbv iota beta.
  destruct (condition_of_label (condition input)) as [cond|] eqn:Hcond;
    [|discriminate].
  destruct (Rest.insert_product _ _ _ _ _) as [d1|] eqn:Hins; [|discriminate].
  unfold Rest.insert_product in Hins.
  cbn [Rest.pi_price Rest.pi_seller_id Rest.pi_title Rest.pi_description
       Rest.pi_category_id Rest.pi_condition Rest.pi_location
       Rest.pi_image_urls] in Hins.
  destruct (to_decimal_10_2 (price input)) as [cents|] eqn:Hprice;
    [|simpl in Hins; discriminate].
  rewrite bind_ok in Hins.
  apply sql_insert_inv in Hins.
  destruct Hins as [Hd1 [_ [Hcheck [Hfc Href]]]].
  remember (tbl_before_insert Schema.products_table _) as r eqn:Hr0 in *.
  assert (Hr : r = Product.mk fresh u (title input) (description input) cents
                     (category_id input) cond (location input)
                     (match image_urls input with Some l => Some l | None => Some [] end)
                     active (Some 0) (Some now) (Some now)
                     None None None None None None (Some false) (Some false))
    by (rewrite Hr0; reflexivity).
  clear Hr0.
  (* the rows of the new id that a signed-in user reads *)
  assert (Hsel : forall v,
            sql_select Schema.products_table (authenticated v) d1
              (fun p => N.eqb (Product.id p) fresh) = [r]).
  { intros v. unfold sql_select. rewrite Hd1. simpl tbl_rows.
    rewrite filter_app. rewrite filter_none.
    - cbn [filter app]. cbn [tbl_policies Schema.products_table].
      rewrite ProductRequestFacts.select_policy.
      rewrite Hr. simpl. now rewrite N.eqb_refl.
    - intros p Hp.
      rewrite LocationFacts.first_conflict_none in Hfc.
      specialize (Hfc _ (or_introl eq_refl)). simpl in Hfc.
      rewrite existsb_false in Hfc. specialize (Hfc p Hp).
      rewrite Hr in Hfc. simpl in Hfc. rewrite N.eqb_sym, Hfc.
      now rewrite andb_false_r. }
  rewrite Hsel. simpl. intros [= <- <-].
  simpl in Hcheck. unfold check, guard in Hcheck.
  destruct (Z.ltb_spec 0 (Product.price r)) as [Hpos|]; [|discriminate].
  simpl in Href. unfold references, guard in Href.
  destruct (has_user d (Product.seller_id r)) eqn:Huser; [|discriminate].
  destruct (has_category d (Product.category_id r)) eqn:Hcat; [|discriminate].
  split; [rewrite Hr in *; simpl in *; repeat split; auto|].
  split; [rewrite Hd1; reflexivity|].
  unfold getProduct. rewrite Hsel. simpl.
  unfold seller_of, category_of, sql_select. rewrite Hd1. simpl tbl_rows.
  unfold has_user in Huser. unfold has_category in Hcat.
  destruct (hd_error_filter_In
              (fun up => rls_using (tbl_policies Schema.user_profiles_table)
                           FOR_SELECT (authenticated viewer)
                           (tbl_with Schema.products_table (products d ++ [r])%list d)
                           up
                         && N.eqb (UserProfile.id up) (Product.seller_id r))
              (user_profiles d)) as [up [Hup [Hupin Hupid]]].
  { rewrite <- Huser. apply existsb_pointwise. intros a.
    simpl. unfold pol_qual. simpl. now rewrite orb_true_r. }
  destruct (hd_error_filter_In
              (fun c => rls_using (tbl_policies Schema.categories_table)
                          FOR_SELECT (authenticated viewer)
                          (tbl_with Schema.products_table (products d ++ [r])%list d)
                          c
                        && N.eqb (Category.id c) (Product.category_id r))
              (categories d)) as [c [Hc [Hcin Hcid]]].
  { rewrite <- Hcat. apply existsb_pointwise. intros a. reflexivity. }
  exists up, c. simpl user_profiles. simpl categories.
  rewrite Hup, Hc. split; [reflexivity|].
  apply andb_true_iff in Hupid. destruct Hupid as [_ Hupid].
  apply andb_true_iff in Hcid. destruct Hcid as [_ Hcid].
  apply N.eqb_eq in Hupid, Hcid. rewrite Hr in Hupid, Hcid. simpl in Hupid, Hcid.
  auto.
Qed.

End CreateProductFacts.

Lemma getProduct_after_createProduct_witness :
  let input :=
    SupabaseRequests.mk_productInput "Pen" "blue ink" (5 # 2) 10%N "good" "Pune"
      None in
  exists row d',
    SupabaseRequests.createProduct (authenticated Sample.alice) 106%N 90 input
      Market.d1 = Data (row, d')
    /\ (Product.id row = 106%N
        /\ Product.seller_id row = Sample.alice
        /\ Product.status row = active
        /\ Product.views row = Some 0
        /\ to_decimal_10_2 (SupabaseRequests.price input) = Ok (Product.price row)
        /\ 0 < Product.price row
        /\ Product.title row = SupabaseRequests.title input
        /\ Product.description row = SupabaseRequests.description input
        /\ Product.category_id row = SupabaseRequests.category_id input
        /\ condition_of_label (SupabaseRequests.condition input)
           = Some (Product.condition row)
        /\ Product.location row = SupabaseRequests.location input)
    /\ products d' = (products Market.d1 ++ [row])%list
    /\ exists up c,
         SupabaseRequests.getProduct (authenticated Sample.bob) 106%N d'
         = Data (SupabaseRequests.mk_ProductView row (Some up) (Some c))
         /\ In up (user_profiles d') /\ UserProfile.id up = Sample.alice
         /\ In c (categories d')
         /\ Category.id c = SupabaseRequests.category_id input.
Proof.
  intros input. eexists. eexists. split; [reflexivity|].
  apply (CreateProductFacts.getProduct_after_createProduct Sample.alice Sample.bob
           106%N 90 input Market.d1).
  reflexivity.
Defined.

(* ================================================================== *)
(** ** Coordinates that are zero *)
(* ================================================================== *)

Section ZeroCoordinate.
Variable ST_Distance : geography -> geography -> Q.

(** What the procedure is called with. *)
Lemma getNearbyProducts_call (s : session) (lat lon : option Z)
    (radiusKm limitCount : Z) (d : db) :
  LocationClient.getNearbyProducts ST_Distance s lat lon radiusKm limitCount d
  = get_nearby_products ST_Distance s
      (match LocationClient.number_or_null lat with
       | Rpc.JNumber z => Some z
       | _ => None
       end)
      (match LocationClient.number_or_null lon with
       | Rpc.JNumber z => Some z
       | _ => None
       end)
      (Some radiusKm) (Some limitCount) d.
Proof.
  unfold LocationClient.getNearbyProducts, Rpc.get_nearby_products.
  unfold LocationClient.number_or_null.
  destruct lat as [lat|]; [destruct (Z.eqb lat 0)|];
    (destruct lon as [lon|]; [destruct (Z.eqb lon 0)|]); reflexivity.
Qed.

(** X23. getNearbyProducts sends a latitude or a longitude of 0 as
    null ([userLat || null]); the procedure then takes the location as
    not provided: the call returns what it returns without coordinates,
    the active products by creation time with no distance, whatever
    the other coordinate and the radius are. *)
Theorem getNearbyProducts_zero_coordinate (s : session) (userLat userLon : option Z)
    (radiusKm limitCount : Z) (d : db) :
  userLat = Some 0 \/ userLon = Some 0 ->
  LocationClient.getNearbyProducts ST_Distance s userLat userLon radiusKm limitCount d
  = LocationClient.getNearbyProducts ST_Distance s None None radiusKm limitCount d
  /\ LocationClient.getNearbyProducts ST_Distance s userLat userLon radiusKm
       limitCount d
     = get_nearby_products ST_Distance s None None (Some radiusKm) (Some limitCount) d.
Proof.
  intros H.
  assert (Hnone : forall lat lon : option Z,
            lat = None \/ lon = None ->
            get_nearby_products ST_Distance s lat lon (Some radiusKm)
              (Some limitCount) d
            = get_nearby_products ST_Distance s None None (Some radiusKm)
                (Some limitCount) d).
  { intros lat lon [-> | ->]; [reflexivity|]. now destruct lat. }
  rewrite !getNearbyProducts_call. split.
  - rewrite Hnone; [reflexivity|].
    destruct H as [-> | ->]; [left | right]; reflexivity.
  - apply Hnone. destruct H as [-> | ->]; [left | right]; reflexivity.
Qed.

End ZeroCoordinate.

(** From the point (0, 73.8567) the call lists the active products
    without a distance, the newest first. *)
Example nearby_from_the_equator :
  map (fun r => (NearbyProduct.id r, NearbyProduct.distance_km r))
      (rows_of (LocationClient.getNearbyProducts Sample.taxicab
                  (authenticated Sample.alice) (Some 0) (Some 7385670000) 50 20
                  Sample.d0))
  = [ (101%N, None); (100%N, None) ].
Proof. reflexivity. Qed.

Lemma getNearbyProducts_zero_coordinate_witness :
  (Some 0 = Some 0 \/ Some 7385670000 = Some 0)
  /\ LocationClient.getNearbyProducts Sample.taxicab (authenticated Sample.alice)
       (Some 0) (Some 7385670000) 50 20 Sample.d0
     = LocationClient.getNearbyProducts Sample.taxicab (authenticated Sample.alice)
         None None 50 20 Sample.d0
  /\ LocationClient.getNearbyProducts Sample.taxicab (authenticated Sample.alice)
       (Some 0) (Some 7385670000) 50 20 Sample.d0
     = get_nearby_products Sample.taxicab (authenticated Sample.alice) None None
         (Some 50) (Some 20) Sample.d0.
Proof.
  split; [left; reflexivity|].
  apply (getNearbyProducts_zero_coordinate Sample.taxicab
           (authenticated Sample.alice) (Some 0) (Some 7385670000) 50 20 Sample.d0).
  left. reflexivity.
Defined.

(* ================================================================== *)
(** ** An order whose items are rejected *)
(* ================================================================== *)

Module OrderRequestAtomicity.
Import SupabaseClient.

Lemma insert_order_items_rejected (s : session) (now : timestamptz)
    (fresh : nat -> uuid) (rows : list Rest.order_item_input) (d : db) :
  (exists i, In i rows
             /\ (Rest.ii_quantity i <= 0
                 \/ (Rest.ii_unit_price i <= 0)%Q
                 \/ (Rest.ii_total_price i <= 0)%Q)) ->
  exists e, Rest.insert_order_items s now fresh rows d = Err e.
Proof.
  intros [i [Hi Hbad]]. unfold Rest.insert_order_items.
  destruct (map_result (Rest.order_item_row now) (Rest.with_ids fresh rows))
    as [written|e] eqn:Hrows; simpl; [|eauto].
  destruct (ConstraintFacts.with_ids_In fresh rows i Hi) as [k Hk].
  destruct (map_result_In _ _ _ (k, i) Hrows Hk) as [y [Hy Hin]].
  apply (ConstraintFacts.sql_insert_all_rejected Schema.order_items_table s
           written y Hin).
  apply ConstraintFacts.order_item_check_rejects.
  unfold Rest.order_item_row in Hy.
  destruct (to_integer (Rest.ii_quantity i)) as [q|] eqn:Hq; simpl in Hy;
    [|discriminate].
  destruct (to_decimal_10_2 (Rest.ii_unit_price i)) as [p|] eqn:Hp;
    simpl in Hy; [|discriminate].
  destruct (to_decimal_10_2 (Rest.ii_total_price i)) as [t|] eqn:Ht;
    simpl in Hy; [|discriminate].
  injection Hy as <-. simpl.
  apply ConstraintFacts.integer_value in Hq.
  destruct Hbad as [H | [H | H]].
  - left. lia.
  - right. left. eapply ConstraintFacts.decimal_non_positive; eauto.
  - right. right. eapply ConstraintFacts.decimal_non_positive; eauto.
Qed.

(** X24. createOrder of lib/supabase makes two requests, and the
    first is not undone when the second fails: when the order is
    accepted and an item has a quantity, a unit price or a total price
    that is not positive, the caller gets the error of the items, no
    item is stored, and the order stays in the table. *)
Theorem createOrder_keeps_the_order (u : uuid) (order_uuid : uuid)
    (item_uuid : nat -> uuid) (now : timestamptz) (input : orderInput)
    (items : list orderItemInput) (d d1 : db) (orderData : Order.row) :
  Rest.insert_order (authenticated u) order_uuid now
    (Rest.mk_order_input u (seller_id input) (total_amount input)
       (delivery_address input) (payment_method input) (notes input)) d
  = Ok (orderData, d1) ->
  (exists i, In i items
             /\ (quantity i <= 0 \/ (unit_price i <= 0)%Q \/ (total_price i <= 0)%Q)) ->
  exists e,
    createOrder (authenticated u) order_uuid item_uuid now input items d = (Err e, d1)
    /\ orders d1 = (orders d ++ [orderData])%list
    /\ Order.id orderData = order_uuid
    /\ Order.buyer_id orderData = u
    /\ order_items d1 = order_items d.
Proof.
  intros Horder [i [Hi Hbad]].
  unfold createOrder. simpl getUser. cbv iota beta. rewrite Horder.
  destruct (insert_order_items_rejected (authenticated u) now item_uuid
              (map (fun item =>
                      Rest.mk_order_item_input (Order.id orderData)
                        (product_id item) (quantity item) (unit_price item)
                        (total_price item)) items) d1) as [e He].
  { exists (Rest.mk_order_item_input (Order.id orderData) (product_id i)
              (quantity i) (unit_price i) (total_price i)).
    split; [|exact Hbad]. apply in_map_iff. exists i. auto. }
  rewrite He. exists e. split; [reflexivity|].
  assert (Hrow : orderData
                 = Rest.order_row order_uuid now (Order.total_amount orderData)
                     (Rest.mk_order_input u (seller_id input) (total_amount input)
                        (delivery_address input) (payment_method input)
                        (notes input))).
  { unfold Rest.insert_order in Horder.
    destruct (to_decimal_10_2 _) as [total|]; simpl in Horder; [|discriminate].
    destruct (sql_insert _ _ _ _); simpl in Horder; [|discriminate].
    now injection Horder as <- _. }
  apply OrderFacts.insert_order_inv in Horder.
  destruct Horder as [_ [Hid [Horders Hitems]]].
  split; [exact Horders|]. split; [exact Hid|]. split; [|exact Hitems].
  rewrite Hrow. reflexivity.
Qed.

End OrderRequestAtomicity.

Lemma createOrder_keeps_the_order_witness :
  let input :=
    SupabaseClient.mk_orderInput Sample.bob (100 # 1)
      (Order.mk_address "Alice" "1 Main St" "Pune" "411001" "555-0100")
      "card" None in
  let items := [ SupabaseClient.mk_orderItemInput 100%N 0 (30 # 1) (30 # 1) ] in
  exists orderData d1,
    Rest.insert_order (authenticated Sample.alice) 500%N 80
      (Rest.mk_order_input Sample.alice (SupabaseClient.seller_id input)
         (SupabaseClient.total_amount input) (SupabaseClient.delivery_address input)
         (SupabaseClient.payment_method input) (SupabaseClient.notes input))
      Sample.d0
    = Ok (orderData, d1)
    /\ (exists i, In i items
                  /\ (SupabaseClient.quantity i <= 0
                      \/ (SupabaseClient.unit_price i <= 0)%Q
                      \/ (SupabaseClient.total_price i <= 0)%Q))
    /\ exists e,
         SupabaseClient.createOrder (authenticated Sample.alice) 500%N
           Sample.item_uuid 80 input items Sample.d0 = (Err e, d1)
         /\ orders d1 = (orders Sample.d0 ++ [orderData])%list
         /\ Order.id orderData = 500%N
         /\ Order.buyer_id orderData = Sample.alice
         /\ order_items d1 = order_items Sample.d0.
Proof.
  intros input items.
  assert (Hbad : exists i, In i items
                           /\ (SupabaseClient.quantity i <= 0
                               \/ (SupabaseClient.unit_price i <= 0)%Q
                               \/ (SupabaseClient.total_price i <= 0)%Q)).
  { eexists. split; [left; reflexivity|]. left. simpl. lia. }
  eexists. eexists. split; [reflexivity|]. split; [exact Hbad|].
  apply (OrderRequestAtomicity.createOrder_keeps_the_order Sample.alice 500%N
           Sample.item_uuid 80 input items Sample.d0); [reflexivity | exact Hbad].
Defined.

(** The order 500 of Alice stays without items. *)
Example order_without_items :
  let r :=
    SupabaseClient.createOrder (authenticated Sample.alice) 500%N Sample.item_uuid 80
      (SupabaseClient.mk_orderInput Sample.bob (100 # 1)
         (Order.mk_address "Alice" "1 Main St" "Pune" "411001" "555-0100")
         "card" None)
      [ SupabaseClient.mk_orderItemInput 100%N 0 (30 # 1) (30 # 1) ]
      Sample.d0 in
  (fst r, map Order.id (orders (snd r)), order_items (snd r))
  = (Err (check_violation "order_items_quantity_check"), [500%N], []).
Proof. reflexivity. Qed.

(* ================================================================== *)
(** ** Listing with a location *)
(* ================================================================== *)

Section LocationListingFacts.
Variable ST_Distance : geography -> geography -> Q.
Variable toLowerCase : string -> string.
Variable listing : Type.
Variable regular_query :
  session -> option LocationListing.filters -> db -> result (list listing).

Lemma filter_length_le {A : Type} (f : A -> bool) (l : list A) :
  (List.length (filter f l) <= List.length l)%nat.
Proof. induction l as [|a l IH]; simpl; [lia|]. destruct (f a); simpl; lia. Qed.

(** The filters applied in memory only take rows away. *)
Lemma apply_filters_narrow (f : LocationListing.filters)
    (l : list NearbyProduct.row) :
  (forall r, In r (LocationListing.apply_filters toLowerCase f l) -> In r l)
  /\ (List.length (LocationListing.apply_filters toLowerCase f l)
      <= List.length l)%nat.
Proof.
  unfold LocationListing.apply_filters. cbv zeta.
  repeat match goal with
         | |- context [if ?c then _ else _] => destruct c
         end;
    (split;
     [ intros r Hr;
       repeat (apply filter_In in Hr; destruct Hr as [Hr _]); exact Hr
     | repeat match goal with
              | |- (List.length (filter _ ?x) <= _)%nat =>
                  apply (Nat.le_trans _ (List.length x));
                  [apply filter_length_le|]
              end; lia ]).
Qed.

(** X25. With a latitude and a longitude that are not 0,
    getProductsWithLocation asks get_nearby_products for at most 20
    products within 50 kilometres and then applies its filters to those
    rows: what it returns is among these 20, so an active product that
    matches the filters but is farther away, or is nearer but not among
    the first 20, is not returned. *)
Theorem getProductsWithLocation_nearby (s : session) (fl : LocationListing.filters)
    (lat lon : Z) (d : db) :
  LocationListing.location fl
  = Some (LocationListing.mk_userLocation (Some lat) (Some lon)) ->
  lat <> 0 -> lon <> 0 ->
  exists near rows,
    get_nearby_products ST_Distance s (Some lat) (Some lon) (Some 50) (Some 20) d
    = Ok near
    /\ LocationListing.getProductsWithLocation ST_Distance toLowerCase listing
         regular_query s (Some fl) d = Ok (inl rows)
    /\ rows = LocationListing.apply_filters toLowerCase fl near
    /\ (forall r, In r rows -> In r near)
    /\ Forall (nearby_row ST_Distance d (ST_MakePoint lon lat) 50) rows
    /\ Z.of_nat (List.length rows) <= 20.
Proof.
  intros Hloc Hlat Hlon.
  assert (Hnear :
    get_nearby_products ST_Distance s (Some lat) (Some lon) (Some 50) (Some 20) d
    = Ok (firstn (Z.to_nat 20)
            (order_by nearest_first
               (map (fun j => select_list (distance_km_from ST_Distance
                                             (ST_MakePoint lon lat) (fst (fst j))) j)
                    (filter (within_radius ST_Distance (ST_MakePoint lon lat)
                               (Some (inject_Z (50 * 1000))))
                            (from_products_sellers_categories s d)))))).
  { unfold get_nearby_products. rewrite radius_in_metres_ok by lia.
    rewrite bind_ok. now rewrite sql_limit_ok by lia. }
  eexists. eexists. split; [exact Hnear|].
  unfold LocationListing.getProductsWithLocation. rewrite Hloc.
  cbn [LocationListing.latitude LocationListing.longitude
       LocationListing.truthy_coordinate].
  apply Z.eqb_neq in Hlat, Hlon. rewrite Hlat, Hlon. cbn [negb andb].
  rewrite getNearbyProducts_call. unfold LocationClient.number_or_null.
  rewrite Hlat, Hlon, Hnear, bind_ok.
  split; [reflexivity|]. split; [reflexivity|].
  destruct (apply_filters_narrow fl
              (firstn (Z.to_nat 20)
                 (order_by nearest_first
                    (map (fun j => select_list (distance_km_from ST_Distance
                                                  (ST_MakePoint lon lat) (fst (fst j))) j)
                         (filter (within_radius ST_Distance (ST_MakePoint lon lat)
                                    (Some (inject_Z (50 * 1000))))
                                 (from_products_sellers_categories s d))))))
    as [Hincl Hlen].
  split; [exact Hincl|]. split.
  - apply Forall_forall. intros r Hr. apply Hincl in Hr.
    pose proof (nearby_rows ST_Distance s d (ST_MakePoint lon lat) 50) as Hrows.
    apply (order_by_Forall nearest_first) in Hrows.
    apply (firstn_Forall _ (Z.to_nat 20)) in Hrows.
    rewrite Forall_forall in Hrows. now apply Hrows.
  - pose proof (firstn_length_Z 20
                  (order_by nearest_first
                     (map (fun j => select_list (distance_km_from ST_Distance
                                                   (ST_MakePoint lon lat) (fst (fst j))) j)
                          (filter (within_radius ST_Distance (ST_MakePoint lon lat)
                                     (Some (inject_Z (50 * 1000))))
                                  (from_products_sellers_categories s d))))) as H20.
    lia.
Qed.

End LocationListingFacts.

Lemma getProductsWithLocation_nearby_witness :
  let fl :=
    LocationListing.mk_filters (Some "Books") None None (Some (50 # 1)) None None None
      (Some (LocationListing.mk_userLocation (Some 1852040000) (Some 7385670000))) in
  let regular_query :=
    fun (_ : session) (_ : option LocationListing.filters) (_ : db) =>
      Ok (@nil unit) in
  LocationListing.location fl
  = Some (LocationListing.mk_userLocation (Some 1852040000) (Some 7385670000))
  /\ 1852040000 <> 0
  /\ 7385670000 <> 0
  /\ exists near rows,
       get_nearby_products Sample.taxicab (authenticated Sample.alice)
         (Some 1852040000) (Some 7385670000) (Some 50) (Some 20) Sample.d0 = Ok near
       /\ LocationListing.getProductsWithLocation Sample.taxicab (fun x => x) unit
            regular_query (authenticated Sample.alice) (Some fl) Sample.d0
          = Ok (inl rows)
       /\ rows = LocationListing.apply_filters (fun x => x) fl near
       /\ (forall r, In r rows -> In r near)
       /\ Forall (nearby_row Sample.taxicab Sample.d0
                    (ST_MakePoint 7385670000 1852040000) 50) rows
       /\ Z.of_nat (List.length rows) <= 20.
Proof.
  intros fl regular_query.
  split; [reflexivity|]. split; [lia|]. split; [lia|].
  apply (getProductsWithLocation_nearby Sample.taxicab (fun x => x) unit
           regular_query (authenticated Sample.alice) fl 1852040000 7385670000
           Sample.d0); [reflexivity | lia | lia].
Defined.

(** Alice asks for books up to 50.00 near her: of the two products
    nearby, the one of 45.00. *)
Example books_near_alice :
  match LocationListing.getProductsWithLocation Sample.taxicab (fun x => x) unit
          (fun _ _ _ => Ok [])
          (authenticated Sample.alice)
          (Some (LocationListing.mk_filters (Some "Books") None None (Some (50 # 1))
                   None None None
                   (Some (LocationListing.mk_userLocation (Some 1852040000)
                            (Some 7385670000)))))
          Sample.d0 with
  | Ok (inl rows) => map NearbyProduct.id rows
  | _ => []
  end = [101%N].
Proof. reflexivity. Qed.

(* ================================================================== *)
(** ** The conversations of a user *)
(* ================================================================== *)

Lemma StronglySorted_map {A B : Type} (R : B -> B -> Prop) (h : A -> B)
    (l : list A) :
  StronglySorted (fun a b => R (h a) (h b)) l -> StronglySorted R (map h l).
Proof.
  induction 1 as [|a l Hs IH Ha]; simpl; constructor; [exact IH|].
  apply Forall_forall. intros y Hy. apply in_map_iff in Hy.
  destruct Hy as [x [<- Hx]]. rewrite Forall_forall in Ha. now apply Ha.
Qed.

Module ConversationListFacts.
Import LocationRequests.

Lemma conversation_references (d : db) (c : Conversation.row) :
  table_valid Schema.conversations_table d = true ->
  In c (conversations d) ->
  has_user d (Conversation.user1_id c) = true
  /\ has_user d (Conversation.user2_id c) = true.
Proof.
  unfold table_valid. rewrite andb_true_iff, forallb_forall. intros [H _] Hc.
  specialize (H c Hc). apply andb_true_iff in H. destruct H as [_ H].
  simpl in H. unfold references, guard in H.
  destruct (has_user d (Conversation.user1_id c)); [|discriminate].
  destruct (has_user d (Conversation.user2_id c)); [|discriminate].
  auto.
Qed.

Lemma profile_of_found (u : uuid) (d : db) (k : uuid) :
  has_user d k = true ->
  exists up, profile_of (authenticated u) d k = Some up
             /\ In up (user_profiles d) /\ UserProfile.id up = k.
Proof.
  intros H. unfold profile_of, sql_select. simpl tbl_rows.
  destruct (CreateProductFacts.hd_error_filter_In
              (fun up => rls_using (tbl_policies Schema.user_profiles_table)
                           FOR_SELECT (authenticated u) d up
                         && N.eqb (UserProfile.id up) k)
              (user_profiles d)) as [up [Hup [Hin Hid]]].
  - rewrite <- H. apply CreateProductFacts.existsb_pointwise. intros a.
    simpl. unfold pol_qual. simpl. now rewrite orb_true_r.
  - exists up. split; [exact Hup|]. split; [exact Hin|].
    apply andb_true_iff in Hid. destruct Hid as [_ Hid]. now apply N.eqb_eq.
Qed.

(** X26. In a conversations table that satisfies its foreign keys,
    getConversations returns, to a signed-in user, the conversations
    in which the user is one of the two participants, and no other,
    the one with the latest message first, each with the profile of
    the other participant as other_user. *)
Theorem getConversations_spec (u : uuid) (d : db) :
  table_valid Schema.conversations_table d = true ->
  exists rows,
    getConversations (authenticated u) d = Ok rows
    /\ (forall c, In c (map conversation rows) <->
                  In c (conversations d)
                  /\ (Conversation.user1_id c = u \/ Conversation.user2_id c = u))
    /\ StronglySorted
         (fun a b => newer_or_same (Conversation.last_message_at (conversation a))
                                   (Conversation.last_message_at (conversation b)))
         rows
    /\ Forall
         (fun v =>
            exists up, other_user v = Some up
                       /\ In up (user_profiles d)
                       /\ UserProfile.id up = other_participant u (conversation v))
         rows.
Proof.
  intros Hvalid. unfold getConversations. simpl auth_uid. cbv iota beta.
  eexists. split; [reflexivity|].
  set (mine := sql_select Schema.conversations_table (authenticated u) d _).
  assert (Hmine : forall c, In c mine <->
                    In c (conversations d)
                    /\ (Conversation.user1_id c = u \/ Conversation.user2_id c = u)).
  { intros c. unfold mine, sql_select. rewrite filter_In. simpl tbl_rows.
    simpl. unfold pol_qual. simpl. rewrite !orb_false_r.
    rewrite andb_true_iff, !orb_true_iff, !N.eqb_eq. intuition congruence. }
  split; [|split].
  - intros c. rewrite map_map. simpl conversation. rewrite map_id.
    rewrite <- Hmine. split; intros H.
    + now apply (Permutation_in _ (Permutation_sym (order_by_perm _ _))) in H.
    + now apply (Permutation_in _ (order_by_perm _ _)).
  - apply StronglySorted_map. simpl conversation.
    eapply StronglySorted_weaken; [| apply order_by_sorted].
    + intros a b _ _ H. now apply desc_before_spec.
    + intros a b. apply desc_before_total.
    + intros a b c. apply desc_before_trans.
  - apply Forall_forall. intros v Hv. apply in_map_iff in Hv.
    destruct Hv as [c [<- Hc]]. simpl.
    apply (Permutation_in _ (Permutation_sym (order_by_perm _ _))) in Hc.
    apply Hmine in Hc. destruct Hc as [Hc _].
    destruct (conversation_references d c Hvalid Hc) as [H1 H2].
    unfold other_participant.
    destruct (N.eqb (Conversation.user1_id c) u);
      now apply profile_of_found.
Qed.

End ConversationListFacts.

Lemma getConversations_spec_witness :
  table_valid Schema.conversations_table Market.d1 = true
  /\ exists rows,
       LocationRequests.getConversations (authenticated Sample.bob) Market.d1 = Ok rows
       /\ (forall c, In c (map LocationRequests.conversation rows) <->
                     In c (conversations Market.d1)
                     /\ (Conversation.user1_id c = Sample.bob
                         \/ Conversation.user2_id c = Sample.bob))
       /\ StronglySorted
            (fun a b =>
               newer_or_same
                 (Conversation.last_message_at (LocationRequests.conversation a))
                 (Conversation.last_message_at (LocationRequests.conversation b)))
            rows
       /\ Forall
            (fun v =>
               exists up, LocationRequests.other_user v = Some up
                          /\ In up (user_profiles Market.d1)
                          /\ UserProfile.id up
                             = other_participant Sample.bob
                                 (LocationRequests.conversation v))
            rows.
Proof.
  split; [reflexivity|].
  apply (ConversationListFacts.getConversations_spec Sample.bob Market.d1).
  reflexivity.
Defined.

(* ================================================================== *)
(** ** The point of a product follows its coordinates *)
(* ================================================================== *)

Lemma updated_row_inv {row : Type} (T : table row) (s : session)
    (now : timestamptz) (d : db) (set : row -> row) (r r' : row) :
  updated_row T s now d set r = Ok r' -> r' = tbl_before_update T now (set r).
Proof.
  unfold updated_row.
  destruct (guard _ _); [rewrite bind_ok | discriminate].
  destruct (tbl_check T _); [rewrite bind_ok | discriminate].
  destruct (tbl_references T d _); [rewrite bind_ok | discriminate].
  now intros [= <-].
Qed.

Module LocationPointFacts.

Lemma trigger_sets_point (r : Product.row) :
  point_follows_coordinates (Triggers.update_location_point_product r).
Proof.
  unfold point_follows_coordinates, Triggers.update_location_point_product.
  destruct (Product.latitude r) as [la|] eqn:Hla;
    destruct (Product.longitude r) as [lo|] eqn:Hlo; simpl;
    intros lat lon H1 H2; congruence.
Qed.

Lemma insert_keeps_point (s : session) (d : db) (r : Product.row) :
  Forall point_follows_coordinates (products d) ->
  Forall point_follows_coordinates
    (products (Rest.commit (sql_insert Schema.products_table s d r) d)).
Proof.
  intros Hinv.
  destruct (sql_insert _ _ _ _) as [d'|] eqn:Hins; simpl; [|exact Hinv].
  apply sql_insert_inv in Hins. destruct Hins as [-> _]. simpl products.
  apply Forall_app. split; [exact Hinv|].
  constructor; [|constructor]. apply trigger_sets_point.
Qed.

(** X27. The trigger update_location_point keeps, on products, the
    geography point equal to the point of latitude and longitude
    whenever a row has both: if that holds for every product, it holds
    after the INSERT of any row or rows, whatever coordinates and point
    they carry, after the INSERT that the data layer makes for a new
    product, after any UPDATE, whatever it assigns, the point included,
    and after any DELETE of products, by any session. *)
Theorem location_point_follows_coordinates (s : session) (now : timestamptz)
    (d : db) :
  Forall point_follows_coordinates (products d) ->
  (forall r,
     Forall point_follows_coordinates
       (products (Rest.commit (sql_insert Schema.products_table s d r) d)))
  /\ (forall rows,
        Forall point_follows_coordinates
          (products (Rest.commit (sql_insert_all Schema.products_table s d rows) d)))
  /\ (forall fresh input,
        Forall point_follows_coordinates
          (products (Rest.commit (Rest.insert_product s fresh now input d) d)))
  /\ (forall w set,
        Forall point_follows_coordinates
          (products (Rest.commit (Rest.update_products s now w set d) d)))
  /\ (forall w,
        Forall point_follows_coordinates (products (Rest.delete_products s w d))).
Proof.
  intros Hinv. split; [|split; [|split; [|split]]].
  - intros r. now apply insert_keeps_point.
  - intros rows. revert d Hinv.
    induction rows as [|r rows IH]; intros d Hinv; simpl; [exact Hinv|].
    pose proof (insert_keeps_point s d r Hinv) as H1.
    destruct (sql_insert _ s d r) as [d1|]; simpl in *; [|exact Hinv].
    specialize (IH d1 H1).
    now destruct (sql_insert_all _ s d1 rows).
  - intros fresh input. unfold Rest.insert_product.
    destruct (to_decimal_10_2 (Rest.pi_price input)) as [c|]; simpl bind;
      [|exact Hinv].
    now apply insert_keeps_point.
  - intros w set. unfold Rest.update_products, sql_update.
    destruct (map_result _ (tbl_rows Schema.products_table d)) as [rows|] eqn:Hrows;
      simpl bind; [|exact Hinv].
    destruct (update_conflict _ rows); simpl; [exact Hinv|].
    apply map_result_Forall2 in Hrows. simpl tbl_rows in Hrows.
    induction Hrows as [|p x ps xs Hpx _ IH]; simpl; [constructor|].
    inversion Hinv as [|? ? Hp Hps]; subst.
    constructor; [|now apply IH].
    unfold update_step in Hpx.
    destruct (update_target _ _ _ _ _).
    + destruct (updated_row _ _ _ _ _ _) as [r'|] eqn:Hr'; simpl in Hpx;
        [|discriminate].
      injection Hpx as <-. apply updated_row_inv in Hr'. rewrite Hr'.
      apply trigger_sets_point.
    + now injection Hpx as <-.
  - intros w. rewrite OwnershipFacts.products_after_delete.
    rewrite Forall_forall in Hinv |- *. intros p Hp.
    apply filter_In in Hp. now apply Hinv.
Qed.

End LocationPointFacts.

Lemma location_point_follows_coordinates_witness :
  Forall point_follows_coordinates (products Sample.d0)
  /\ (forall r,
        Forall point_follows_coordinates
          (products (Rest.commit
                       (sql_insert Schema.products_table (authenticated Sample.bob)
                          Sample.d0 r) Sample.d0)))
  /\ (forall rows,
        Forall point_follows_coordinates
          (products (Rest.commit
                       (sql_insert_all Schema.products_table (authenticated Sample.bob)
                          Sample.d0 rows) Sample.d0)))
  /\ (forall fresh input,
        Forall point_follows_coordinates
          (products (Rest.commit
                       (Rest.insert_product (authenticated Sample.bob) fresh 90
                          input Sample.d0) Sample.d0)))
  /\ (forall w set,
        Forall point_follows_coordinates
          (products (Rest.commit
                       (Rest.update_products (authenticated Sample.bob) 90 w set
                          Sample.d0) Sample.d0)))
  /\ (forall w,
        Forall point_follows_coordinates
          (products (Rest.delete_products (authenticated Sample.bob) w Sample.d0))).
Proof.
  assert (H : Forall point_follows_coordinates (products Sample.d0)).
  { repeat constructor; intros lat lon [= <-] [= <-]; reflexivity. }
  split; [exact H|].
  exact (LocationPointFacts.location_point_follows_coordinates
           (authenticated Sample.bob) 90 Sample.d0 H).
Defined.

(** Bob inserts a product with the coordinates of Mumbai and a point in
    Pune: the row is stored with the point of its coordinates. *)
Example inserted_point_follows_the_coordinates :
  match sql_insert Schema.products_table (authenticated Sample.bob) Sample.d0
          (Product.set_location_point (Some (ST_MakePoint 7385680000 1852050000))
             (Sample.product 103%N "Globe" 2500 active 90
                (Some (ST_MakePoint 7287770000 1907600000)))) with
  | Ok d' =>
      map (fun p => (Product.latitude p, Product.longitude p,
                     Product.location_point p))
          (filter (fun p => N.eqb (Product.id p) 103%N) (products d'))
  | Err _ => []
  end
  = [ (Some 1907600000, Some 7287770000,
       Some (ST_MakePoint 7287770000 1907600000)) ].
Proof. reflexivity. Qed.

(** When a coordinate is NULL the trigger leaves the point as it is:
    Bob clears the latitude of his first product, and the point stays
    where it was. *)
Example cleared_latitude_keeps_the_point :
  match Rest.update_products (authenticated Sample.bob) 90
          (fun p => N.eqb (Product.id p) 100%N)
          (fun p => Product.set_location (Product.city p) (Product.state p)
                      (Product.pincode p) None (Product.longitude p)
                      (Product.location_point p) (Product.updated_at p) p)
          Sample.d0 with
  | Ok d' =>
      map (fun p => (Product.latitude p, Product.location_point p))
          (filter (fun p => N.eqb (Product.id p) 100%N) (products d'))
  | Err _ => []
  end
  = [ (None, Some (ST_MakePoint 7385680000 1852050000)) ].
Proof. reflexivity. Qed.

Lemma updateUserLocation_moves_products_witness :
  let OLD := Sample.profile Sample.bob "Bob" 1852050000 7385680000 in
  let NEW :=
    tbl_before_update Schema.user_profiles_table 90
      (LocationSync.location_assignment "Mumbai" "MH" "400001"
         (Some 1907600000) (Some 7287770000) OLD) in
  table_valid Schema.user_profiles_table Sample.d0 = true
  /\ table_valid Schema.products_table Sample.d0 = true
  /\ In OLD (user_profiles Sample.d0)
  /\ UserProfile.id OLD = Sample.bob
  /\ LocationRequests.assigned to_decimal_10_8 (Some (19076 # 1000))
     = Ok (Some 1907600000)
  /\ LocationRequests.assigned to_decimal_11_8 (Some (728777 # 10000))
     = Ok (Some 7287770000)
  /\ LocationSync.location_changed OLD NEW = true
  /\ exists d',
       LocationRequests.updateUserLocation (authenticated Sample.bob) 90
         "Mumbai" "MH" "400001" (Some (19076 # 1000)) (Some (728777 # 10000))
         Sample.d0
       = Data (NEW, d')
       /\ Forall2
            (fun p p' =>
               (Product.seller_id p = Sample.bob /\ Product.status p = active ->
                located_at NEW p p')
               /\ (Product.seller_id p <> Sample.bob \/ Product.status p <> active ->
                   p' = p))
            (products Sample.d0) (products d').
Proof.
  intros OLD NEW.
  assert (Hin : In OLD (user_profiles Sample.d0)).
  { right. left. reflexivity. }
  split; [reflexivity|]. split; [reflexivity|]. split; [exact Hin|].
  split; [reflexivity|]. split; [reflexivity|]. split; [reflexivity|].
  split; [reflexivity|].
  exact (LocationFacts.updateUserLocation_moves_products Sample.bob 90
           "Mumbai" "MH" "400001" (Some (19076 # 1000)) (Some (728777 # 10000))
           (Some 1907600000) (Some 7287770000) Sample.d0 OLD
           eq_refl eq_refl Hin eq_refl eq_refl eq_refl eq_refl).
Defined.

(* ================================================================== *)
(** ** Who reads and who writes a message *)
(* ================================================================== *)

Module MessagePrivacyFacts.

Lemma asc_before_spec (a b : option timestamptz) :
  asc_before a b = true <-> older_or_same a b.
Proof.
  unfold asc_before, older_or_same.
  destruct a as [x|], b as [y|]; simpl; try (split; [auto | reflexivity]).
  - destruct (Z.compare_spec x y); split; intros; try reflexivity; try lia;
      try discriminate.
  - split; [discriminate | contradiction].
Qed.

Lemma asc_before_total (a b : option timestamptz) :
  asc_before a b = true \/ asc_before b a = true.
Proof.
  rewrite !asc_before_spec. destruct a, b; simpl; auto; lia.
Qed.

Lemma asc_before_trans (a b c : option timestamptz) :
  asc_before a b = true -> asc_before b c = true -> asc_before a c = true.
Proof.
  rewrite !asc_before_spec. destruct a, b, c; simpl; auto; try lia; contradiction.
Qed.

Lemma getMessages_In (u conversationId : uuid) (d : db) (m : Message.row) :
  In m (rows_of (LocationClient.getMessages (authenticated u) conversationId d))
  <-> In m (messages d)
      /\ Message.conversation_id m = conversationId
      /\ (Message.sender_id m = u \/ Message.receiver_id m = u).
Proof.
  unfold LocationClient.getMessages. simpl rows_of. split; intros H.
  - apply (Permutation_in _ (Permutation_sym (order_by_perm _ _))) in H.
    unfold sql_select in H. apply filter_In in H. destruct H as [Hin H].
    simpl in H. unfold pol_qual in H. simpl in H.
    rewrite !orb_false_r in H. apply andb_true_iff in H.
    destruct H as [Hrls Hc]. apply N.eqb_eq in Hc.
    apply orb_true_iff in Hrls. rewrite !N.eqb_eq in Hrls.
    split; [exact Hin|]. split; [exact Hc|]. destruct Hrls; auto.
  - destruct H as [Hin [Hc Hparty]].
    apply (Permutation_in _ (order_by_perm _ _)).
    unfold sql_select. apply filter_In. split; [exact Hin|].
    simpl. unfold pol_qual. simpl. rewrite !orb_false_r.
    apply andb_true_iff. split; [|now apply N.eqb_eq].
    apply orb_true_iff. rewrite !N.eqb_eq. destruct Hparty; auto.
Qed.

(** X29. getMessages of the location and messaging library returns,
    to a signed-in user, the messages of the conversation that the
    user sent or received, and no other, the oldest first: what a user
    reads of a conversation is decided by the sender and the receiver
    of each message, not by the participants of the conversation. It
    asks for no user: a visitor who is not signed in gets no message and
    no error. *)
Theorem getMessages_spec (u conversationId : uuid) (d : db) :
  (exists rows,
     LocationClient.getMessages (authenticated u) conversationId d = Ok rows
     /\ (forall m, In m rows <->
                   In m (messages d)
                   /\ Message.conversation_id m = conversationId
                   /\ (Message.sender_id m = u \/ Message.receiver_id m = u))
     /\ StronglySorted
          (fun a b => older_or_same (Message.created_at a) (Message.created_at b))
          rows)
  /\ LocationClient.getMessages anon conversationId d = Ok [].
Proof.
  split.
  - exists (rows_of (LocationClient.getMessages (authenticated u) conversationId d)).
    split; [reflexivity|]. split; [intros m; apply getMessages_In|].
    unfold LocationClient.getMessages. simpl rows_of.
    eapply StronglySorted_weaken; [| apply order_by_sorted].
    + intros a b _ _ H. now apply asc_before_spec.
    + intros a b. apply asc_before_total.
    + intros a b c. apply asc_before_trans.
  - unfold LocationClient.getMessages, sql_select.
    rewrite filter_none; [reflexivity|]. intros m _. reflexivity.
Qed.

(** X30. The policy for INSERT on messages checks the sender only: a
    signed-in user with a profile can insert, as the sender, a message
    to any user with a profile into any conversation that exists, also
    one between two other users; the receiver then reads it with
    getMessages of that conversation. *)
Theorem message_into_any_conversation (u receiver conversationId fresh : uuid)
    (now : timestamptz) (text_ : text) (d : db) :
  has_user d u = true ->
  has_user d receiver = true ->
  has_conversation d conversationId = true ->
  unused_message_id d fresh = true ->
  let m :=
    Message.mk fresh conversationId u receiver None text_ (Some false)
      (Some now) (Some now) in
  SupabaseRequests.insert_message (authenticated u) fresh now
    (SupabaseRequests.mk_message_input (Some conversationId) u receiver None text_) d
  = Data (with_messages (messages d ++ [m])%list d)
  /\ In m (rows_of (LocationClient.getMessages (authenticated receiver)
                      conversationId
                      (with_messages (messages d ++ [m])%list d))).
Proof.
  intros Hu Hr Hc Hfresh m. split.
  - unfold SupabaseRequests.insert_message. simpl SupabaseRequests.mi_conversation_id.
    cbv iota beta. unfold SupabaseRequests.message_row. simpl.
    fold m.
    unfold sql_insert, check_unique, first_conflict. simpl.
    unfold pol_wco, pol_qual. simpl. rewrite N.eqb_refl. simpl.
    apply negb_true_iff in Hfresh.
    assert (Hid : existsb (fun b => N.eqb fresh (Message.id b)) (messages d) = false).
    { rewrite existsb_false in Hfresh |- *. intros x Hx.
      rewrite N.eqb_sym. now apply Hfresh. }
    rewrite Hid. simpl. rewrite Hc, Hu, Hr. reflexivity.
  - apply getMessages_In. simpl.
    split; [apply in_or_app; right; now left|]. split; [reflexivity|].
    now right.
Qed.

End MessagePrivacyFacts.

(** Carol writes to Bob into the conversation of Alice and Bob; Bob
    reads her message there, Alice does not. *)
Example carol_writes_into_the_conversation_of_others :
  match SupabaseRequests.insert_message (authenticated Sample.carol) 303%N 90
          (SupabaseRequests.mk_message_input (Some 200%N) Sample.carol Sample.bob
             None "psst") Sample.d0 with
  | Data d' =>
      (map Message.id
           (rows_of (LocationClient.getMessages (authenticated Sample.bob) 200%N d')),
       map Message.id
           (rows_of (LocationClient.getMessages (authenticated Sample.alice) 200%N d')))
  | Error _ => ([], [])
  end
  = ([300%N; 303%N], [300%N]).
Proof. reflexivity. Qed.

Lemma message_into_any_conversation_witness :
  let m :=
    Message.mk 303%N 200%N Sample.carol Sample.bob None "psst" (Some false)
      (Some 90) (Some 90) in
  has_user Sample.d0 Sample.carol = true
  /\ has_user Sample.d0 Sample.bob = true
  /\ has_conversation Sample.d0 200%N = true
  /\ unused_message_id Sample.d0 303%N = true
  /\ SupabaseRequests.insert_message (authenticated Sample.carol) 303%N 90
       (SupabaseRequests.mk_message_input (Some 200%N) Sample.carol Sample.bob
          None "psst") Sample.d0
     = Data (with_messages (messages Sample.d0 ++ [m])%list Sample.d0)
  /\ In m (rows_of (LocationClient.getMessages (authenticated Sample.bob) 200%N
                      (with_messages (messages Sample.d0 ++ [m])%list Sample.d0))).
Proof.
  intros m.
  split; [reflexivity|]. split; [reflexivity|]. split; [reflexivity|].
  split; [reflexivity|].
  apply (MessagePrivacyFacts.message_into_any_conversation Sample.carol Sample.bob
           200%N 303%N 90 "psst" Sample.d0); reflexivity.
Defined.
